(** * Exchange-rate aggregator: a shallow embedding of the provider modules

    The development follows the JavaScript sources:
    - [frankfurter.js]        the reference (mid-market) resolver,
    - [mastercard-scraper.js] the direct-conversion provider,
    - [visa-scraper.js]       the fee-adjusted conversion provider,
    - [amex-scraper.js]       the percentage-variance provider,
    - [server.js]             the request handlers (aggregation facade).

    JavaScript numbers are IEEE-754 binary64 values, embedded as Rocq's
    primitive floats.  [async] functions are embedded in a reader/state/error
    monad: the reader is the outside world (the providers' answers), the
    state holds the module-level variables (the three caches, the two shared
    browser pages), the clock and the log of network requests. *)

From Stdlib Require Import ZArith String Ascii List Lia Bool.
From Stdlib Require Import PrimFloat FloatOps SpecFloat FloatAxioms.
From stdpp Require Import gmap strings.

Set Warnings "-inexact-float".

Local Open Scope string_scope.
Local Open Scope Z_scope.

(** ** JavaScript numbers *)

Module Number.

Definition isNaN (x : float) : bool := PrimFloat.is_nan x.

Definition NaN : float := PrimFloat.nan.

(** [x > 0] on numbers: false when [x] is NaN. *)
Definition gt0 (x : float) : bool := PrimFloat.ltb PrimFloat.zero x.

(** Nearest binary64 value (ties to even) of the rational [p / q], for
    [0 < p] and [0 < q].  The quotient is taken with enough binary digits
    for a sticky bit below every rounding position of the format. *)
Definition of_ratio (neg : bool) (p q : Z) : float :=
  let k := Z.max 1080 (Z.log2 q - Z.log2 p + 66) in
  let n := (p * 2 ^ k) / q in
  let sticky := if (p * 2 ^ k) mod q =? 0 then 0 else 1 in
  let m := 2 * n + sticky in
  SF2Prim (binary_normalize prec emax (if neg then - m else m) (- k - 1) neg).

(** The number nearest to the integer [n]. *)
Definition of_Z (n : Z) : float :=
  SF2Prim (binary_normalize prec emax n 0 false).

(** The number denoted by the decimal [m * 10 ^ e10], [0 <= m]. *)
Definition of_decimal (neg : bool) (m e10 : Z) : float :=
  if m =? 0 then (if neg then PrimFloat.neg_zero else PrimFloat.zero)
  else if 310 <? e10 then (if neg then PrimFloat.neg_infinity else PrimFloat.infinity)
  else if e10 + Z.log2 m + 1 <? - 330 then (if neg then PrimFloat.neg_zero else PrimFloat.zero)
  else if 0 <=? e10 then of_ratio neg (m * 10 ^ e10) 1
  else of_ratio neg m (10 ^ (- e10)).

Fixpoint digits_of (fuel : nat) (n : Z) (acc : string) : string :=
  match fuel with
  | O => acc
  | S fuel' =>
      let acc' := String (ascii_of_nat (Z.to_nat (48 + n mod 10))) acc in
      if n <? 10 then acc' else digits_of fuel' (n / 10) acc'
  end.

(** The decimal form of an integer. *)
Definition of_int (n : Z) : string :=
  if n <? 0 then "-" +:+ digits_of (S (Z.to_nat (Z.log2 (- n)))) (- n) EmptyString
  else digits_of (S (Z.to_nat (Z.log2 n))) n EmptyString.

Fixpoint zeros (k : nat) : string :=
  match k with
  | O => EmptyString
  | S k' => "0" +:+ zeros k'
  end.

(** *** Number::toString

    The shortest decimal that reads back as the number: [k] digits [s]
    and a decimal exponent [n] with [s * 10 ^ (n - k)] rounding to [x],
    [k] as small as possible and [s] as close to [x] as possible. *)

(** [10 ^ t <= p / q] *)
Definition pow10_le (t p q : Z) : bool :=
  if 0 <=? t then 10 ^ t * q <=? p else q <=? p * 10 ^ (- t).

(** The largest [t] with [10 ^ t <= p / q], from an estimate below it. *)
Definition log10_floor (p q : Z) : Z :=
  let t0 := ((Z.log2 p - Z.log2 q - 1) * 30103) / 100000 - 1 in
  let up t := if pow10_le (t + 1) p q then t + 1 else t in
  up (up (up (up t0))).

(** The [k]-digit candidates around [p / q] that read back as [x], the
    closest first (the even one on a tie), with their exponent [n]. *)
Definition candidates (x : float) (p q t : Z) (k : Z) : list (Z * Z) :=
  let scale := k - 1 - t in
  let num := if 0 <=? scale then p * 10 ^ scale else p in
  let den := if 0 <=? scale then q else q * 10 ^ (- scale) in
  let lo := num / den in
  let r := num mod den in
  let reads_back s := PrimFloat.Leibniz.eqb (of_decimal false s (- scale)) x in
  let norm s := if s =? 10 ^ k then (10 ^ (k - 1), t + 2) else (s, t + 1) in
  let lo_first := (2 * r <? den) || ((2 * r =? den) && Z.even lo) in
  List.map norm
    (List.filter reads_back (if lo_first then [lo; lo + 1] else [lo + 1; lo])).

Fixpoint shortest (fuel : nat) (x : float) (p q t : Z) (k : Z) : Z * Z * Z :=
  match fuel with
  | O => (0, 1, 1)
  | S fuel' =>
      match candidates x p q t k with
      | (s, n) :: _ => (s, k, n)
      | [] => shortest fuel' x p q t (k + 1)
      end
  end.

Definition substring_from (i : nat) (s : string) : string :=
  String.substring i (String.length s - i) s.

Definition format_positive (x : float) : string :=
  match Prim2SF x with
  | S754_finite _ m e =>
      let p := if 0 <=? e then Zpos m * 2 ^ e else Zpos m in
      let q := if 0 <=? e then 1 else 2 ^ (- e) in
      let '(s, k, n) := shortest 17 x p q (log10_floor p q) 1 in
      let ds := of_int s in
      if (k <=? n) && (n <=? 21) then ds +:+ zeros (Z.to_nat (n - k))
      else if (0 <? n) && (n <=? 21) then
        String.substring 0 (Z.to_nat n) ds +:+ "." +:+ substring_from (Z.to_nat n) ds
      else if (-6 <? n) && (n <=? 0) then "0." +:+ zeros (Z.to_nat (- n)) +:+ ds
      else
        let e10 := n - 1 in
        let exp := (if e10 <? 0 then "-" else "+") +:+ of_int (Z.abs e10) in
        if k =? 1 then ds +:+ "e" +:+ exp
        else String.substring 0 1 ds +:+ "." +:+ substring_from 1 ds +:+ "e" +:+ exp
  | S754_infinity _ => "Infinity"
  | S754_zero _ => "0"
  | S754_nan => "NaN"
  end.

(** [String(x)], as in a template literal. *)
Definition toString (x : float) : string :=
  if PrimFloat.is_nan x then "NaN"
  else if PrimFloat.is_zero x then "0"
  else if PrimFloat.ltb x PrimFloat.zero then "-" +:+ format_positive (PrimFloat.opp x)
  else format_positive x.

End Number.



(** ** Scalars found in provider payloads

    The leaves of the JSON payloads the normalizers look at: they are tested
    for truthiness, compared with [===] and handed to [parseFloat]. *)

Inductive jsval : Type :=
  | JUndefined
  | JNull
  | JBool (b : bool)
  | JNum (x : float)
  | JStr (s : string).

(** ToBoolean. *)
Definition truthy (v : jsval) : bool :=
  match v with
  | JUndefined | JNull => false
  | JBool b => b
  | JNum x => negb (PrimFloat.is_zero x || PrimFloat.is_nan x)
  | JStr s => negb (String.eqb s EmptyString)
  end.

(** [v === s] for a string [s]. *)
Definition strict_eq_str (v : jsval) (s : string) : bool :=
  match v with
  | JStr t => String.eqb t s
  | _ => false
  end.

(** *** parseFloat

    The longest prefix of the trimmed string that is a StrDecimalLiteral,
    read as a number; NaN when there is none.  White space is the ASCII
    part of StrWhiteSpaceChar. *)

Module ParseFloat.

Definition is_digit (c : ascii) : bool :=
  let n := nat_of_ascii c in (48 <=? n)%nat && (n <=? 57)%nat.

Definition digit (c : ascii) : Z := Z.of_nat (nat_of_ascii c) - 48.

Definition is_space (c : ascii) : bool :=
  let n := nat_of_ascii c in
  ((9 <=? n)%nat && (n <=? 13)%nat) || (n =? 32)%nat.

Fixpoint trim_start (s : string) : string :=
  match s with
  | String c r => if is_space c then trim_start r else s
  | EmptyString => s
  end.

(** Reads a run of digits: their value on top of [acc], how many there
    were on top of [n], and the rest of the string. *)
Fixpoint digits (s : string) (acc : Z) (n : Z) : Z * Z * string :=
  match s with
  | String c r => if is_digit c then digits r (10 * acc + digit c) (n + 1) else (acc, n, s)
  | EmptyString => (acc, n, s)
  end.

Definition sign (s : string) : bool * string :=
  match s with
  | String "-" r => (true, r)
  | String "+" r => (false, r)
  | _ => (false, s)
  end.

(** The exponent part, when a well-formed one follows. *)
Definition exponent (s : string) : Z :=
  match s with
  | String c r =>
      if Ascii.eqb c "e" || Ascii.eqb c "E" then
        let '(neg, r') := sign r in
        let '(e, n, _) := digits r' 0 0 in
        if n =? 0 then 0 else if neg then - e else e
      else 0
  | EmptyString => 0
  end.

Definition of_string (s : string) : float :=
  let '(neg, s1) := sign (trim_start s) in
  if String.prefix "Infinity" s1
  then (if neg then PrimFloat.neg_infinity else PrimFloat.infinity)
  else
    let '(ip, ni, s2) := digits s1 0 0 in
    let '(m, nf, s3) :=
      match s2 with
      | String "." r => let '(m, nf, s3) := digits r ip 0 in (m, nf, s3)
      | _ => (ip, 0, s2)
      end in
    if ni + nf =? 0 then Number.NaN
    else Number.of_decimal neg m (exponent s3 - nf).

End ParseFloat.

(** [parseFloat v]: a number goes through its own decimal form, which gives
    the number back (and +0 for -0); the other scalars print as words that
    are not decimal literals. *)
Definition parseFloat (v : jsval) : float :=
  match v with
  | JStr s => ParseFloat.of_string s
  | JNum x => if PrimFloat.is_zero x then PrimFloat.zero else x
  | JUndefined | JNull | JBool _ => Number.NaN
  end.

(** ** Values returned by the rate functions

    A rate function resolves to a number, to [null] (the percentage-variance
    provider's sentinel) or to [undefined] (a currency missing from the
    reference provider's answer). *)

Inductive rate : Type :=
  | Num (x : float)
  | Null
  | Undefined.

(** ToNumber. *)
Definition to_number (r : rate) : float :=
  match r with
  | Num x => x
  | Null => PrimFloat.zero
  | Undefined => Number.NaN
  end.

(** ToBoolean. *)
Definition rate_truthy (r : rate) : bool :=
  match r with
  | Num x => negb (PrimFloat.is_zero x || PrimFloat.is_nan x)
  | Null | Undefined => false
  end.

(** [typeof r === 'number' && !Number.isNaN(r)]. *)
Definition is_good_number (r : rate) : bool :=
  match r with
  | Num x => negb (Number.isNaN x)
  | Null | Undefined => false
  end.

(** [r === null] *)
Definition is_null (r : rate) : bool :=
  match r with
  | Null => true
  | _ => false
  end.

(** ** Calendar dates

    Every [Date] in the sources is built from a [YYYY-MM-DD] string followed
    by [T00:00:00Z] and only moved by whole days, so a valid [Date] is given
    by its day number since 1970-01-01 and an invalid one ([NaN] time value)
    by [None]. *)

Module Date.

Definition days_from_civil (y m d : Z) : Z :=
  let y' := if m <=? 2 then y - 1 else y in
  let era := y' / 400 in
  let yoe := y' - era * 400 in
  let doy := (153 * (if 2 <? m then m - 3 else m + 9) + 2) / 5 + d - 1 in
  let doe := yoe * 365 + yoe / 4 - yoe / 100 + doy in
  era * 146097 + doe - 719468.

Definition civil_from_days (z : Z) : Z * Z * Z :=
  let z' := z + 719468 in
  let era := z' / 146097 in
  let doe := z' - era * 146097 in
  let yoe := (doe - doe / 1460 + doe / 36524 - doe / 146096) / 365 in
  let doy := doe - (365 * yoe + yoe / 4 - yoe / 100) in
  let mp := (5 * doy + 2) / 153 in
  let d := doy - (153 * mp + 2) / 5 + 1 in
  let m := if mp <? 10 then mp + 3 else mp - 9 in
  (if m <=? 2 then yoe + era * 400 + 1 else yoe + era * 400, m, d).

(** [String(n).padStart(k, '0')] for an integer [n] *)
Definition padStart (k : nat) (n : Z) : string :=
  let s := Number.of_int n in Number.zeros (k - String.length s) +:+ s.

(** Reads exactly [k] decimal digits. *)
Fixpoint fixed_digits (k : nat) (s : string) (acc : Z) : option (Z * string) :=
  match k with
  | O => Some (acc, s)
  | S k' =>
      match s with
      | String c r =>
          if ParseFloat.is_digit c then fixed_digits k' r (10 * acc + ParseFloat.digit c)
          else None
      | EmptyString => None
      end
  end.

(** [new Date(s + 'T00:00:00Z')] for [s] of the shape [YYYY-MM-DD], as
    Node's engine reads it: a month outside 1..12 or a day outside 1..31
    gives an invalid date, a day past the end of its month rolls over into
    the next one.  Strings of any other shape are taken as invalid. *)
Definition toDate (s : string) : option Z :=
  match fixed_digits 4 s 0 with
  | Some (y, String "-" s1) =>
      match fixed_digits 2 s1 0 with
      | Some (m, String "-" s2) =>
          match fixed_digits 2 s2 0 with
          | Some (d, EmptyString) =>
              if (1 <=? m) && (m <=? 12) && (1 <=? d) && (d <=? 31)
              then Some (days_from_civil y m 1 + (d - 1))
              else None
          | _ => None
          end
      | _ => None
      end
  | _ => None
  end.

(** The local [fmt] of the series functions and of the history handler:
    the year is printed as it is, month and day on two digits; every part
    of an invalid date prints as [NaN]. *)
Definition fmt (date : option Z) : string :=
  match date with
  | Some day =>
      let '(y, m, d) := civil_from_days day in
      Number.of_int y +:+ "-" +:+ padStart 2 m +:+ "-" +:+ padStart 2 d
  | None => "NaN-NaN-NaN"
  end.

(** [d.toISOString().split('T')[0]]: four digits for the years 0..9999,
    a sign and six digits for the others. *)
Definition isoDate (day : Z) : string :=
  let '(y, m, d) := civil_from_days day in
  (if (0 <=? y) && (y <=? 9999) then padStart 4 y
   else (if y <? 0 then "-" else "+") +:+ padStart 6 (Z.abs y))
  +:+ "-" +:+ padStart 2 m +:+ "-" +:+ padStart 2 d.

(** The loop
    [while (cursor <= end) { dates.push(fmt(cursor)); cursor += 1 day }].
    [fuel] bounds the number of iterations. *)
Fixpoint enumerate (fuel : nat) (cursor end_ : Z) : list string :=
  match fuel with
  | O => []
  | S fuel' =>
      if cursor <=? end_ then fmt (Some cursor) :: enumerate fuel' (cursor + 1) end_
      else []
  end.

(** The dates from [start] to [end_], both included; none when either
    date is invalid (a comparison with NaN is false). *)
Definition range (start end_ : option Z) : list string :=
  match start, end_ with
  | Some s, Some e => enumerate (Z.to_nat (e - s + 1)) s e
  | _, _ => []
  end.

End Date.

(** ** Provider payloads

    Each payload type keeps the members the normalizers read; a member that
    is absent (or not of the shape the code needs) is [None] or
    [JUndefined].  Objects are read by their own keys only: a currency code
    never names a member inherited from [Object.prototype]. *)

(** Reference provider, single date and [latest]: [data.rates]. *)
Definition fx_rates : Type := option (gmap string float).

(** Reference provider, range [start..end]: [data.rates], by date. *)
Definition fx_range : Type := option (gmap string (gmap string float)).

(** Direct-conversion provider: [data.data]. *)
Record mc_data : Type := {
  crdhldBillAmt : jsval;
  conversionRate : jsval
}.
Definition mc_body : Type := option mc_data.

(** Fee-adjusted provider: [data.originalValues.toAmountWithAdditionalFee];
    [None] when [data] or [data.originalValues] is missing. *)
Definition visa_body : Type := option jsval.

(** Percentage-variance provider: an array of settlement entries, each
    with its [consumer] list. *)
Record amex_consumer : Type := {
  submissionCurrencyCode : jsval;
  percentageVariance : jsval
}.
Record amex_entry : Type := {
  settlementCurrency : jsval;
  consumer : option (list amex_consumer)
}.
Definition amex_body : Type := option (list amex_entry).

(** ** The outside world *)

(** What a request comes back with: an HTTP reply, or no reply at all
    (connection refused, timeout, browser failure, unreadable body). *)
Inductive outcome (B : Type) : Type :=
  | Reply (status : Z) (data : B)
  | Failed (message : string).
Arguments Reply {B} status data.
Arguments Failed {B} message.

(** Opening the shared browser page ([ensureBrowser]): it may fail before
    or after the module's [sharedPage] variable has been assigned. *)
Inductive launch : Type :=
  | Launched
  | LaunchFailed (message : string) (page_assigned : bool).

Inductive request : Type :=
  | FxGet (url : string) (from to : string)
  | McGet (url : string)
  | VisaLaunch
  | VisaFetch (url : string)
  | AmexLaunch
  | AmexFetch (url : string).

(** The parts the program does not define: what each provider answers to a
    request sent at a given time, how long the answer takes, and whether
    a browser page can be opened. *)
Record env : Type := {
  fx_api : string -> string -> Z -> outcome fx_rates;
  fx_range_api : string -> string -> Z -> outcome fx_range;
  mc_api : string -> Z -> outcome mc_body;
  visa_launch : Z -> launch;
  visa_api : string -> Z -> outcome visa_body;
  amex_launch : Z -> launch;
  amex_api : string -> Z -> outcome amex_body;
  latency : request -> Z -> Z
}.

(** ** Program state *)

Record entry : Type := { value : rate; timestamp : Z }.

Record world : Type := {
  now : Z;                          (* Date.now(), in milliseconds *)
  mc_cache : gmap string entry;     (* mastercard-scraper.js: cache *)
  visa_cache : gmap string entry;   (* visa-scraper.js: cache *)
  amex_cache : gmap string entry;   (* amex-scraper.js: cache *)
  visa_page : bool;                 (* visa-scraper.js: sharedPage !== null *)
  amex_page : bool;                 (* amex-scraper.js: sharedPage !== null *)
  net_log : list request            (* the requests sent so far *)
}.

Definition set_mc_cache (c : gmap string entry) (w : world) : world :=
  {| now := now w; mc_cache := c; visa_cache := visa_cache w; amex_cache := amex_cache w;
     visa_page := visa_page w; amex_page := amex_page w; net_log := net_log w |}.

Definition set_visa_cache (c : gmap string entry) (w : world) : world :=
  {| now := now w; mc_cache := mc_cache w; visa_cache := c; amex_cache := amex_cache w;
     visa_page := visa_page w; amex_page := amex_page w; net_log := net_log w |}.

Definition set_amex_cache (c : gmap string entry) (w : world) : world :=
  {| now := now w; mc_cache := mc_cache w; visa_cache := visa_cache w; amex_cache := c;
     visa_page := visa_page w; amex_page := amex_page w; net_log := net_log w |}.

Definition set_visa_page (b : bool) (w : world) : world :=
  {| now := now w; mc_cache := mc_cache w; visa_cache := visa_cache w; amex_cache := amex_cache w;
     visa_page := b; amex_page := amex_page w; net_log := net_log w |}.

Definition set_amex_page (b : bool) (w : world) : world :=
  {| now := now w; mc_cache := mc_cache w; visa_cache := visa_cache w; amex_cache := amex_cache w;
     visa_page := visa_page w; amex_page := b; net_log := net_log w |}.

(** The same state, read at another time. *)
Definition set_now (t : Z) (w : world) : world :=
  {| now := t; mc_cache := mc_cache w; visa_cache := visa_cache w; amex_cache := amex_cache w;
     visa_page := visa_page w; amex_page := amex_page w; net_log := net_log w |}.

(** A request leaves a line in the log and takes its time. *)
Definition sent (e : env) (rq : request) (w : world) : world :=
  {| now := now w + Z.max 0 (latency e rq (now w));
     mc_cache := mc_cache w; visa_cache := visa_cache w; amex_cache := amex_cache w;
     visa_page := visa_page w; amex_page := amex_page w;
     net_log := (net_log w ++ [rq])%list |}.

(** ** The monad of [async] functions *)

Record error : Type := {
  message : string;
  response_status : option Z     (* error.response?.status *)
}.

Inductive result (A : Type) : Type :=
  | Ok (a : A)
  | Throw (err : error).
Arguments Ok {A} a.
Arguments Throw {A} err.

Definition M (A : Type) : Type := env -> world -> result A * world.

Definition ret {A} (a : A) : M A := fun _ w => (Ok a, w).

Definition throw {A} (err : error) : M A := fun _ w => (Throw err, w).

Definition bind {A B} (m : M A) (k : A -> M B) : M B :=
  fun e w =>
    match m e w with
    | (Ok a, w') => k a e w'
    | (Throw err, w') => (Throw err, w')
    end.

(** [try { m } catch (error) { h error }] *)
Definition try_catch {A} (m : M A) (h : error -> M A) : M A :=
  fun e w =>
    match m e w with
    | (Ok a, w') => (Ok a, w')
    | (Throw err, w') => h err e w'
    end.

Declare Scope js_scope.
Delimit Scope js_scope with js.
Notation "x <- m ;; k" := (bind m (fun x => k))
  (at level 100, m at next level, right associativity) : js_scope.
Notation "m ;;; k" := (bind m (fun _ => k))
  (at level 100, right associativity) : js_scope.
Local Open Scope js_scope.

(** [new Error(msg)] *)
Definition Error (msg : string) : error :=
  {| message := msg; response_status := None |}.

(** The TypeError of reading member [key] of [undefined]. *)
Definition TypeError_reading (key : string) : error :=
  Error ("Cannot read properties of undefined (reading '" +:+ key +:+ "')").

(** [Date.now()] *)
Definition Date_now : M Z := fun _ w => (Ok (now w), w).

Definition get_world : M world := fun _ w => (Ok w, w).

Definition modify (f : world -> world) : M unit := fun _ w => (Ok tt, f w).

(** [await axios.get(...)]: a reply outside 2xx and a missing reply both
    reject; the former carries [error.response.status]. *)
Definition axios_get {B} (rq : request) (answer : env -> Z -> outcome B) : M B :=
  fun e w =>
    match answer e (now w) with
    | Reply status data =>
        if (200 <=? status) && (status <? 300) then (Ok data, sent e rq w)
        else (Throw {| message := "Request failed with status code " +:+ Number.of_int status;
                       response_status := Some status |}, sent e rq w)
    | Failed msg => (Throw (Error msg), sent e rq w)
    end.

(** The fetch issued from inside the shared page, awaited through
    [page.waitForResponse]: only a reply with status 200 is waited for, so
    any other one ends in the wait's timeout. *)
Definition page_fetch {B} (rq : request) (answer : env -> Z -> outcome B) : M B :=
  fun e w =>
    match answer e (now w) with
    | Reply status data =>
        if status =? 200 then (Ok data, sent e rq w)
        else (Throw (Error "Timeout exceeded while waiting for event"), sent e rq w)
    | Failed msg => (Throw (Error msg), sent e rq w)
    end.

(** [a / b] and [a * b], with their ToNumber conversions. *)
Definition js_div (a b : rate) : rate :=
  Num (PrimFloat.div (to_number a) (to_number b)).

Definition js_mul (a b : rate) : rate :=
  Num (PrimFloat.mul (to_number a) (to_number b)).

(** ** frankfurter.js

    The [console.log] lines of the sources, each inside its own
    [try { } catch { }], change no result and are left out, here and in
    the other modules. *)

Definition FRANKFURTER_API : string := "https://api.frankfurter.app".

(** [data.rates[key]] *)
Definition rates_get (rates : fx_rates) (key : string) : M rate :=
  match rates with
  | None => throw (TypeError_reading key)
  | Some m =>
      match m !! key with
      | Some x => ret (Num x)
      | None => ret Undefined
      end
  end.

Definition getMidMarketRate (date base quote : string) : M rate :=
  try_catch
    (if String.eqb base quote then ret (Num 1%float)
     else if String.eqb base "EUR" then
       let url := FRANKFURTER_API +:+ "/" +:+ date in
       rates <- axios_get (FxGet url "EUR" quote) (fun e => fx_api e url quote) ;;
       rates_get rates quote
     else if String.eqb quote "EUR" then
       let url := FRANKFURTER_API +:+ "/" +:+ date in
       rates <- axios_get (FxGet url "EUR" base) (fun e => fx_api e url base) ;;
       r <- rates_get rates base ;;
       ret (js_div (Num 1%float) r)
     else
       let url := FRANKFURTER_API +:+ "/" +:+ date in
       let to := base +:+ "," +:+ quote in
       rates <- axios_get (FxGet url "EUR" to) (fun e => fx_api e url to) ;;
       eurToBase <- rates_get rates base ;;
       eurToQuote <- rates_get rates quote ;;
       ret (js_div eurToQuote eurToBase))
    (fun error =>
       if bool_decide (response_status error = Some 404) then
         let url := FRANKFURTER_API +:+ "/latest" in
         let to := if String.eqb base "EUR" then quote else base +:+ "," +:+ quote in
         rates <- axios_get (FxGet url "EUR" to) (fun e => fx_api e url to) ;;
         if String.eqb base "EUR" then rates_get rates quote
         else if String.eqb quote "EUR" then
           r <- rates_get rates base ;;
           ret (js_div (Num 1%float) r)
         else
           eurToBase <- rates_get rates base ;;
           eurToQuote <- rates_get rates quote ;;
           ret (js_div eurToQuote eurToBase)
       else throw (Error ("Failed to fetch mid-market rate: " +:+ message error))).

(** The rate of one day's entries in the range endpoint's answer. *)
Definition range_rate (base quote : string) (entries : gmap string float) : rate :=
  let get k := match entries !! k with Some x => Num x | None => Undefined end in
  if String.eqb base "EUR" then get quote
  else if String.eqb quote "EUR" then js_div (Num 1%float) (get base)
  else js_div (get quote) (get base).

(** The resulting [Map] of dates to numbers. *)
Definition getMidMarketSeries (startDate endDate base quote : string) : M (gmap string float) :=
  let url := FRANKFURTER_API +:+ "/" +:+ startDate +:+ ".." +:+ endDate in
  if String.eqb base quote then
    rates <- axios_get (FxGet url "EUR" "EUR") (fun e => fx_range_api e url "EUR") ;;
    match rates with
    | None => throw (Error "Cannot convert undefined or null to object")
    | Some byDate => ret ((fun _ => 1%float) <$> byDate)
    end
  else
    let to :=
      if String.eqb base "EUR" || String.eqb quote "EUR"
      then (if String.eqb base "EUR" then quote else base)
      else base +:+ "," +:+ quote in
    rates <- axios_get (FxGet url "EUR" to) (fun e => fx_range_api e url to) ;;
    let ratesByDate := default ∅ rates in
    ret (omap (fun entries =>
                 match range_rate base quote entries with
                 | Num x => if Number.isNaN x then None else Some x
                 | _ => None
                 end) ratesByDate).

(** ** The series loop

    [getMastercardSeries], [getVisaSeries] and [getAmexSeries] end with the
    same loop over the enumerated dates, each around its own rate function:
    [lastGood] and [series] are the loop's two variables. *)

Fixpoint series_loop (getRate : string -> M rate) (dates : list string)
    (lastGood : rate) (series : list rate) : M (list rate) :=
  match dates with
  | [] => ret series
  | d :: rest =>
      vars <- try_catch
                (r <- getRate d ;;
                 if is_good_number r then ret (r, (series ++ [r])%list)
                 else ret (lastGood, (series ++ [lastGood])%list))
                (fun _ => ret (lastGood, (series ++ [lastGood])%list)) ;;
      series_loop getRate rest (fst vars) (snd vars)
  end.

(** ** mastercard-scraper.js *)

Module Mastercard.

Definition MASTERCARD_API_BASE : string :=
  "https://www.mastercard.com/marketingservices/public/mccom-services/currency-conversions".

Definition CACHE_TTL : Z := 1000 * 60 * 60.

Definition getCacheKey (date base quote : string) (amount : float) : string :=
  date +:+ "|" +:+ base +:+ "|" +:+ quote +:+ "|" +:+ Number.toString amount.

Definition api_url (date base quote : string) (amount : float) : string :=
  MASTERCARD_API_BASE +:+ "/conversion-rates?exchange_date=" +:+ date
    +:+ "&transaction_currency=" +:+ base
    +:+ "&cardholder_billing_currency=" +:+ quote
    +:+ "&bank_fee=0&transaction_amount=" +:+ Number.toString amount.

Definition getMastercardRateViaAPI (date base quote : string) (amount : float) : M rate :=
  try_catch
    (let url := api_url date base quote amount in
     body <- axios_get (McGet url) (fun e => mc_api e url) ;;
     match body with
     | Some data =>
         let perUnitOrThrow :=
           if truthy (conversionRate data) then
             let perUnit := parseFloat (conversionRate data) in
             if negb (Number.isNaN perUnit) then ret (Num perUnit)
             else throw (Error "Could not parse API response")
           else throw (Error "Could not parse API response") in
         if truthy (crdhldBillAmt data) then
           let converted := parseFloat (crdhldBillAmt data) in
           if negb (Number.isNaN converted) && Number.gt0 amount
           then ret (Num (PrimFloat.div converted amount))
           else perUnitOrThrow
         else perUnitOrThrow
     | None => throw (Error "Could not parse API response")
     end)
    (fun _ => ret Null).

Definition getMastercardRate (date base quote : string) (amount : float) : M rate :=
  let cacheKey := getCacheKey date base quote amount in
  let miss :=
    apiRate <- getMastercardRateViaAPI date base quote amount ;;
    if negb (is_null apiRate) then
      modify (fun w =>
        set_mc_cache (<[cacheKey := {| value := apiRate; timestamp := now w |}]> (mc_cache w)) w) ;;;
      ret apiRate
    else throw (Error "Failed to fetch Mastercard rate from API") in
  w <- get_world ;;
  match mc_cache w !! cacheKey with
  | Some c =>
      if now w - timestamp c <? CACHE_TTL then ret (value c)
      else
        modify (fun w => set_mc_cache (delete cacheKey (mc_cache w)) w) ;;;
        miss
  | None => miss
  end.

Definition getMastercardSeries (startDate endDate base quote : string) : M (list rate) :=
  let dates := Date.range (Date.toDate startDate) (Date.toDate endDate) in
  series_loop (fun d => getMastercardRate d base quote 1%float) dates Null [].

End Mastercard.

(** ** visa-scraper.js *)

Module Visa.

Definition VISA_API_BASE : string := "https://www.visa.co.uk/cmsapi/fx/rates".

Definition CACHE_TTL : Z := 1000 * 60 * 60.

Definition getCacheKey (date base quote : string) (amount : float) : string :=
  date +:+ "|" +:+ base +:+ "|" +:+ quote +:+ "|" +:+ Number.toString amount.

Definition formatDateForVisa (dateStr : string) : string :=
  match Date.toDate dateStr with
  | Some day =>
      let '(y, m, d) := Date.civil_from_days day in
      Date.padStart 2 m +:+ "%2F" +:+ Date.padStart 2 d +:+ "%2F" +:+ Number.of_int y
  | None => "NaN%2FNaN%2FNaN"
  end.

Definition ensureBrowser : M unit :=
  fun e w =>
    if visa_page w then (Ok tt, w)
    else
      match visa_launch e (now w) with
      | Launched => (Ok tt, set_visa_page true (sent e VisaLaunch w))
      | LaunchFailed msg assigned =>
          (Throw (Error msg), set_visa_page assigned (sent e VisaLaunch w))
      end.

Definition getVisaRateViaPlaywright (date base quote : string) (amount : float) : M rate :=
  try_catch
    (ensureBrowser ;;;
     let formattedDate := formatDateForVisa date in
     let expectedUrl :=
       VISA_API_BASE +:+ "?amount=" +:+ Number.toString amount
         +:+ "&fee=0&utcConvertedDate=" +:+ formattedDate
         +:+ "&exchangedate=" +:+ formattedDate
         +:+ "&fromCurr=" +:+ quote +:+ "&toCurr=" +:+ base in
     body <- page_fetch (VisaFetch expectedUrl) (fun e => visa_api e expectedUrl) ;;
     match body with
     | Some toAmountWithAdditionalFee =>
         if truthy toAmountWithAdditionalFee then
           let converted := parseFloat toAmountWithAdditionalFee in
           if negb (Number.isNaN converted) then
             ret (Num (if Number.gt0 amount then PrimFloat.div converted amount else converted))
           else throw (Error "Could not parse Visa API response")
         else throw (Error "Could not parse Visa API response")
     | None => throw (Error "Could not parse Visa API response")
     end)
    (fun _ => ret Null).

Definition getVisaRate (date base quote : string) (amount : float) : M rate :=
  let cacheKey := getCacheKey date base quote amount in
  let miss :=
    apiRate <- getVisaRateViaPlaywright date base quote amount ;;
    if negb (is_null apiRate) then
      modify (fun w =>
        set_visa_cache (<[cacheKey := {| value := apiRate; timestamp := now w |}]> (visa_cache w)) w) ;;;
      ret apiRate
    else throw (Error "Failed to fetch Visa rate from Playwright") in
  w <- get_world ;;
  match visa_cache w !! cacheKey with
  | Some c =>
      if now w - timestamp c <? CACHE_TTL then ret (value c)
      else
        modify (fun w => set_visa_cache (delete cacheKey (visa_cache w)) w) ;;;
        miss
  | None => miss
  end.

Definition getVisaSeries (startDate endDate base quote : string) : M (list rate) :=
  let dates := Date.range (Date.toDate startDate) (Date.toDate endDate) in
  series_loop (fun d => getVisaRate d base quote 1%float) dates Null [].

End Visa.

(** ** amex-scraper.js *)

Module Amex.

Definition AMEX_API_BASE : string :=
  "https://www.americanexpress.com/gemservices/gcdt/ecbrates/".

Definition CACHE_TTL : Z := 1000 * 60 * 60.

Definition currencyToCountry : list (string * string) :=
  [ ("EUR", "IT"); ("GBP", "UK"); ("SEK", "SE"); ("DKK", "DK"); ("NOK", "NO");
    ("PLN", "PL"); ("CZK", "CZ"); ("HUF", "HU");
    ("USD", "ICC"); ("JPY", "ICC"); ("CHF", "ICC"); ("CAD", "ICC"); ("AUD", "ICC");
    ("NZD", "ICC"); ("RON", "ICC"); ("BGN", "ICC"); ("HRK", "ICC"); ("RUB", "ICC");
    ("TRY", "ICC"); ("BRL", "ICC"); ("CNY", "ICC"); ("HKD", "ICC"); ("IDR", "ICC");
    ("ILS", "ICC"); ("INR", "ICC"); ("KRW", "ICC"); ("MXN", "ICC"); ("MYR", "ICC");
    ("PHP", "ICC"); ("SGD", "ICC"); ("THB", "ICC"); ("ZAR", "ICC"); ("ISK", "ICC") ].

(** [currencyToCountry[base] || 'ICC'] *)
Definition market_of (base : string) : string :=
  match List.find (fun kv => String.eqb (fst kv) base) currencyToCountry with
  | Some kv => snd kv
  | None => "ICC"
  end.

Definition getCacheKey (date base quote : string) : string :=
  date +:+ "|" +:+ base +:+ "|" +:+ quote.

Definition ensureBrowser : M unit :=
  fun e w =>
    if amex_page w then (Ok tt, w)
    else
      match amex_launch e (now w) with
      | Launched => (Ok tt, set_amex_page true (sent e AmexLaunch w))
      | LaunchFailed msg assigned =>
          (Throw (Error msg), set_amex_page assigned (sent e AmexLaunch w))
      end.

(** The tail shared by the two branches once [rateData] is chosen: look
    [code] up in its consumer list and apply the variance. *)
Definition apply_variance (ecbRate : rate) (rateData : amex_entry)
    (code : string) (needsInversion : bool) : M rate :=
  match consumer rateData with
  | Some consumers =>
      match List.find (fun c => strict_eq_str (submissionCurrencyCode c) code) consumers with
      | Some quoteData =>
          if truthy (percentageVariance quoteData) then
            let variance := parseFloat (percentageVariance quoteData) in
            let multiplier := (1 + variance / 100)%float in
            ret (Num (if needsInversion
                      then (to_number ecbRate / multiplier)%float
                      else (to_number ecbRate * multiplier)%float))
          else throw (Error "Could not parse Amex API response")
      | None => throw (Error "Could not parse Amex API response")
      end
  | None => throw (Error "Could not parse Amex API response")
  end.

Definition getAmexRateViaPlaywright (date base quote : string) (amount : float) : M rate :=
  try_catch
    (ensureBrowser ;;;
     ecbRate <- getMidMarketRate date base quote ;;
     let market := market_of base in
     let url := AMEX_API_BASE +:+ "?market=" +:+ market in
     data <- page_fetch (AmexFetch url) (fun e => amex_api e url) ;;
     match data with
     | Some (first :: others) =>
         let data := first :: others in
         if String.eqb market "ICC" then
           let normalizedBase := if String.eqb base "EUR" then "EURO" else base in
           let normalizedQuote := if String.eqb quote "EUR" then "EURO" else quote in
           match List.find (fun en => strict_eq_str (settlementCurrency en) normalizedBase) data with
           | Some rateData => apply_variance ecbRate rateData quote false
           | None =>
               match List.find (fun en => strict_eq_str (settlementCurrency en) normalizedQuote) data with
               | Some rateData => apply_variance ecbRate rateData base true
               | None => ret Null
               end
           end
         else apply_variance ecbRate first quote false
     | _ => throw (Error "Could not parse Amex API response")
     end)
    (fun _ => ret Null).

Definition getAmexRate (date base quote : string) (amount : float) : M rate :=
  let cacheKey := getCacheKey date base quote in
  let miss :=
    apiRate <- getAmexRateViaPlaywright date base quote amount ;;
    if negb (is_null apiRate) then
      modify (fun w =>
        set_amex_cache (<[cacheKey := {| value := apiRate; timestamp := now w |}]> (amex_cache w)) w) ;;;
      ret apiRate
    else ret Null in
  w <- get_world ;;
  match amex_cache w !! cacheKey with
  | Some c =>
      if now w - timestamp c <? CACHE_TTL then ret (value c)
      else
        modify (fun w => set_amex_cache (delete cacheKey (amex_cache w)) w) ;;;
        miss
  | None => miss
  end.

Definition getAmexSeries (startDate endDate base quote : string) : M (list rate) :=
  let dates := Date.range (Date.toDate startDate) (Date.toDate endDate) in
  series_loop (fun d => getAmexRate d base quote 1%float) dates Null [].

End Amex.

(** ** server.js *)

Module Server.

(** [req.query]: each parameter is a string when present. *)
Record query : Type := {
  q_date : option string;
  q_base : option string;
  q_quote : option string;
  q_amount : option string;
  q_days : option string
}.

(** What a handler sends: [res.json(body)], or
    [res.status(status).json({ error, details })]. *)
Inductive http (B : Type) : Type :=
  | Json200 (body : B)
  | JsonError (status : Z) (error : string) (details : option string).
Arguments Json200 {B} body.
Arguments JsonError {B} status error details.

(** [!s] on a query parameter *)
Definition missing (s : option string) : bool :=
  match s with
  | Some t => String.eqb t EmptyString
  | None => true
  end.

Definition is_upper (c : ascii) : bool :=
  let n := nat_of_ascii c in (65 <=? n)%nat && (n <=? 90)%nat.

(** [/^\d{4}-\d{2}-\d{2}$/.test(s)] *)
Definition date_format (s : string) : bool :=
  match s with
  | String y1 (String y2 (String y3 (String y4 (String "-"
      (String m1 (String m2 (String "-" (String d1 (String d2 EmptyString))))))))) =>
      forallb ParseFloat.is_digit [y1; y2; y3; y4; m1; m2; d1; d2]
  | _ => false
  end.

(** [/^[A-Z]{3}$/.test(s)] *)
Definition currency_format (s : string) : bool :=
  match s with
  | String a (String b (String c EmptyString)) => forallb is_upper [a; b; c]
  | _ => false
  end.

(** [Math.max(0, parseFloat(req.query.amount || '1') || 1)] *)
Definition amount_of (a : option string) : float :=
  let text := match a with
              | Some t => if String.eqb t EmptyString then "1" else t
              | None => "1"
              end in
  let parsed := ParseFloat.of_string text in
  let x := if PrimFloat.is_zero parsed || PrimFloat.is_nan parsed then 1%float else parsed in
  if PrimFloat.ltb x 0%float then 0%float else x.

(** [new Date(date + 'T00:00:00Z')], moved one day back, as
    [toISOString().split('T')[0]]; [toISOString] throws on an invalid
    date. *)
Definition yesterday_of (date : string) : M string :=
  match Date.toDate date with
  | Some day => ret (Date.isoDate (day - 1))
  | None => throw (Error "Invalid time value")
  end.

(** [((a - b) / b) * 100] *)
Definition pct (a b : rate) : rate :=
  Num (((to_number a - to_number b) / to_number b) * 100)%float.

Record converted_body : Type := {
  c_mid : rate; c_mc : rate; c_visa : rate; c_amex : rate
}.

Record rates_body : Type := {
  r_date : string; r_base : string; r_quote : string; r_amount : float;
  mid : rate; mc : rate; visa : rate; amex : rate;
  amexUnavailable : bool;
  converted : converted_body;
  mcDeltaPct : rate; visaDeltaPct : rate; amexDeltaPct : rate;
  midDeltaPct : rate; mcDayDeltaPct : rate; visaDayDeltaPct : rate;
  amexDayDeltaPct : rate
}.

(** A promise run to its end: how it settled. *)
Definition settle {A} (m : M A) : M (result A) :=
  fun e w => let '(r, w') := m e w in (Ok r, w').

(** [p.catch(() => null)] *)
Definition catch_null (m : M rate) : M rate := try_catch m (fun _ => ret Null).

(** How [Promise.all] settles: with all the values, or rejected with the
    error of a rejected member (here the first one in the array). *)
Fixpoint all_of {A} (rs : list (result A)) : result (list A) :=
  match rs with
  | [] => Ok []
  | Ok a :: rest =>
      match all_of rest with
      | Ok l => Ok (a :: l)
      | Throw err => Throw err
      end
  | Throw err :: _ => Throw err
  end.

(** [await Promise.all(promises)].  Every member is started and runs to
    its end whatever happens to the others; the members are run here one
    after the other, in the order of the array. *)
Fixpoint run_all {A} (ps : list (M A)) : M (list (result A)) :=
  match ps with
  | [] => ret []
  | p :: rest =>
      r <- settle p ;;
      rs <- run_all rest ;;
      ret (r :: rs)
  end.

Definition Promise_all {A} (ps : list (M A)) : M (list A) :=
  rs <- run_all ps ;;
  match all_of rs with
  | Ok l => ret l
  | Throw err => throw err
  end.

(** [app.get('/api/rates', ...)] *)
Definition api_rates (q : query) : M (http rates_body) :=
  try_catch
    (let amount := amount_of (q_amount q) in
     if missing (q_date q) || missing (q_base q) || missing (q_quote q) then
       ret (JsonError 400 "Missing required parameters: date, base, quote" None)
     else
       let date := default EmptyString (q_date q) in
       let base := default EmptyString (q_base q) in
       let quote := default EmptyString (q_quote q) in
       if negb (date_format date) then
         ret (JsonError 400 "Invalid date format. Expected YYYY-MM-DD" None)
       else if negb (currency_format base) || negb (currency_format quote) then
         ret (JsonError 400 "Invalid currency format. Expected 3-letter codes (e.g., EUR, JPY)" None)
       else
         yesterdayStr <- yesterday_of date ;;
         values <- Promise_all
           [ getMidMarketRate date base quote;
             Mastercard.getMastercardRate date base quote amount;
             Visa.getVisaRate date base quote amount;
             Amex.getAmexRate date base quote amount;
             catch_null (getMidMarketRate yesterdayStr base quote);
             catch_null (Mastercard.getMastercardRate yesterdayStr base quote amount);
             catch_null (Visa.getVisaRate yesterdayStr base quote amount);
             catch_null (Amex.getAmexRate yesterdayStr base quote amount) ] ;;
         match values with
         | [mid; mc; visa; amex; midYesterday; mcYesterday; visaYesterday; amexYesterday] =>
             let amexUnavailable := is_null amex in
             ret (Json200
               {| r_date := date; r_base := base; r_quote := quote; r_amount := amount;
                  mid := mid; mc := mc; visa := visa;
                  amex := if amexUnavailable then Null else amex;
                  amexUnavailable := amexUnavailable;
                  converted :=
                    {| c_mid := js_mul mid (Num amount);
                       c_mc := js_mul mc (Num amount);
                       c_visa := js_mul visa (Num amount);
                       c_amex := if amexUnavailable then Null else js_mul amex (Num amount) |};
                  mcDeltaPct := pct mc mid;
                  visaDeltaPct := pct visa mid;
                  amexDeltaPct := if amexUnavailable then Null else pct amex mid;
                  midDeltaPct := if rate_truthy midYesterday then pct mid midYesterday else Null;
                  mcDayDeltaPct := if rate_truthy mcYesterday then pct mc mcYesterday else Null;
                  visaDayDeltaPct := if rate_truthy visaYesterday then pct visa visaYesterday else Null;
                  amexDayDeltaPct :=
                    if amexUnavailable || negb (rate_truthy amexYesterday) then Null
                    else pct amex amexYesterday |})
         | _ => throw (Error "undefined is not iterable")
         end)
    (fun error => ret (JsonError 500 "Failed to fetch rates" (Some (message error)))).

(** The two loops of the history handler that build [midSeries] from the
    labels and the reference provider's map. *)
Definition firstKnown (labels : list string) (midMap : gmap string float) : rate :=
  match List.find (fun d => bool_decide (is_Some (midMap !! d))) labels with
  | Some d => match midMap !! d with Some x => Num x | None => Undefined end
  | None => Null
  end.

Fixpoint fill_mid (labels : list string) (midMap : gmap string float)
    (last : rate) (midSeries : list rate) : list rate :=
  match labels with
  | [] => midSeries
  | d :: rest =>
      let last' := match midMap !! d with Some x => Num x | None => last end in
      fill_mid rest midMap last' (midSeries ++ [last'])%list
  end.

Definition midSeries_of (labels : list string) (midMap : gmap string float) : list rate :=
  fill_mid labels midMap (firstKnown labels midMap) [].

(** [s.filter(v => v !== null).reduce((a, b) => a + b, 0)
     / s.filter(v => v !== null).length] *)
Definition average (s : list rate) : rate :=
  let known := List.filter (fun v => negb (is_null v)) s in
  Num (fold_left (fun a b => (a + to_number b)%float) known 0%float
       / Number.of_Z (Z.of_nat (List.length known)))%float.

(** [parseInt(text, 10)], as an integer; [None] for NaN. *)
Definition parseInt (text : string) : option Z :=
  let '(neg, s1) := ParseFloat.sign (ParseFloat.trim_start text) in
  let '(v, n, _) := ParseFloat.digits s1 0 0 in
  if n =? 0 then None else Some (if neg then - v else v).

(** [Math.max(2, Math.min(60, parseInt(days || '30', 10) || 30))] *)
Definition numDays_of (days : option string) : Z :=
  let text := match days with
              | Some t => if String.eqb t EmptyString then "30" else t
              | None => "30"
              end in
  let n := match parseInt text with
           | Some v => if v =? 0 then 30 else v
           | None => 30
           end in
  Z.max 2 (Z.min 60 n).

Record series_body : Type := {
  s_mid : list rate; s_mc : list rate; s_visa : list rate; s_amex : list rate
}.

Record history_body : Type := {
  h_base : string; h_quote : string; h_start : string; h_end : string;
  labels : list string;
  series : series_body;
  mcAvgDeltaPct : rate; visaAvgDeltaPct : rate; amexAvgDeltaPct : rate
}.

(** [app.get('/api/history', ...)] *)
Definition api_history (q : query) : M (http history_body) :=
  try_catch
    (if missing (q_date q) || missing (q_base q) || missing (q_quote q) then
       ret (JsonError 400 "Missing required parameters: date, base, quote" None)
     else
       let date := default EmptyString (q_date q) in
       let base := default EmptyString (q_base q) in
       let quote := default EmptyString (q_quote q) in
       if negb (date_format date) then
         ret (JsonError 400 "Invalid date format. Expected YYYY-MM-DD" None)
       else if negb (currency_format base) || negb (currency_format quote) then
         ret (JsonError 400 "Invalid currency format. Expected 3-letter codes (e.g., EUR, JPY)" None)
       else
         let numDays := numDays_of (q_days q) in
         let end_ := Date.toDate date in
         let start := match end_ with
                      | Some day => Some (day - (numDays - 1))
                      | None => None
                      end in
         let startStr := Date.fmt start in
         let endStr := Date.fmt end_ in
         let labels := Date.range start end_ in
         mids <- settle (getMidMarketSeries startStr endStr base quote) ;;
         mcs <- settle (Mastercard.getMastercardSeries startStr endStr base quote) ;;
         visas <- settle (Visa.getVisaSeries startStr endStr base quote) ;;
         amexs <- settle (Amex.getAmexSeries startStr endStr base quote) ;;
         match mids, mcs, visas, amexs with
         | Throw err, _, _, _ | _, Throw err, _, _
         | _, _, Throw err, _ | _, _, _, Throw err => throw err
         | Ok midMap, Ok mcSeries, Ok visaSeries, Ok amexSeries =>
             let midSeries := midSeries_of labels midMap in
             let midAvg := average midSeries in
             ret (Json200
               {| h_base := base; h_quote := quote; h_start := startStr; h_end := endStr;
                  labels := labels;
                  series := {| s_mid := midSeries; s_mc := mcSeries;
                               s_visa := visaSeries; s_amex := amexSeries |};
                  mcAvgDeltaPct := pct (average mcSeries) midAvg;
                  visaAvgDeltaPct := pct (average visaSeries) midAvg;
                  amexAvgDeltaPct := pct (average amexSeries) midAvg |})
         end)
    (fun error => ret (JsonError 500 "Failed to fetch history" (Some (message error)))).

(** What [/api/rate/:provider] answers with: the rate, or the notice that
    the percentage-variance provider does not have the pair. *)
Inductive rate_body : Type :=
  | RateOf (provider date base quote : string) (r : rate) (amount : float)
      (converted dayDeltaPct : rate) (source : string)
  | RateUnavailable (provider date base quote : string) (reason source : string).

(** The end of the handler, common to the four providers. *)
Definition rate_answer (provider date base quote : string) (amount : float)
    (r yesterdayRate : rate) (source : string) : http rate_body :=
  Json200 (RateOf provider date base quote r amount
             (js_mul r (Num amount))
             (if rate_truthy yesterdayRate then pct r yesterdayRate else Null)
             source).

(** [app.get('/api/rate/:provider', ...)] *)
Definition api_rate (provider : string) (q : query) : M (http rate_body) :=
  try_catch
    (let amount := amount_of (q_amount q) in
     if missing (q_date q) || missing (q_base q) || missing (q_quote q) then
       ret (JsonError 400 "Missing required parameters: date, base, quote" None)
     else
       let date := default EmptyString (q_date q) in
       let base := default EmptyString (q_base q) in
       let quote := default EmptyString (q_quote q) in
       if negb (date_format date) then
         ret (JsonError 400 "Invalid date format. Expected YYYY-MM-DD" None)
       else if negb (currency_format base) || negb (currency_format quote) then
         ret (JsonError 400 "Invalid currency format. Expected 3-letter codes (e.g., EUR, JPY)" None)
       else
         yesterdayStr <- yesterday_of date ;;
         if String.eqb provider "mid" then
           rate <- getMidMarketRate date base quote ;;
           yesterdayRate <- catch_null (getMidMarketRate yesterdayStr base quote) ;;
           ret (rate_answer provider date base quote amount rate yesterdayRate "ECB via Frankfurter")
         else if String.eqb provider "mc" then
           rate <- Mastercard.getMastercardRate date base quote amount ;;
           yesterdayRate <- catch_null (Mastercard.getMastercardRate yesterdayStr base quote amount) ;;
           ret (rate_answer provider date base quote amount rate yesterdayRate "Mastercard")
         else if String.eqb provider "visa" then
           rate <- Visa.getVisaRate date base quote amount ;;
           yesterdayRate <- catch_null (Visa.getVisaRate yesterdayStr base quote amount) ;;
           ret (rate_answer provider date base quote amount rate yesterdayRate "Visa")
         else if String.eqb provider "amex" then
           rate <- Amex.getAmexRate date base quote amount ;;
           if is_null rate then
             ret (Json200 (RateUnavailable provider date base quote
                             "Currency pair not supported by Amex API" "American Express"))
           else
             yesterdayRate <- catch_null (Amex.getAmexRate yesterdayStr base quote amount) ;;
             ret (rate_answer provider date base quote amount rate yesterdayRate "American Express")
         else
           ret (JsonError 400 "Invalid provider. Use: mid, mc, visa, or amex" None))
    (fun error => ret (JsonError 500 "Failed to fetch rate" (Some (message error)))).

End Server.

(** ** Sample worlds

    Concrete providers and states on which the functions are run. *)

Module Sample.

Fixpoint split_commas (s cur : string) : list string :=
  match s with
  | EmptyString => [cur]
  | String c r =>
      if Ascii.eqb c "," then cur :: split_commas r EmptyString
      else split_commas r (cur +:+ String c EmptyString)
  end.

(** Only the currencies asked for come back. *)
Definition only (to : string) (rates : gmap string float) : gmap string float :=
  filter (fun kv => bool_decide (kv.1 ∈ split_commas to EmptyString)) rates.

Definition monday : gmap string float :=
  {[ "USD" := 1.08%float; "JPY" := 160.5%float; "GBP" := 0.86%float ]}.

Definition tuesday : gmap string float :=
  {[ "USD" := 1.09%float; "JPY" := 161.25%float; "GBP" := 0.87%float ]}.

(** The reference provider: no rates on the week-end of 2024-01-06. *)
Definition fx (url to : string) (t : Z) : outcome fx_rates :=
  if String.eqb url (FRANKFURTER_API +:+ "/2024-01-06")
     || String.eqb url (FRANKFURTER_API +:+ "/2024-01-07")
  then Reply 404 None
  else if String.eqb url (FRANKFURTER_API +:+ "/2024-01-09")
  then Reply 200 (Some (only to tuesday))
  else Reply 200 (Some (only to monday)).

Definition fx_range (url to : string) (t : Z) : outcome fx_range :=
  Reply 200 (Some {[ "2024-01-08" := only to monday; "2024-01-09" := only to tuesday ]}).

Definition icc : list amex_entry :=
  [ {| settlementCurrency := JStr "EURO";
       consumer := Some [ {| submissionCurrencyCode := JStr "JPY"; percentageVariance := JStr "2.5" |};
                          {| submissionCurrencyCode := JStr "USD"; percentageVariance := JStr "1.5" |} ] |};
    {| settlementCurrency := JStr "USD";
       consumer := Some [ {| submissionCurrencyCode := JStr "JPY"; percentageVariance := JStr "2.5" |};
                          {| submissionCurrencyCode := JStr "GBP"; percentageVariance := JStr "2" |} ] |} ].

Definition italy : list amex_entry :=
  [ {| settlementCurrency := JStr "EUR";
       consumer := Some [ {| submissionCurrencyCode := JStr "USD"; percentageVariance := JStr "1.75" |};
                          {| submissionCurrencyCode := JStr "JPY"; percentageVariance := JStr "2.25" |} ] |} ].

Definition amex (url : string) (t : Z) : outcome amex_body :=
  if String.eqb url (Amex.AMEX_API_BASE +:+ "?market=ICC") then Reply 200 (Some icc)
  else Reply 200 (Some italy).

Definition mc (url : string) (t : Z) : outcome mc_body :=
  Reply 200 (Some {| crdhldBillAmt := JNum 107.5%float; conversionRate := JNum 1.075%float |}).

Definition visa (url : string) (t : Z) : outcome visa_body :=
  Reply 200 (Some (JStr "1.0912")).

(** Every provider answers. *)
Definition up : env :=
  {| fx_api := fx; fx_range_api := fx_range; mc_api := mc;
     visa_launch := fun _ => Launched; visa_api := visa;
     amex_launch := fun _ => Launched; amex_api := amex;
     latency := fun _ _ => 150 |}.

(** The direct-conversion provider cannot be reached. *)
Definition mc_down : env :=
  {| fx_api := fx; fx_range_api := fx_range;
     mc_api := fun _ _ => Failed "connect ECONNREFUSED";
     visa_launch := fun _ => Launched; visa_api := visa;
     amex_launch := fun _ => Launched; amex_api := amex;
     latency := fun _ _ => 150 |}.

(** The percentage-variance provider cannot be reached. *)
Definition amex_down : env :=
  {| fx_api := fx; fx_range_api := fx_range; mc_api := mc;
     visa_launch := fun _ => Launched; visa_api := visa;
     amex_launch := fun _ => Launched;
     amex_api := fun _ _ => Failed "net::ERR_CONNECTION_RESET";
     latency := fun _ _ => 150 |}.

(** The percentage-variance provider answers with a variance that is
    not a number. *)
Definition icc_not_numeric : list amex_entry :=
  [ {| settlementCurrency := JStr "USD";
       consumer := Some [ {| submissionCurrencyCode := JStr "JPY"; percentageVariance := JStr "N/A" |} ] |} ].

Definition amex_not_numeric : env :=
  {| fx_api := fx; fx_range_api := fx_range; mc_api := mc;
     visa_launch := fun _ => Launched; visa_api := visa;
     amex_launch := fun _ => Launched;
     amex_api := fun _ _ => Reply 200 (Some icc_not_numeric);
     latency := fun _ _ => 150 |}.

(** The percentage-variance provider answers with something that is not
    an array of entries. *)
Definition amex_malformed : env :=
  {| fx_api := fx; fx_range_api := fx_range; mc_api := mc;
     visa_launch := fun _ => Launched; visa_api := visa;
     amex_launch := fun _ => Launched;
     amex_api := fun _ _ => Reply 200 None;
     latency := fun _ _ => 150 |}.

(** The direct-conversion provider rounds the converted total of one unit
    of a weak currency down to zero. *)
Definition mc_rounds_to_zero : env :=
  {| fx_api := fx; fx_range_api := fx_range;
     mc_api := fun _ _ =>
       Reply 200 (Some {| crdhldBillAmt := JNum 0%float; conversionRate := JNum 0.0000034%float |});
     visa_launch := fun _ => Launched; visa_api := visa;
     amex_launch := fun _ => Launched; amex_api := amex;
     latency := fun _ _ => 150 |}.

(** The reference provider cannot be reached. *)
Definition fx_down : env :=
  {| fx_api := fun _ _ _ => Failed "getaddrinfo ENOTFOUND api.frankfurter.app";
     fx_range_api := fun _ _ _ => Failed "getaddrinfo ENOTFOUND api.frankfurter.app";
     mc_api := mc;
     visa_launch := fun _ => Launched; visa_api := visa;
     amex_launch := fun _ => Launched; amex_api := amex;
     latency := fun _ _ => 150 |}.

(** A fresh process, on 2024-01-09 at 08:00 UTC. *)
Definition start : world :=
  {| now := 1704787200000; mc_cache := ∅; visa_cache := ∅; amex_cache := ∅;
     visa_page := false; amex_page := false; net_log := [] |}.

(** The same process with a Mastercard rate stored at 08:00. *)
Definition cached : world :=
  {| now := 1704787200000;
     mc_cache := {[ "2024-01-08|USD|JPY|1" := {| value := Num 150.25%float; timestamp := 1704787200000 |} ]};
     visa_cache := ∅; amex_cache := ∅;
     visa_page := false; amex_page := false; net_log := [] |}.

(** Five days of which only the third has a reference rate. *)
Definition five_days : list string :=
  ["2024-01-06"; "2024-01-07"; "2024-01-08"; "2024-01-09"; "2024-01-10"].

Definition third_day_only : gmap string float := {[ "2024-01-08" := 0.9%float ]}.

Definition query (date base quote : string) : Server.query :=
  {| Server.q_date := Some date; Server.q_base := Some base; Server.q_quote := Some quote;
     Server.q_amount := None; Server.q_days := None |}.

End Sample.

(** ** Specification-level notions *)

(** A payload member the normalizers accept: it passes the truthiness test
    (so it is there, and is neither the number 0 nor the empty string) and
    [parseFloat] reads a number in it. *)
Definition present_and_parseable (v : jsval) : bool :=
  truthy v && negb (Number.isNaN (parseFloat v)).

(** The preference order of the direct-conversion normalizer, in the
    specification's words: the converted total over the amount, else the
    stated per-unit rate, else a parse error ([None]). *)
Definition preferred_rate (data : mc_data) (amount : float) : option float :=
  if present_and_parseable (crdhldBillAmt data) && Number.gt0 amount
  then Some (parseFloat (crdhldBillAmt data) / amount)%float
  else if present_and_parseable (conversionRate data)
  then Some (parseFloat (conversionRate data))
  else None.

(** The same order when "present and parseable" is read as: the member
    is there and [parseFloat] reads a number in it. *)
Definition stated_rate (data : mc_data) (amount : float) : option float :=
  if negb (Number.isNaN (parseFloat (crdhldBillAmt data))) && Number.gt0 amount
  then Some (parseFloat (crdhldBillAmt data) / amount)%float
  else if negb (Number.isNaN (parseFloat (conversionRate data)))
  then Some (parseFloat (conversionRate data))
  else None.

(** The payload an answer of the direct-conversion provider carries. *)
Definition mc_payload (o : outcome mc_body) : option mc_data :=
  match o with
  | Reply status (Some data) => if (200 <=? status) && (status <? 300) then Some data else None
  | _ => None
  end.

(** [l'] is [l] followed by at least one more request. *)
Definition extended (l l' : list request) : Prop :=
  exists rq rest, l' = (l ++ rq :: rest)%list.

Definition minutes (n : Z) : Z := n * 60 * 1000.

(** The three card networks, with the cache, the cache key, the rate
    function and the series function of each one's module. *)
Inductive card : Type := CardMastercard | CardVisa | CardAmex.

Definition card_cache (p : card) (w : world) : gmap string entry :=
  match p with
  | CardMastercard => mc_cache w
  | CardVisa => visa_cache w
  | CardAmex => amex_cache w
  end.

Definition card_key (p : card) (date base quote : string) (amount : float) : string :=
  match p with
  | CardMastercard => Mastercard.getCacheKey date base quote amount
  | CardVisa => Visa.getCacheKey date base quote amount
  | CardAmex => Amex.getCacheKey date base quote
  end.

Definition card_rate (p : card) (date base quote : string) (amount : float) : M rate :=
  match p with
  | CardMastercard => Mastercard.getMastercardRate date base quote amount
  | CardVisa => Visa.getVisaRate date base quote amount
  | CardAmex => Amex.getAmexRate date base quote amount
  end.

Definition card_series (p : card) (startDate endDate base quote : string) : M (list rate) :=
  match p with
  | CardMastercard => Mastercard.getMastercardSeries startDate endDate base quote
  | CardVisa => Visa.getVisaSeries startDate endDate base quote
  | CardAmex => Amex.getAmexSeries startDate endDate base quote
  end.

(** How the calls [getRate d], made one after the other over [dates],
    settle. *)
Fixpoint outcomes (getRate : string -> M rate) (dates : list string)
    (e : env) (w : world) : list (result rate) :=
  match dates with
  | [] => []
  | d :: rest =>
      let '(r, w') := getRate d e w in
      r :: outcomes getRate rest e w'
  end.

(** A fetch that counts as successful for a series: it returned a number
    other than NaN. *)
Definition good (r : result rate) : option rate :=
  match r with
  | Ok v => if is_good_number v then Some v else None
  | Throw _ => None
  end.

(** Carry-forward over settled fetches, in the specification's words: a
    good value is recorded and remembered, anything else records the last
    good value. *)
Fixpoint carry_forward (lastGood : rate) (rs : list (result rate)) : list rate :=
  match rs with
  | [] => []
  | r :: rest =>
      match good r with
      | Some v => v :: carry_forward v rest
      | None => lastGood :: carry_forward lastGood rest
      end
  end.

(** The statement that every position of [series] before the first known
    value is a gap marker: [known] tells, position by position, whether
    a value could be determined that day. *)
Definition leading_gaps_null (known : list bool) (series : list rate) : Prop :=
  forall k : nat,
    (forall j : nat, (j <= k)%nat -> known !! j = Some false) ->
    series !! k = Some Null.

(** *** Triangulation *)

(** What matters of an answer of the reference provider about currency
    [k]: its rate or its absence in [data.rates], a payload without
    [rates], a 404, or any other failure. *)
Inductive fx_view : Type :=
  | Rates (x : option float)
  | NoRates
  | NotFound
  | Broken.

Definition view (o : outcome fx_rates) (k : string) : fx_view :=
  match o with
  | Reply status data =>
      if (200 <=? status) && (status <? 300) then
        match data with
        | Some m => Rates (m !! k)
        | None => NoRates
        end
      else if status =? 404 then NotFound
      else Broken
  | Failed _ => Broken
  end.

(** The same provider response data at [url] for the pair [A], [B]: asked
    for both currencies in one request or for each one alone, at any
    time, the provider says the same about each. *)
Definition same_data (e : env) (url A B : string) : Prop :=
  forall t1 t2 t3 : Z,
    view (fx_api e url (A +:+ "," +:+ B) t1) A = view (fx_api e url A t2) A
    /\ view (fx_api e url (A +:+ "," +:+ B) t1) B = view (fx_api e url B t3) B.

(** What a lookup resolved to, if it did not throw. *)
Definition resolved (r : result rate) : option rate :=
  match r with
  | Ok v => Some v
  | Throw _ => None
  end.

(** [(await p) / (await q)] on settled lookups. *)
Definition quotient (p q : result rate) : result rate :=
  match p, q with
  | Ok b, Ok a => Ok (js_div b a)
  | Throw err, _ => Throw err
  | Ok _, Throw err => Throw err
  end.

(** [resolve(d, A, B) == resolve(d, EUR, B) / resolve(d, EUR, A)]: the
    same value, or a failure on both sides. *)
Definition triangulation (e : env) (w : world) (d A B : string) : Prop :=
  resolved (fst (getMidMarketRate d A B e w))
  = resolved (quotient (fst (getMidMarketRate d "EUR" B e w))
                       (fst (getMidMarketRate d "EUR" A e w))).

(** [rates[k]] as a value. *)
Definition rate_at (x : option float) : rate :=
  match x with
  | Some f => Num f
  | None => Undefined
  end.

(** What the direct branch resolves to, from what the provider says at
    the date and at [latest]. *)
Definition direct_of (v vl : fx_view) : option rate :=
  match v with
  | Rates x => Some (rate_at x)
  | NotFound =>
      match vl with
      | Rates x => Some (rate_at x)
      | _ => None
      end
  | _ => None
  end.

(** What the cross-rate branch resolves to. *)
Definition cross_of (vA vB vlA vlB : fx_view) : option rate :=
  match vA, vB with
  | Rates a, Rates b => Some (js_div (rate_at b) (rate_at a))
  | NotFound, NotFound =>
      match vlA, vlB with
      | Rates a, Rates b => Some (js_div (rate_at b) (rate_at a))
      | _, _ => None
      end
  | _, _ => None
  end.

(** A rate one can divide by: finite and not zero. *)
Definition usable (x : float) : bool :=
  negb (PrimFloat.is_nan x) && negb (PrimFloat.is_zero x) && negb (PrimFloat.is_infinity x).

(** The value a cache serves for [key] at time [t], if any: the stored
    one while less than an hour old. *)
Definition fresh_value (cache : gmap string entry) (key : string) (t : Z) : option rate :=
  match cache !! key with
  | Some c => if t - timestamp c <? 1000 * 60 * 60 then Some (value c) else None
  | None => None
  end.

(** A lookup of the direct-conversion provider that finds nothing fresh in
    the cache follows the order of [stated_rate]. *)
Definition follows_stated_order (e : env) (w : world)
    (date base quote : string) (amount : float) : Prop :=
  fresh_value (mc_cache w) (Mastercard.getCacheKey date base quote amount) (now w) = None ->
  forall data : mc_data,
    mc_payload (mc_api e (Mastercard.api_url date base quote amount) (now w)) = Some data ->
    fst (Mastercard.getMastercardRate date base quote amount e w)
    = match stated_rate data amount with
      | Some x => Ok (Num x)
      | None => Throw (Error "Failed to fetch Mastercard rate from API")
      end.




(** Whether the reference provider's map has a value, label by label. *)
Definition mid_known (labels : list string) (midMap : gmap string float) : list bool :=
  List.map (fun d => bool_decide (is_Some (midMap !! d))) labels.

(** Whether each settled fetch was a good one. *)
Definition fetch_known (rs : list (result rate)) : list bool :=
  List.map (fun r => bool_decide (is_Some (good r))) rs.

(** ** Notions for the further properties *)

(** The request the resolver sends first for a pair of distinct
    currencies, and the currencies it asks for. *)
Definition first_to (base quote : string) : string :=
  if String.eqb base "EUR" then quote
  else if String.eqb quote "EUR" then base
  else base +:+ "," +:+ quote.

Definition first_request (date base quote : string) : request :=
  FxGet (FRANKFURTER_API +:+ "/" +:+ date) "EUR" (first_to base quote).

(** The request of the fall-back to the latest rates. *)
Definition latest_to (base quote : string) : string :=
  if String.eqb base "EUR" then quote else base +:+ "," +:+ quote.

Definition latest_request (base quote : string) : request :=
  FxGet (FRANKFURTER_API +:+ "/latest") "EUR" (latest_to base quote).

(** What an answer does to [axios.get]: the payload of a 2xx reply, or the
    error it rejects with. *)
Definition axios_result {B} (o : outcome B) : result B :=
  match o with
  | Reply status data =>
      if (200 <=? status) && (status <? 300) then Ok data
      else Throw {| message := "Request failed with status code " +:+ Number.of_int status;
                    response_status := Some status |}
  | Failed msg => Throw (Error msg)
  end.

(** Whether an answer is a 404. *)
Definition not_found {B} (o : outcome B) : bool :=
  match o with
  | Reply status _ => status =? 404
  | Failed _ => false
  end.

(** The requests of one resolution: none for equal currencies, the one
    for the date, and the one for the latest rates after a 404. *)
Definition requests_of (date base quote : string) (fallback : bool) : list request :=
  if String.eqb base quote then []
  else if fallback then [first_request date base quote; latest_request base quote]
  else [first_request date base quote].

(** What the resolver reads in a payload, for distinct currencies: the
    member of the quote, the inverse of the member of the base, or the
    quotient of the two; a payload without [rates] makes the read throw. *)
Definition read_member (rates : fx_rates) (key : string) : result rate :=
  match rates with
  | None => Throw (TypeError_reading key)
  | Some m => Ok (rate_at (m !! key))
  end.

Definition read_rate (base quote : string) (rates : fx_rates) : result rate :=
  if String.eqb base "EUR" then read_member rates quote
  else if String.eqb quote "EUR" then
    match read_member rates base with
    | Ok r => Ok (js_div (Num 1%float) r)
    | Throw err => Throw err
    end
  else
    match read_member rates base, read_member rates quote with
    | Ok b, Ok q => Ok (js_div q b)
    | Throw err, _ => Throw err
    | Ok _, Throw err => Throw err
    end.

(** [1 / r] on a resolved rate. *)
Definition inverse (r : rate) : rate := js_div (Num 1%float) r.

(** The fetch behind each card network's rate function. *)
Definition card_via (p : card) (date base quote : string) (amount : float) : M rate :=
  match p with
  | CardMastercard => Mastercard.getMastercardRateViaAPI date base quote amount
  | CardVisa => Visa.getVisaRateViaPlaywright date base quote amount
  | CardAmex => Amex.getAmexRateViaPlaywright date base quote amount
  end.

Definition set_card_cache (p : card) (c : gmap string entry) (w : world) : world :=
  match p with
  | CardMastercard => set_mc_cache c w
  | CardVisa => set_visa_cache c w
  | CardAmex => set_amex_cache c w
  end.

(** What each rate function does with a fetch that gave null. *)
Definition on_null (p : card) : result rate :=
  match p with
  | CardMastercard => Throw (Error "Failed to fetch Mastercard rate from API")
  | CardVisa => Throw (Error "Failed to fetch Visa rate from Playwright")
  | CardAmex => Ok Null
  end.

(** Every value stored in the three caches is a number. *)
Definition caches_hold_numbers (w : world) : Prop :=
  forall (p : card) (k : string) (c : entry),
    card_cache p w !! k = Some c -> exists x : float, value c = Num x.

#[global] Instance card_eq_dec : EqDecision card.
Proof. solve_decision. Defined.

(** The value a day's rate takes in the reference series: a number other
    than NaN, or no entry. *)
Definition series_value (r : result rate) : option float :=
  match r with
  | Ok (Num x) => if Number.isNaN x then None else Some x
  | _ => None
  end.

Definition range_url (startDate endDate : string) : string :=
  FRANKFURTER_API +:+ "/" +:+ startDate +:+ ".." +:+ endDate.

(** The three routes of the server. *)
Inductive endpoint : Type :=
  | ApiRate (provider : string)
  | ApiRates
  | ApiHistory.

(** What the client sees of a response: its status and the [details] of an
    error; [None] if the handler ended without responding. *)
Definition outline {B} (r : result (Server.http B)) : option (Z * option string) :=
  match r with
  | Ok (Server.Json200 _) => Some (200, None)
  | Ok (Server.JsonError status _ details) => Some (status, details)
  | Throw _ => None
  end.

Definition serve (h : endpoint) (q : Server.query) (e : env) (w : world)
    : option (Z * option string) * world :=
  match h with
  | ApiRate provider => let '(r, w') := Server.api_rate provider q e w in (outline r, w')
  | ApiRates => let '(r, w') := Server.api_rates q e w in (outline r, w')
  | ApiHistory => let '(r, w') := Server.api_history q e w in (outline r, w')
  end.

(** A computation that, when it returns, returns a 200 response. *)
Definition only_200 {B} (m : M (Server.http B)) : Prop :=
  forall (e : env) (w : world),
    match m e w with
    | (Ok (Server.JsonError _ _ _), _) => False
    | _ => True
    end.

(** A handler's body run from [w]: a 200 response, an error thrown, or a
    400 response with nothing done. *)
Definition answers_from {B} (w : world) (x : result (Server.http B) * world) : Prop :=
  match x with
  | (Ok (Server.JsonError status _ _), w') => status = 400 /\ w' = w
  | _ => True
  end.

(** A query that passes the checks of the handlers: the three parameters
    are there, the date has the shape YYYY-MM-DD and the currencies are
    three capital letters. *)
Definition passes_checks (q : Server.query) (date base quote : string) : Prop :=
  Server.q_date q = Some date /\ Server.q_base q = Some base /\ Server.q_quote q = Some quote
  /\ Server.date_format date = true
  /\ Server.currency_format base = true /\ Server.currency_format quote = true.

(** Whether [text] is exactly [k] digits that read as [n]. *)
Definition reads_back (k : nat) (text : string) (n : Z) : bool :=
  match Date.fixed_digits k text 0 with
  | Some (v, EmptyString) => v =? n
  | _ => false
  end.

(** The first day of the history window that ends on [day]. *)
Definition history_start (q : Server.query) (day : Z) : Z :=
  day - (Server.numDays_of (Server.q_days q) - 1).

(** The arrays of a history response all have [n] entries. *)
Definition aligned (n : nat) (body : Server.history_body) : Prop :=
  length (Server.labels body) = n
  /\ length (Server.s_mid (Server.series body)) = n
  /\ length (Server.s_mc (Server.series body)) = n
  /\ length (Server.s_visa (Server.series body)) = n
  /\ length (Server.s_amex (Server.series body)) = n.

(** A browser launch, among the requests. *)
Definition is_launch (rq : request) : bool :=
  match rq with
  | VisaLaunch | AmexLaunch => true
  | _ => false
  end.

(** Whether the page a network's fetch runs in is open; the
    direct-conversion provider needs none. *)
Definition page_open (p : card) (w : world) : bool :=
  match p with
  | CardMastercard => true
  | CardVisa => visa_page w
  | CardAmex => amex_page w
  end.

(** The most requests one lookup can send: the one of the Mastercard API;
    a launch and the fetch for Visa; a launch, the two of the resolver and
    the fetch for Amex. *)
Definition most_requests (p : card) : nat :=
  match p with
  | CardMastercard => 1
  | CardVisa => 2
  | CardAmex => 4
  end.

(** From [w] to [x], at most [n] requests were sent, and no browser was
    launched if the page was open, which it then still is. *)
Definition traffic (p : card) (n : nat) (w x : world) : Prop :=
  exists l : list request,
    net_log x = (net_log w ++ l)%list
    /\ (length l <= n)%nat
    /\ (page_open p w = true ->
        page_open p x = true /\ Forall (fun rq => is_launch rq = false) l).

(** What a cache key says of the amount: its decimal form for the two
    networks that key by it, nothing for Amex. *)
Definition key_amount (p : card) (amount : float) : string :=
  match p with
  | CardAmex => EmptyString
  | _ => Number.toString amount
  end.

(** The lookup behind each provider name of the single-rate route. *)
Definition lookup_of (provider : string)
    : option (string -> string -> string -> float -> M rate) :=
  if String.eqb provider "mid" then Some (fun date base quote _ => getMidMarketRate date base quote)
  else if String.eqb provider "mc" then Some Mastercard.getMastercardRate
  else if String.eqb provider "visa" then Some Visa.getVisaRate
  else if String.eqb provider "amex" then Some Amex.getAmexRate
  else None.

(** The rate a single-rate response carries, if it carries one. *)
Definition rate_in (body : Server.rate_body) : option rate :=
  match body with
  | Server.RateOf _ _ _ _ r _ _ _ _ => Some r
  | Server.RateUnavailable _ _ _ _ _ _ => None
  end.

(** The rate the single-rate route shows for what the lookup returned:
    the Amex null is shown as the notice that the pair is unavailable. *)
Definition shown (provider : string) (r : rate) : option rate :=
  if String.eqb provider "amex" && is_null r then None else Some r.

(** * Properties *)

(** ** Requests *)

(** A request is always logged, whatever comes back. *)
Lemma axios_get_log {B} rq (answer : env -> Z -> outcome B) e w :
  snd (axios_get rq answer e w) = sent e rq w.
Proof.
  unfold axios_get. destruct (answer e (now w)) as [status data | msg]; [|reflexivity].
  destruct ((200 <=? status) && (status <? 300)); reflexivity.
Qed.

Lemma page_fetch_log {B} rq (answer : env -> Z -> outcome B) e w :
  snd (page_fetch rq answer e w) = sent e rq w.
Proof.
  unfold page_fetch. destruct (answer e (now w)) as [status data | msg]; [|reflexivity].
  destruct (status =? 200); reflexivity.
Qed.

(** ** The reference resolver *)

(** Equal currencies are answered before anything else is looked at. *)
Lemma getMidMarketRate_equal (e : env) (w : world) (date C : string) :
  getMidMarketRate date C C e w = (Ok (Num 1%float), w).
Proof. unfold getMidMarketRate, try_catch. rewrite String.eqb_refl. reflexivity. Qed.

(** C6: for every date and every currency C, the reference-rate resolver
    applied to the pair (C, C) returns exactly 1.0 and sends no request: the
    state, and with it the log of requests, is left as it was. *)
Theorem getMidMarketRate_same_currency (e : env) (w : world) (date C : string) :
  fst (getMidMarketRate date C C e w) = Ok (Num 1%float)
  /\ snd (getMidMarketRate date C C e w) = w
  /\ net_log (snd (getMidMarketRate date C C e w)) = net_log w.
Proof.
  rewrite getMidMarketRate_equal. repeat split; reflexivity.
Qed.

(** ** The log of requests *)

Lemma extended_one (l : list request) (rq : request) : extended l (l ++ [rq]).
Proof. exists rq, []. reflexivity. Qed.

Lemma extended_more (l l' : list request) (rq : request) :
  extended l l' -> extended l (l' ++ [rq]).
Proof.
  intros (rq' & rest & ->). exists rq', (rest ++ [rq])%list.
  rewrite <- app_assoc. reflexivity.
Qed.

Lemma extended_trans (l1 l2 l3 : list request) :
  extended l1 l2 -> extended l2 l3 -> extended l1 l3.
Proof.
  intros (r1 & t1 & ->) (r2 & t2 & ->). exists r1, (t1 ++ r2 :: t2)%list.
  rewrite <- app_assoc. reflexivity.
Qed.

Lemma extended_length (l l' : list request) :
  extended l l' -> (length l < length l')%nat.
Proof. intros (rq & rest & ->). rewrite length_app. simpl. lia. Qed.

Ltac log_grows :=
  unfold throw, ret; cbn;
  first [ apply extended_one
        | apply extended_more, extended_one
        | apply extended_more, extended_more, extended_one ].

(** Case analysis on the innermost scrutinee of the goal. *)
Ltac break_match :=
  match goal with
  | |- context [match ?x with _ => _ end] =>
      lazymatch x with
      | context [match _ with _ => _ end] => fail
      | _ => destruct x eqn:?
      end
  end.

(** The resolver either answers 1 at once for equal currencies, or sends at
    least one request. *)
Lemma getMidMarketRate_log (e : env) (w : world) (date base quote : string) :
  (base = quote /\ getMidMarketRate date base quote e w = (Ok (Num 1%float), w))
  \/ extended (net_log w) (net_log (snd (getMidMarketRate date base quote e w))).
Proof.
  destruct (String.eqb base quote) eqn:Heq.
  - left. apply String.eqb_eq in Heq. subst quote.
    split; [reflexivity | apply getMidMarketRate_equal].
  - right. unfold getMidMarketRate, try_catch. rewrite Heq.
    unfold bind, axios_get, rates_get, throw, ret.
    repeat break_match; simplify_eq; log_grows.
Qed.

(** ** The caches *)

Section CacheLookups.

Variables (e : env) (w : world) (date base quote : string) (amount : float).

(** A fresh entry is returned as it is, and nothing else happens. *)
Lemma mastercard_fresh_hit (c : entry) :
  mc_cache w !! Mastercard.getCacheKey date base quote amount = Some c ->
  now w - timestamp c < Mastercard.CACHE_TTL ->
  Mastercard.getMastercardRate date base quote amount e w = (Ok (value c), w).
Proof.
  intros Hc Hlt. unfold Mastercard.getMastercardRate, bind, get_world.
  rewrite Hc. apply Z.ltb_lt in Hlt. rewrite Hlt. reflexivity.
Qed.

Lemma visa_fresh_hit (c : entry) :
  visa_cache w !! Visa.getCacheKey date base quote amount = Some c ->
  now w - timestamp c < Visa.CACHE_TTL ->
  Visa.getVisaRate date base quote amount e w = (Ok (value c), w).
Proof.
  intros Hc Hlt. unfold Visa.getVisaRate, bind, get_world.
  rewrite Hc. apply Z.ltb_lt in Hlt. rewrite Hlt. reflexivity.
Qed.

Lemma amex_fresh_hit (c : entry) :
  amex_cache w !! Amex.getCacheKey date base quote = Some c ->
  now w - timestamp c < Amex.CACHE_TTL ->
  Amex.getAmexRate date base quote amount e w = (Ok (value c), w).
Proof.
  intros Hc Hlt. unfold Amex.getAmexRate, bind, get_world.
  rewrite Hc. apply Z.ltb_lt in Hlt. rewrite Hlt. reflexivity.
Qed.

(** What the direct-conversion fetch leaves in the log: its one request. *)
Lemma getMastercardRateViaAPI_log (w0 : world) :
  net_log (snd (Mastercard.getMastercardRateViaAPI date base quote amount e w0))
  = (net_log w0 ++ [McGet (Mastercard.api_url date base quote amount)])%list.
Proof.
  unfold Mastercard.getMastercardRateViaAPI, try_catch, bind.
  pose proof (axios_get_log (McGet (Mastercard.api_url date base quote amount))
                (fun e0 => mc_api e0 (Mastercard.api_url date base quote amount)) e w0) as Hlog.
  destruct (axios_get _ _ e w0) as [[body | err] w1]; simpl in Hlog; subst w1;
    [|reflexivity].
  destruct body as [data|]; [|reflexivity].
  destruct (truthy (crdhldBillAmt data)), (truthy (conversionRate data));
    cbv zeta;
    repeat match goal with
           | |- context [if ?b then _ else _] => destruct b
           end; reflexivity.
Qed.

(** A stale entry is dropped and the provider is asked again. *)
Lemma mastercard_stale_refetch (c : entry) :
  mc_cache w !! Mastercard.getCacheKey date base quote amount = Some c ->
  Mastercard.CACHE_TTL <= now w - timestamp c ->
  net_log (snd (Mastercard.getMastercardRate date base quote amount e w))
  = (net_log w ++ [McGet (Mastercard.api_url date base quote amount)])%list.
Proof.
  intros Hc Hge. unfold Mastercard.getMastercardRate, bind at 1, get_world.
  rewrite Hc. apply Z.ltb_ge in Hge. rewrite Hge.
  unfold bind at 1, modify. unfold bind at 1.
  pose proof (getMastercardRateViaAPI_log
                (set_mc_cache (delete (Mastercard.getCacheKey date base quote amount) (mc_cache w)) w))
    as Hlog.
  destruct (Mastercard.getMastercardRateViaAPI _ _ _ _ e _) as [[r | err] w2];
    simpl in Hlog; [|exact Hlog].
  destruct r; exact Hlog.
Qed.

Lemma getVisaRateViaPlaywright_log (w0 : world) :
  extended (net_log w0)
    (net_log (snd (Visa.getVisaRateViaPlaywright date base quote amount e w0))).
Proof.
  unfold Visa.getVisaRateViaPlaywright, try_catch, bind at 1, Visa.ensureBrowser.
  destruct (visa_page w0).
  - unfold bind at 1.
    match goal with |- context [page_fetch ?rq ?a e w0] =>
      pose proof (page_fetch_log rq a e w0) as Hp;
      destruct (page_fetch rq a e w0) as [[body | err] w2] end;
      simpl in Hp; subst w2.
    + destruct body as [v|]; [|log_grows].
      destruct (truthy v); [|log_grows].
      destruct (negb (Number.isNaN (parseFloat v))); log_grows.
    + log_grows.
  - destruct (visa_launch e (now w0)) as [|msg assigned]; [|log_grows].
    unfold bind at 1.
    match goal with |- context [page_fetch ?rq ?a e ?w'] =>
      pose proof (page_fetch_log rq a e w') as Hp;
      destruct (page_fetch rq a e w') as [[body | err] w2] end;
      simpl in Hp; subst w2.
    + destruct body as [v|]; [|log_grows].
      destruct (truthy v); [|log_grows].
      destruct (negb (Number.isNaN (parseFloat v))); log_grows.
    + log_grows.
Qed.

Lemma visa_stale_refetch (c : entry) :
  visa_cache w !! Visa.getCacheKey date base quote amount = Some c ->
  Visa.CACHE_TTL <= now w - timestamp c ->
  extended (net_log w) (net_log (snd (Visa.getVisaRate date base quote amount e w))).
Proof.
  intros Hc Hge. unfold Visa.getVisaRate, bind at 1, get_world.
  rewrite Hc. apply Z.ltb_ge in Hge. rewrite Hge.
  unfold bind at 1, modify. unfold bind at 1.
  pose proof (getVisaRateViaPlaywright_log
                (set_visa_cache (delete (Visa.getCacheKey date base quote amount) (visa_cache w)) w))
    as Hlog.
  destruct (Visa.getVisaRateViaPlaywright _ _ _ _ e _) as [[r | err] w2];
    simpl in Hlog; [|exact Hlog].
  destruct r; exact Hlog.
Qed.

Lemma getAmexRateViaPlaywright_log (w0 : world) :
  extended (net_log w0)
    (net_log (snd (Amex.getAmexRateViaPlaywright date base quote amount e w0))).
Proof.
  unfold Amex.getAmexRateViaPlaywright, try_catch, bind at 1, Amex.ensureBrowser.
  set (after := bind (getMidMarketRate date base quote) _).
  assert (Hafter : forall w1, extended (net_log w1)
            (net_log (snd (match after e w1 with
                           | (Ok a, w') => (Ok a, w')
                           | (Throw _, w') => ret Null e w'
                           end)))).
  { intros w1. subst after. unfold bind at 1.
    pose proof (getMidMarketRate_log e w1 date base quote) as Hmid.
    destruct (getMidMarketRate date base quote e w1) as [[ecb | err] w2].
    - assert (Hw2 : forall rq, extended (net_log w1) (net_log w2 ++ [rq])).
      { intros rq. destruct Hmid as [[_ Hone] | Hext].
        - inversion Hone. apply extended_one.
        - apply extended_more. exact Hext. }
      unfold bind at 1.
      match goal with |- context [page_fetch ?rq ?a e w2] =>
        pose proof (page_fetch_log rq a e w2) as Hp;
        destruct (page_fetch rq a e w2) as [[body | err] w3] end;
        simpl in Hp; subst w3.
      + unfold Amex.apply_variance, throw, ret.
        repeat break_match; simplify_eq; cbn; apply Hw2.
      + cbn. apply Hw2.
    - destruct Hmid as [[_ Hone] | Hext]; [discriminate Hone | exact Hext]. }
  destruct (amex_page w0).
  - apply Hafter.
  - destruct (amex_launch e (now w0)) as [|msg assigned]; [|log_grows].
    eapply extended_trans; [|apply Hafter]. log_grows.
Qed.

Lemma amex_stale_refetch (c : entry) :
  amex_cache w !! Amex.getCacheKey date base quote = Some c ->
  Amex.CACHE_TTL <= now w - timestamp c ->
  extended (net_log w) (net_log (snd (Amex.getAmexRate date base quote amount e w))).
Proof.
  intros Hc Hge. unfold Amex.getAmexRate, bind at 1, get_world.
  rewrite Hc. apply Z.ltb_ge in Hge. rewrite Hge.
  unfold bind at 1, modify. unfold bind at 1.
  pose proof (getAmexRateViaPlaywright_log
                (set_amex_cache (delete (Amex.getCacheKey date base quote) (amex_cache w)) w))
    as Hlog.
  destruct (Amex.getAmexRateViaPlaywright _ _ _ _ e _) as [[r | err] w2];
    simpl in Hlog; [|exact Hlog].
  destruct r; exact Hlog.
Qed.

End CacheLookups.

(** C7: per-provider cache TTL.  For each card network and every key, a
    value stored at time T is returned unchanged by a lookup at T + 59
    minutes, which leaves the state (hence the log of requests) untouched;
    a lookup at T + 61 minutes goes to the provider again: the log of
    requests gets longer. *)
Theorem cache_ttl_one_hour (p : card) (e : env) (w : world)
    (date base quote : string) (amount : float) (v : rate) (T : Z) :
  card_cache p w !! card_key p date base quote amount = Some {| value := v; timestamp := T |} ->
  card_rate p date base quote amount e (set_now (T + minutes 59) w)
    = (Ok v, set_now (T + minutes 59) w)
  /\ extended (net_log w)
       (net_log (snd (card_rate p date base quote amount e (set_now (T + minutes 61) w)))).
Proof.
  intros Hc. split.
  - destruct p; simpl in *.
    + apply (mastercard_fresh_hit e _ date base quote amount {| value := v; timestamp := T |});
        [exact Hc | simpl; unfold minutes, Mastercard.CACHE_TTL; lia].
    + apply (visa_fresh_hit e _ date base quote amount {| value := v; timestamp := T |});
        [exact Hc | simpl; unfold minutes, Visa.CACHE_TTL; lia].
    + apply (amex_fresh_hit e _ date base quote amount {| value := v; timestamp := T |});
        [exact Hc | simpl; unfold minutes, Amex.CACHE_TTL; lia].
  - destruct p; cbn [card_rate card_cache card_key] in *;
      change (net_log w) with (net_log (set_now (T + minutes 61) w)).
    + rewrite (mastercard_stale_refetch e _ date base quote amount {| value := v; timestamp := T |});
        [apply extended_one | exact Hc | simpl; unfold minutes, Mastercard.CACHE_TTL; lia].
    + apply (visa_stale_refetch e _ date base quote amount {| value := v; timestamp := T |});
        [exact Hc | simpl; unfold minutes, Visa.CACHE_TTL; lia].
    + apply (amex_stale_refetch e _ date base quote amount {| value := v; timestamp := T |});
        [exact Hc | simpl; unfold minutes, Amex.CACHE_TTL; lia].
Qed.

Lemma cache_ttl_one_hour_witness :
  card_cache CardMastercard Sample.cached
    !! card_key CardMastercard "2024-01-08" "USD" "JPY" 1%float
  = Some {| value := Num 150.25%float; timestamp := 1704787200000 |}
  /\ card_rate CardMastercard "2024-01-08" "USD" "JPY" 1%float Sample.mc_down
       (set_now (1704787200000 + minutes 59) Sample.cached)
     = (Ok (Num 150.25%float), set_now (1704787200000 + minutes 59) Sample.cached)
  /\ extended (net_log Sample.cached)
       (net_log (snd (card_rate CardMastercard "2024-01-08" "USD" "JPY" 1%float Sample.mc_down
                        (set_now (1704787200000 + minutes 61) Sample.cached)))).
Proof.
  assert (H : card_cache CardMastercard Sample.cached
                !! card_key CardMastercard "2024-01-08" "USD" "JPY" 1%float
              = Some {| value := Num 150.25%float; timestamp := 1704787200000 |})
    by (vm_compute; reflexivity).
  split; [exact H|].
  exact (cache_ttl_one_hour CardMastercard Sample.mc_down Sample.cached
           "2024-01-08" "USD" "JPY" 1%float (Num 150.25%float) 1704787200000 H).
Defined.

(** The exact form of the same fact for the direct-conversion provider:
    after an hour the one request of [getMastercardRateViaAPI] is sent. *)
Lemma mastercard_refetch_after_an_hour (e : env) (w : world)
    (date base quote : string) (amount : float) (c : entry) :
  mc_cache w !! Mastercard.getCacheKey date base quote amount = Some c ->
  now w = timestamp c + minutes 61 ->
  net_log (snd (Mastercard.getMastercardRate date base quote amount e w))
  = (net_log w ++ [McGet (Mastercard.api_url date base quote amount)])%list.
Proof.
  intros Hc Hnow. apply (mastercard_stale_refetch e w date base quote amount c Hc).
  unfold minutes, Mastercard.CACHE_TTL in *. lia.
Qed.

(** ** The direct-conversion normalizer *)

(** C8, preference order of the direct-conversion normalizer.  When the
    cache has nothing fresh for the key, the lookup returns the converted
    total divided by the amount if the total passes the truthiness test
    (it is there, and is neither the number 0 nor the empty string), reads
    as a number and the amount is positive; otherwise the stated per-unit
    rate under the same conditions; and otherwise it throws.  An answer
    without payload throws as well. *)
Theorem mastercard_preference_order (e : env) (w : world)
    (date base quote : string) (amount : float) :
  fresh_value (mc_cache w) (Mastercard.getCacheKey date base quote amount) (now w) = None ->
  fst (Mastercard.getMastercardRate date base quote amount e w)
  = match mc_payload (mc_api e (Mastercard.api_url date base quote amount) (now w)) with
    | Some data =>
        match preferred_rate data amount with
        | Some x => Ok (Num x)
        | None => Throw (Error "Failed to fetch Mastercard rate from API")
        end
    | None => Throw (Error "Failed to fetch Mastercard rate from API")
    end.
Proof.
  intros Hfresh.
  assert (Hmiss : forall w1, now w1 = now w ->
    fst (bind (Mastercard.getMastercardRateViaAPI date base quote amount)
           (fun apiRate =>
              if negb (is_null apiRate) then
                bind (modify (fun w0 =>
                        set_mc_cache (<[Mastercard.getCacheKey date base quote amount :=
                                          {| value := apiRate; timestamp := now w0 |}]> (mc_cache w0)) w0))
                     (fun _ => ret apiRate)
              else throw (Error "Failed to fetch Mastercard rate from API")) e w1)
    = match mc_payload (mc_api e (Mastercard.api_url date base quote amount) (now w)) with
      | Some data =>
          match preferred_rate data amount with
          | Some x => Ok (Num x)
          | None => Throw (Error "Failed to fetch Mastercard rate from API")
          end
      | None => Throw (Error "Failed to fetch Mastercard rate from API")
      end).
  { intros w1 Hnow.
    unfold Mastercard.getMastercardRateViaAPI, try_catch, bind, axios_get, modify, ret, throw.
    rewrite Hnow. unfold mc_payload, preferred_rate, present_and_parseable.
    destruct (mc_api e _ (now w)) as [status [data|] | msg];
      try (destruct ((200 <=? status) && (status <? 300)); reflexivity);
      try reflexivity.
    destruct ((200 <=? status) && (status <? 300)); [|reflexivity].
    destruct (truthy (crdhldBillAmt data)),
             (Number.isNaN (parseFloat (crdhldBillAmt data))),
             (Number.gt0 amount),
             (truthy (conversionRate data)),
             (Number.isNaN (parseFloat (conversionRate data))); reflexivity. }
  unfold Mastercard.getMastercardRate. unfold bind at 1. unfold get_world.
  unfold fresh_value in Hfresh.
  destruct (mc_cache w !! Mastercard.getCacheKey date base quote amount) as [c|].
  - change (1000 * 60 * 60) with Mastercard.CACHE_TTL in Hfresh.
    destruct (now w - timestamp c <? Mastercard.CACHE_TTL); [discriminate|].
    unfold bind at 1, modify. apply Hmiss. reflexivity.
  - apply Hmiss. reflexivity.
Qed.

Lemma mastercard_preference_order_witness :
  fresh_value (mc_cache Sample.start)
    (Mastercard.getCacheKey "2024-01-08" "EUR" "USD" 100%float) (now Sample.start) = None
  /\ fst (Mastercard.getMastercardRate "2024-01-08" "EUR" "USD" 100%float Sample.up Sample.start)
     = Ok (Num 1.075%float).
Proof.
  assert (H : fresh_value (mc_cache Sample.start)
                (Mastercard.getCacheKey "2024-01-08" "EUR" "USD" 100%float) (now Sample.start) = None)
    by (vm_compute; reflexivity).
  split; [exact H|].
  rewrite (mastercard_preference_order Sample.up Sample.start "2024-01-08" "EUR" "USD" 100%float H).
  vm_compute. reflexivity.
Defined.

(** ** The percentage-variance provider and the amount *)

(** C10: for every date, base, quote and any two amounts, [getAmexRate]
    returns equal results and leaves equal states (caches and requests
    sent): the amount reaches neither the cache key nor the requests nor
    the computed rate. *)
Theorem getAmexRate_amount_independent (e : env) (w : world)
    (date base quote : string) (a1 a2 : float) :
  Amex.getAmexRate date base quote a1 e w = Amex.getAmexRate date base quote a2 e w.
Proof.
  unfold Amex.getAmexRate, Amex.getAmexRateViaPlaywright. reflexivity.
Qed.

(** ** Series *)

Lemma enumerate_length (fuel : nat) (s t : Z) :
  t - s + 1 <= Z.of_nat fuel ->
  length (Date.enumerate fuel s t) = Z.to_nat (t - s + 1).
Proof.
  revert s. induction fuel as [|fuel IH]; intros s Hfuel; simpl.
  - lia.
  - destruct (s <=? t) eqn:Hle.
    + apply Z.leb_le in Hle. simpl. rewrite IH by lia. lia.
    + apply Z.leb_gt in Hle. simpl. lia.
Qed.

(** The loop over the dates stops on its own condition: more fuel changes
    nothing. *)
Lemma enumerate_fuel (fuel : nat) (s t : Z) :
  t - s + 1 <= Z.of_nat fuel ->
  Date.enumerate fuel s t = Date.enumerate (Z.to_nat (t - s + 1)) s t.
Proof.
  revert s. induction fuel as [|fuel IH]; intros s Hfuel.
  - replace (Z.to_nat (t - s + 1)) with O by lia. reflexivity.
  - simpl. destruct (s <=? t) eqn:Hle.
    + apply Z.leb_le in Hle.
      replace (Z.to_nat (t - s + 1)) with (S (Z.to_nat (t - (s + 1) + 1))) by lia.
      simpl. apply Z.leb_le in Hle. rewrite Hle. f_equal. apply IH. lia.
    + apply Z.leb_gt in Hle.
      replace (Z.to_nat (t - s + 1)) with O by lia. reflexivity.
Qed.

Lemma range_length (s t : Z) :
  length (Date.range (Some s) (Some t)) = Z.to_nat (t - s + 1).
Proof. unfold Date.range. apply enumerate_length. lia. Qed.

(** The series loop never throws, and what it builds is the carry-forward
    of the settled fetches, after what was already in [series]. *)
Lemma series_loop_carry (getRate : string -> M rate) (dates : list string) :
  forall (lastGood : rate) (series : list rate) (e : env) (w : world),
    exists w' : world,
      series_loop getRate dates lastGood series e w
      = (Ok (series ++ carry_forward lastGood (outcomes getRate dates e w))%list, w').
Proof.
  induction dates as [|d rest IH]; intros lastGood series e w; simpl.
  - exists w. unfold ret. rewrite app_nil_r. reflexivity.
  - unfold bind at 1, try_catch, bind at 1.
    destruct (getRate d e w) as [[r | err] w1]; simpl.
    + destruct (is_good_number r); unfold ret; simpl.
      * destruct (IH r (series ++ [r])%list e w1) as [w' ->].
        exists w'. rewrite <- app_assoc. reflexivity.
      * destruct (IH lastGood (series ++ [lastGood])%list e w1) as [w' ->].
        exists w'. rewrite <- app_assoc. reflexivity.
    + unfold ret; simpl.
      destruct (IH lastGood (series ++ [lastGood])%list e w1) as [w' ->].
      exists w'. rewrite <- app_assoc. reflexivity.
Qed.

Lemma outcomes_length (getRate : string -> M rate) (dates : list string) :
  forall (e : env) (w : world), length (outcomes getRate dates e w) = length dates.
Proof.
  induction dates as [|d rest IH]; intros e w; simpl; [reflexivity|].
  destruct (getRate d e w) as [r w1]. simpl. rewrite IH. reflexivity.
Qed.

Lemma carry_forward_length (rs : list (result rate)) :
  forall lastGood : rate, length (carry_forward lastGood rs) = length rs.
Proof.
  induction rs as [|r rest IH]; intros lastGood; simpl; [reflexivity|].
  destruct (good r); simpl; rewrite IH; reflexivity.
Qed.

(** The three series functions are the loop around their rate function. *)
Lemma card_series_loop (p : card) (startDate endDate base quote : string) :
  card_series p startDate endDate base quote
  = series_loop (fun d => card_rate p d base quote 1%float)
      (Date.range (Date.toDate startDate) (Date.toDate endDate)) Null [].
Proof. destruct p; reflexivity. Qed.

(** Every entry of a carry-forward is null or a number other than NaN. *)
Lemma carry_forward_entries (rs : list (result rate)) :
  forall lastGood : rate,
    (lastGood = Null \/ is_good_number lastGood = true) ->
    Forall (fun r => r = Null \/ is_good_number r = true) (carry_forward lastGood rs).
Proof.
  induction rs as [|r rest IH]; intros lastGood Hlast; simpl; [constructor|].
  destruct r as [v | err]; simpl.
  - destruct (is_good_number v) eqn:Hv.
    + constructor; [right; exact Hv | apply IH; right; exact Hv].
    + constructor; [exact Hlast | apply IH; exact Hlast].
  - constructor; [exact Hlast | apply IH; exact Hlast].
Qed.

(** C9: series-length invariant.  For valid dates with startDate <=
    endDate, each card-network series function returns (it never throws) a
    list with exactly one entry per calendar day of [startDate, endDate],
    whatever the fetches do, and every entry is null or a number. *)
Theorem card_series_length (p : card) (e : env) (w : world)
    (startDate endDate base quote : string) (s t : Z) :
  Date.toDate startDate = Some s ->
  Date.toDate endDate = Some t ->
  s <= t ->
  exists (series : list rate) (w' : world),
    card_series p startDate endDate base quote e w = (Ok series, w')
    /\ Z.of_nat (length series) = t - s + 1
    /\ Forall (fun r => r = Null \/ is_good_number r = true) series.
Proof.
  intros Hs Ht Hle. rewrite card_series_loop, Hs, Ht.
  destruct (series_loop_carry (fun d => card_rate p d base quote 1%float)
              (Date.range (Some s) (Some t)) Null [] e w) as [w' Hrun].
  eexists _, w'. split; [exact Hrun|]. rewrite app_nil_l. split.
  - rewrite carry_forward_length, outcomes_length, range_length. lia.
  - apply carry_forward_entries. left. reflexivity.
Qed.

Lemma card_series_length_witness :
  Date.toDate "2024-02-27" = Some 19780
  /\ Date.toDate "2024-03-02" = Some 19784
  /\ 19780 <= 19784
  /\ exists (series : list rate) (w' : world),
       card_series CardAmex "2024-02-27" "2024-03-02" "JPY" "GBP" Sample.amex_down Sample.start
       = (Ok series, w')
       /\ Z.of_nat (length series) = 19784 - 19780 + 1
       /\ Forall (fun r => r = Null \/ is_good_number r = true) series.
Proof.
  assert (Hs : Date.toDate "2024-02-27" = Some 19780) by (vm_compute; reflexivity).
  assert (Ht : Date.toDate "2024-03-02" = Some 19784) by (vm_compute; reflexivity).
  assert (Hle : 19780 <= 19784) by lia.
  repeat split; try assumption.
  exact (card_series_length CardAmex Sample.amex_down Sample.start
           "2024-02-27" "2024-03-02" "JPY" "GBP" 19780 19784 Hs Ht Hle).
Defined.

(** *** Leading gaps *)

Lemma carry_forward_leading (rs : list (result rate)) :
  forall (lastGood : rate) (k : nat),
    (forall j : nat, (j <= k)%nat -> fetch_known rs !! j = Some false) ->
    carry_forward lastGood rs !! k = Some lastGood.
Proof.
  induction rs as [|r rest IH]; intros lastGood k Hk.
  - specialize (Hk O ltac:(lia)). discriminate Hk.
  - pose proof (Hk O ltac:(lia)) as H0. simpl in H0.
    injection H0 as H0. apply bool_decide_eq_false in H0.
    simpl. destruct (good r) as [v|]; [exfalso; apply H0; eauto|].
    destruct k as [|k]; [reflexivity|].
    simpl. apply IH. intros j Hj. apply (Hk (S j)). lia.
Qed.

Lemma fill_mid_acc (labels : list string) (midMap : gmap string float) :
  forall (last : rate) (acc : list rate),
    Server.fill_mid labels midMap last acc
    = (acc ++ Server.fill_mid labels midMap last [])%list.
Proof.
  induction labels as [|d rest IH]; intros last acc; simpl.
  - rewrite app_nil_r. reflexivity.
  - rewrite IH. rewrite (IH _ [_]). rewrite <- app_assoc. reflexivity.
Qed.

(** While no label has a value, the second loop of the history handler
    records the value it started from. *)
Lemma fill_mid_leading (labels : list string) (midMap : gmap string float) :
  forall (last : rate) (k : nat),
    (forall j : nat, (j <= k)%nat -> mid_known labels midMap !! j = Some false) ->
    Server.fill_mid labels midMap last [] !! k = Some last.
Proof.
  induction labels as [|d rest IH]; intros last k Hk.
  - specialize (Hk O ltac:(lia)). discriminate Hk.
  - pose proof (Hk O ltac:(lia)) as H0. simpl in H0.
    injection H0 as H0. apply bool_decide_eq_false in H0.
    simpl. destruct (midMap !! d) as [x|]; [exfalso; apply H0; eauto|].
    rewrite fill_mid_acc.
    destruct k as [|k]; [reflexivity|].
    simpl. apply IH. intros j Hj. apply (Hk (S j)). lia.
Qed.

(** The first loop of the history handler finds the first label that has
    a value. *)
Lemma firstKnown_first (labels : list string) (midMap : gmap string float) :
  forall (k : nat) (d : string) (x : float),
    (forall j : nat, (j < k)%nat -> mid_known labels midMap !! j = Some false) ->
    labels !! k = Some d ->
    midMap !! d = Some x ->
    Server.firstKnown labels midMap = Num x.
Proof.
  unfold Server.firstKnown.
  induction labels as [|d0 rest IH]; intros k d x Hbefore Hk Hx.
  - discriminate Hk.
  - simpl. destruct k as [|k].
    + injection Hk as ->. rewrite bool_decide_eq_true_2 by eauto.
      rewrite Hx. reflexivity.
    + pose proof (Hbefore O ltac:(lia)) as H0. simpl in H0.
      injection H0 as H0. rewrite H0.
      apply (IH k d x); [|exact Hk|exact Hx].
      intros j Hj. apply (Hbefore (S j)). lia.
Qed.

Lemma firstKnown_none (labels : list string) (midMap : gmap string float) :
  (forall j : nat, (j < length labels)%nat -> mid_known labels midMap !! j = Some false) ->
  Server.firstKnown labels midMap = Null.
Proof.
  unfold Server.firstKnown.
  induction labels as [|d0 rest IH]; intros Hnone; [reflexivity|].
  simpl. pose proof (Hnone O ltac:(simpl; lia)) as H0. simpl in H0.
  injection H0 as H0. rewrite H0.
  apply IH. intros j Hj. apply (Hnone (S j)). simpl. lia.
Qed.

(** C2, leading gaps, series by series.  In every series built by the
    card-network loop, over any dates and any per-date fetch function,
    each position before the first successful fetch is null.  The
    reference-rate series of the history handler is built otherwise: each
    position before the first date that has a reference rate holds that
    first rate, and null is recorded only when no date of the range has
    one. *)
Theorem leading_gaps :
  (forall (getRate : string -> M rate) (dates : list string) (e : env) (w : world),
      exists (series : list rate) (w' : world),
        series_loop getRate dates Null [] e w = (Ok series, w')
        /\ leading_gaps_null (fetch_known (outcomes getRate dates e w)) series)
  /\ (forall (labels : list string) (midMap : gmap string float) (k j : nat) (d : string) (x : float),
        (forall i : nat, (i < k)%nat -> mid_known labels midMap !! i = Some false) ->
        labels !! k = Some d ->
        midMap !! d = Some x ->
        (j < k)%nat ->
        Server.midSeries_of labels midMap !! j = Some (Num x))
  /\ (forall (labels : list string) (midMap : gmap string float),
        (forall i : nat, (i < length labels)%nat -> mid_known labels midMap !! i = Some false) ->
        leading_gaps_null (mid_known labels midMap) (Server.midSeries_of labels midMap)).
Proof.
  split; [|split].
  - intros getRate dates e w.
    destruct (series_loop_carry getRate dates Null [] e w) as [w' Hrun].
    eexists _, w'. split; [exact Hrun|].
    intros k Hk. rewrite app_nil_l. apply carry_forward_leading. exact Hk.
  - intros labels midMap k j d x Hbefore Hk Hx Hj.
    unfold Server.midSeries_of.
    rewrite (firstKnown_first labels midMap k d x Hbefore Hk Hx).
    apply fill_mid_leading. intros i Hi. apply Hbefore. lia.
  - intros labels midMap Hnone k Hk.
    unfold Server.midSeries_of. rewrite (firstKnown_none labels midMap Hnone).
    apply fill_mid_leading. exact Hk.
Qed.

Lemma leading_gaps_witness :
  (forall i : nat, (i < 2)%nat ->
     mid_known Sample.five_days Sample.third_day_only !! i = Some false)
  /\ Sample.five_days !! 2%nat = Some "2024-01-08"
  /\ Sample.third_day_only !! "2024-01-08" = Some 0.9%float
  /\ Server.midSeries_of Sample.five_days Sample.third_day_only !! 1%nat = Some (Num 0.9%float)
  /\ exists (series : list rate) (w' : world),
       series_loop (fun d => card_rate CardMastercard d "EUR" "USD" 1%float)
         Sample.five_days Null [] Sample.mc_down Sample.start = (Ok series, w')
       /\ leading_gaps_null
            (fetch_known (outcomes (fun d => card_rate CardMastercard d "EUR" "USD" 1%float)
                            Sample.five_days Sample.mc_down Sample.start))
            series.
Proof.
  assert (Hbefore : forall i : nat, (i < 2)%nat ->
            mid_known Sample.five_days Sample.third_day_only !! i = Some false).
  { intros [|[|i]] Hi; [vm_compute; reflexivity | vm_compute; reflexivity | lia]. }
  assert (Hk : Sample.five_days !! 2%nat = Some "2024-01-08") by reflexivity.
  assert (Hx : Sample.third_day_only !! "2024-01-08" = Some 0.9%float)
    by (vm_compute; reflexivity).
  destruct leading_gaps as [Hcard [Hmid _]].
  split; [exact Hbefore|]. split; [exact Hk|]. split; [exact Hx|]. split.
  - exact (Hmid Sample.five_days Sample.third_day_only 2%nat 1%nat "2024-01-08" 0.9%float
             Hbefore Hk Hx ltac:(lia)).
  - exact (Hcard (fun d => card_rate CardMastercard d "EUR" "USD" 1%float)
             Sample.five_days Sample.mc_down Sample.start).
Defined.

(** C2 does not hold of the reference-rate series: with reference
    rates on the third of five days only, the history handler's series
    starts with that rate, not with two gap markers. *)
Lemma mid_series_back_fills :
  Server.midSeries_of Sample.five_days Sample.third_day_only
  = [Num 0.9%float; Num 0.9%float; Num 0.9%float; Num 0.9%float; Num 0.9%float]
  /\ ~ leading_gaps_null (mid_known Sample.five_days Sample.third_day_only)
         (Server.midSeries_of Sample.five_days Sample.third_day_only).
Proof.
  split; [vm_compute; reflexivity|].
  intros Hgaps. specialize (Hgaps O).
  assert (Hfirst : forall j : nat, (j <= 0)%nat ->
            mid_known Sample.five_days Sample.third_day_only !! j = Some false).
  { intros j Hj. replace j with O by lia. vm_compute. reflexivity. }
  specialize (Hgaps Hfirst). vm_compute in Hgaps. discriminate Hgaps.
Qed.

(** The same through the handler: the range 2024-01-06..2024-01-09 starts
    on a week-end, for which the reference provider has no rates. *)
Example history_mid_series_starts_with_first_rate :
  match fst (Server.api_history
               {| Server.q_date := Some "2024-01-09"; Server.q_base := Some "EUR";
                  Server.q_quote := Some "USD"; Server.q_amount := None;
                  Server.q_days := Some "4" |} Sample.up Sample.start) with
  | Ok (Server.Json200 body) =>
      Server.labels body = ["2024-01-06"; "2024-01-07"; "2024-01-08"; "2024-01-09"]
      /\ Server.s_mid (Server.series body)
         = [Num 1.08%float; Num 1.08%float; Num 1.08%float; Num 1.09%float]
  | _ => False
  end.
Proof. vm_compute. split; reflexivity. Qed.

(** The card-network loop on the specification's example: the first two
    fetches fail, the third gives 0.90. *)
Example carry_forward_leading_gap (err : error) :
  carry_forward Null [Throw err; Throw err; Ok (Num 0.9%float); Throw err; Ok Null]
  = [Null; Null; Num 0.9%float; Num 0.9%float; Num 0.9%float].
Proof. reflexivity. Qed.

(** ** The aggregation facade *)






(** A promise with [.catch(() => null)] never rejects. *)
Lemma catch_null_settles (m : M rate) (e : env) (w : world) :
  exists (r : rate) (w' : world), Server.catch_null m e w = (Ok r, w').
Proof.
  unfold Server.catch_null, try_catch.
  destruct (m e w) as [[r | err] w']; [exists r, w' | exists Null, w']; reflexivity.
Qed.




Lemma date_format_not_missing (s : string) :
  Server.date_format s = true -> Server.missing (Some s) = false.
Proof. destruct s; [discriminate | reflexivity]. Qed.

Lemma currency_format_not_missing (s : string) :
  Server.currency_format s = true -> Server.missing (Some s) = false.
Proof. destruct s; [discriminate | reflexivity]. Qed.




(** ** Triangulation *)

Lemma div_eucl_shift (m : positive) :
  Z.div_eucl (Z.shiftl (Zpos m) 53) (Zpos m) = (2 ^ 53, 0).
Proof.
  rewrite Z.shiftl_mul_pow2 by lia.
  pose proof (Z_div_mult (2 ^ 53) (Zpos m) ltac:(lia)) as Hd.
  pose proof (Z_mod_mult (2 ^ 53) (Zpos m)) as Hm.
  rewrite (Z.mul_comm (Z.pos m)).
  unfold Z.div, Z.modulo in Hd, Hm.
  destruct (Z.div_eucl (2 ^ 53 * Z.pos m) (Z.pos m)) as [q r].
  simpl fst in Hd. simpl snd in Hm. subst. reflexivity.
Qed.

Lemma SFdiv_self (s : bool) (m : positive) (e : Z) :
  SFdiv prec emax (S754_finite s m e) (S754_finite s m e)
  = S754_finite false 4503599627370496 (-52).
Proof.
  unfold SFdiv, SFdiv_core_binary.
  replace (Zdigits2 (Z.pos m) + e - (Zdigits2 (Z.pos m) + e)) with 0 by lia.
  replace (e - e) with 0 by lia.
  change (Z.min (fexp prec emax 0) 0) with (-53).
  change (0 - -53) with 53.
  cbv iota beta zeta.
  rewrite div_eucl_shift.
  assert (Hl : new_location (Z.pos m) 0 = loc_Exact).
  { unfold new_location. destruct (Z.even (Z.pos m)); reflexivity. }
  rewrite Hl. rewrite xorb_nilpotent. reflexivity.
Qed.

(** A finite number other than zero divided by itself is exactly 1. *)
Lemma div_self (x : float) : usable x = true -> (x / x)%float = 1%float.
Proof.
  unfold usable. rewrite !andb_true_iff, !negb_true_iff. intros [[Hn Hz] Hi].
  rewrite <- (FloatAxioms.SF2Prim_Prim2SF (x / x)), FloatAxioms.div_spec.
  unfold PrimFloat.is_nan, PrimFloat.is_zero, PrimFloat.is_infinity in *.
  rewrite FloatAxioms.eqb_spec in Hn, Hz, Hi. rewrite FloatAxioms.abs_spec in Hi.
  unfold SF64div.
  destruct (Prim2SF x) as [s | s | | s m e] eqn:E.
  - destruct s; discriminate Hz.
  - destruct s; discriminate Hi.
  - discriminate Hn.
  - rewrite SFdiv_self. reflexivity.
Qed.

Lemma status_404 (status : Z) :
  bool_decide (Some status = Some 404) = (status =? 404).
Proof.
  destruct (status =? 404) eqn:H.
  - apply Z.eqb_eq in H. subst. reflexivity.
  - apply Z.eqb_neq in H. apply bool_decide_eq_false_2. congruence.
Qed.

#[local] Opaque sent.

Ltac resolve_cases :=
  repeat match goal with
         | _ => progress cbn
         | |- context [(200 <=? ?status) && (?status <? 300)] =>
             destruct ((200 <=? status) && (status <? 300))
         | |- context [bool_decide (Some ?status = Some 404)] =>
             rewrite (status_404 status)
         | |- context [?status =? 404] =>
             destruct (status =? 404)
         | |- context [bool_decide (None = Some 404)] =>
             rewrite (bool_decide_eq_false_2 (None = Some 404)) by discriminate
         | |- context [lookup ?k ?m] =>
             destruct (lookup k m)
         | |- context [fx_api ?e ?url ?to (now ?w)] =>
             is_var w;
             let status := fresh "status" in
             let data := fresh "data" in
             let msg := fresh "msg" in
             destruct (fx_api e url to (now w)) as [status [data|] | msg]
         | |- context [fx_api ?e ?url ?to ?t] =>
             let status := fresh "status" in
             let data := fresh "data" in
             let msg := fresh "msg" in
             destruct (fx_api e url to t) as [status [data|] | msg]
         end;
  try reflexivity.

(** What the direct branch resolves to. *)
Lemma direct_resolution (e : env) (w : world) (d B : string) :
  B <> "EUR" ->
  let url := FRANKFURTER_API +:+ "/" +:+ d in
  resolved (fst (getMidMarketRate d "EUR" B e w))
  = direct_of (view (fx_api e url B (now w)) B)
      (view (fx_api e (FRANKFURTER_API +:+ "/latest") B
               (now (sent e (FxGet url "EUR" B) w))) B).
Proof.
  intros HB url. subst url.
  assert (HeqB : String.eqb "EUR" B = false) by (apply String.eqb_neq; congruence).
  unfold getMidMarketRate, try_catch. rewrite HeqB.
  change (String.eqb "EUR" "EUR") with true. cbv iota zeta.
  remember (FRANKFURTER_API +:+ "/" +:+ d) as url eqn:Hurl.
  remember (FRANKFURTER_API +:+ "/latest") as latest eqn:Hlatest.
  unfold bind, axios_get, rates_get, throw, ret, view, direct_of, TypeError_reading, Error.
  resolve_cases.
Qed.

(** What the cross-rate branch resolves to. *)
Lemma cross_resolution (e : env) (w : world) (d A B : string) :
  A <> B -> A <> "EUR" -> B <> "EUR" ->
  let url := FRANKFURTER_API +:+ "/" +:+ d in
  let to := A +:+ "," +:+ B in
  let o := fx_api e url to (now w) in
  let ol := fx_api e (FRANKFURTER_API +:+ "/latest") to (now (sent e (FxGet url "EUR" to) w)) in
  resolved (fst (getMidMarketRate d A B e w))
  = cross_of (view o A) (view o B) (view ol A) (view ol B).
Proof.
  intros HAB HA HB url to o ol. subst url to o ol.
  assert (HeqAB : String.eqb A B = false) by (apply String.eqb_neq; congruence).
  assert (HeqA : String.eqb A "EUR" = false) by (apply String.eqb_neq; congruence).
  assert (HeqB : String.eqb B "EUR" = false) by (apply String.eqb_neq; congruence).
  unfold getMidMarketRate, try_catch. rewrite HeqAB, HeqA, HeqB.
  cbv iota zeta.
  remember (FRANKFURTER_API +:+ "/" +:+ d) as url eqn:Hurl.
  remember (FRANKFURTER_API +:+ "/latest") as latest eqn:Hlatest.
  remember (A +:+ "," +:+ B) as to eqn:Hto.
  unfold bind, axios_get, rates_get, throw, ret, view, cross_of, TypeError_reading, Error.
  resolve_cases.
Qed.

#[local] Transparent sent.

Lemma resolved_quotient (p q : result rate) :
  resolved (quotient p q)
  = match resolved p, resolved q with
    | Some b, Some a => Some (js_div b a)
    | _, _ => None
    end.
Proof. destruct p, q; reflexivity. Qed.

(** C5, triangulation consistency, with its side condition.  For every
    date d and currencies A, B other than EUR, given the same provider
    response data, resolve(d, A, B) and
    resolve(d, EUR, B) / resolve(d, EUR, A) are the same value or fail
    together, provided that, when A and B are the same currency, the
    provider has a finite non-zero rate for it: the resolver returns 1 for
    equal currencies without asking the provider. *)
Theorem triangulation_consistency (e : env) (w : world) (d A B : string) :
  A <> "EUR" ->
  B <> "EUR" ->
  same_data e (FRANKFURTER_API +:+ "/" +:+ d) A B ->
  same_data e (FRANKFURTER_API +:+ "/latest") A B ->
  (A = B -> exists x : float,
      fst (getMidMarketRate d "EUR" A e w) = Ok (Num x) /\ usable x = true) ->
  triangulation e w d A B.
Proof.
  intros HA HB Hdate Hlatest Hsame. unfold triangulation.
  destruct (decide (A = B)) as [-> | HAB].
  - destruct (Hsame eq_refl) as (x & Hx & Hux).
    rewrite (getMidMarketRate_equal e w d B), Hx.
    cbn. unfold js_div. cbn. rewrite (div_self x Hux). reflexivity.
  - rewrite resolved_quotient.
    rewrite (cross_resolution e w d A B HAB HA HB).
    rewrite (direct_resolution e w d B HB), (direct_resolution e w d A HA).
    cbv zeta.
    set (url := FRANKFURTER_API +:+ "/" +:+ d) in *.
    set (latest := FRANKFURTER_API +:+ "/latest") in *.
    set (to := A +:+ "," +:+ B) in *.
    destruct (Hdate (now w) (now w) (now w)) as [HdA HdB].
    destruct (Hlatest (now (sent e (FxGet url "EUR" to) w))
                      (now (sent e (FxGet url "EUR" A) w))
                      (now (sent e (FxGet url "EUR" B) w))) as [HlA HlB].
    fold to in HdA, HdB, HlA, HlB.
    rewrite <- HdA, <- HdB, <- HlA, <- HlB.
    unfold view, cross_of, direct_of.
    destruct (fx_api e url to (now w)) as [status [m|] | msg];
      [destruct ((200 <=? status) && (status <? 300)); [reflexivity|];
       destruct (status =? 404); [|reflexivity]
      |destruct ((200 <=? status) && (status <? 300)); [reflexivity|];
       destruct (status =? 404); [|reflexivity]
      |reflexivity];
      (destruct (fx_api e latest to _) as [status' [m'|] | msg'];
       [destruct ((200 <=? status') && (status' <? 300)); [reflexivity|];
        destruct (status' =? 404); reflexivity
       |destruct ((200 <=? status') && (status' <? 300)); [reflexivity|];
        destruct (status' =? 404); reflexivity
       |reflexivity]).
Qed.

Lemma triangulation_consistency_witness :
  "USD" <> "EUR"
  /\ same_data Sample.up (FRANKFURTER_API +:+ "/2024-01-09") "USD" "JPY"
  /\ same_data Sample.up (FRANKFURTER_API +:+ "/latest") "USD" "JPY"
  /\ triangulation Sample.up Sample.start "2024-01-09" "USD" "JPY"
  /\ (exists x : float,
        fst (getMidMarketRate "2024-01-09" "EUR" "USD" Sample.up Sample.start) = Ok (Num x)
        /\ usable x = true)
  /\ triangulation Sample.up Sample.start "2024-01-09" "USD" "USD".
Proof.
  assert (HA : "USD" <> "EUR") by (apply String.eqb_neq; reflexivity).
  assert (HB : "JPY" <> "EUR") by (apply String.eqb_neq; reflexivity).
  assert (Hd : same_data Sample.up (FRANKFURTER_API +:+ "/2024-01-09") "USD" "JPY")
    by (intros t1 t2 t3; vm_compute; split; reflexivity).
  assert (Hl : same_data Sample.up (FRANKFURTER_API +:+ "/latest") "USD" "JPY")
    by (intros t1 t2 t3; vm_compute; split; reflexivity).
  assert (Hd' : same_data Sample.up (FRANKFURTER_API +:+ "/2024-01-09") "USD" "USD")
    by (intros t1 t2 t3; vm_compute; split; reflexivity).
  assert (Hl' : same_data Sample.up (FRANKFURTER_API +:+ "/latest") "USD" "USD")
    by (intros t1 t2 t3; vm_compute; split; reflexivity).
  assert (Hx : exists x : float,
             fst (getMidMarketRate "2024-01-09" "EUR" "USD" Sample.up Sample.start) = Ok (Num x)
             /\ usable x = true)
    by (eexists; split; vm_compute; reflexivity).
  split; [exact HA|]. split; [exact Hd|]. split; [exact Hl|]. split; [|split; [exact Hx|]].
  - apply (triangulation_consistency Sample.up Sample.start "2024-01-09" "USD" "JPY" HA HB Hd Hl).
    intros H. apply String.eqb_eq in H. discriminate H.
  - exact (triangulation_consistency Sample.up Sample.start "2024-01-09" "USD" "USD"
             HA HA Hd' Hl' (fun _ => Hx)).
Defined.

(** C5 does not hold for A = B when the provider has no usable rate
    for the currency: the resolver answers 1 on its own, while
    resolve(d, EUR, A) fails (provider out of reach) or is undefined (a
    currency the provider does not quote). *)
Lemma triangulation_fails_for_equal_currencies :
  ("USD" <> "EUR"
   /\ same_data Sample.fx_down (FRANKFURTER_API +:+ "/2024-01-09") "USD" "USD"
   /\ same_data Sample.fx_down (FRANKFURTER_API +:+ "/latest") "USD" "USD"
   /\ ~ triangulation Sample.fx_down Sample.start "2024-01-09" "USD" "USD")
  /\ ("ARS" <> "EUR"
      /\ same_data Sample.up (FRANKFURTER_API +:+ "/2024-01-09") "ARS" "ARS"
      /\ same_data Sample.up (FRANKFURTER_API +:+ "/latest") "ARS" "ARS"
      /\ ~ triangulation Sample.up Sample.start "2024-01-09" "ARS" "ARS").
Proof.
  split.
  - split; [apply String.eqb_neq; reflexivity|].
    split; [intros t1 t2 t3; vm_compute; split; reflexivity|].
    split; [intros t1 t2 t3; vm_compute; split; reflexivity|].
    unfold triangulation. vm_compute. discriminate.
  - split; [apply String.eqb_neq; reflexivity|].
    split; [intros t1 t2 t3; vm_compute; split; reflexivity|].
    split; [intros t1 t2 t3; vm_compute; split; reflexivity|].
    unfold triangulation. intros H.
    assert (Hl : resolved (fst (getMidMarketRate "2024-01-09" "ARS" "ARS" Sample.up Sample.start))
                 = Some (Num 1%float)) by (vm_compute; reflexivity).
    assert (Hr : resolved (quotient
                   (fst (getMidMarketRate "2024-01-09" "EUR" "ARS" Sample.up Sample.start))
                   (fst (getMidMarketRate "2024-01-09" "EUR" "ARS" Sample.up Sample.start)))
                 = Some (Num PrimFloat.nan)) by (vm_compute; reflexivity).
    rewrite Hl, Hr in H.
    apply (f_equal (fun o => match o with
                             | Some (Num x) => PrimFloat.is_nan x
                             | _ => false
                             end)) in H.
    vm_compute in H. discriminate H.
Qed.

(** ** The percentage-variance provider: failures and odd variances *)

(** Whatever goes wrong with the provider's answer, the lookup resolves to
    null when the cache has nothing fresh. *)
Lemma amex_transport_failure_is_null (e : env) (w : world)
    (date base quote : string) (amount : float) :
  fresh_value (amex_cache w) (Amex.getCacheKey date base quote) (now w) = None ->
  (forall t : Z, exists msg : string,
      amex_api e (Amex.AMEX_API_BASE +:+ "?market=" +:+ Amex.market_of base) t = Failed msg) ->
  fst (Amex.getAmexRate date base quote amount e w) = Ok Null.
Proof.
  intros Hfresh Hdown.
  assert (Hvia : forall w0,
            fst (Amex.getAmexRateViaPlaywright date base quote amount e w0) = Ok Null).
  { intros w0. unfold Amex.getAmexRateViaPlaywright, try_catch, bind at 1.
    destruct (Amex.ensureBrowser e w0) as [[[] | err] w1]; [|reflexivity].
    unfold bind at 1.
    destruct (getMidMarketRate date base quote e w1) as [[ecb | err] w2]; [|reflexivity].
    unfold bind at 1, page_fetch.
    destruct (Hdown (now w2)) as [msg ->]. reflexivity. }
  assert (Hmiss : forall w0,
            fst (bind (Amex.getAmexRateViaPlaywright date base quote amount)
                   (fun apiRate =>
                      if negb (is_null apiRate) then
                        bind (modify (fun w1 =>
                                set_amex_cache (<[Amex.getCacheKey date base quote :=
                                                    {| value := apiRate; timestamp := now w1 |}]> (amex_cache w1)) w1))
                             (fun _ => ret apiRate)
                      else ret Null) e w0) = Ok Null).
  { intros w0. unfold bind at 1. specialize (Hvia w0).
    destruct (Amex.getAmexRateViaPlaywright date base quote amount e w0) as [r w1].
    simpl in Hvia. subst r. reflexivity. }
  unfold Amex.getAmexRate, bind at 1, get_world.
  unfold fresh_value in Hfresh.
  destruct (amex_cache w !! Amex.getCacheKey date base quote) as [c|]; [|apply Hmiss].
  change (1000 * 60 * 60) with Amex.CACHE_TTL in Hfresh.
  destruct (now w - timestamp c <? Amex.CACHE_TTL); [discriminate|].
  unfold bind at 1, modify. apply Hmiss.
Qed.

(** C3: the specification wants an unreachable provider or a malformed
    payload told apart from a pair the provider cannot price.  The code
    does not tell them apart: on a pair it can price (USD to JPY), [getAmexRate] resolves
    to null when the provider is out of reach and when its payload is
    malformed, exactly as for the pair JPY to GBP that it cannot price, and
    the facade reports [amexUnavailable] in the same way. *)
Theorem amex_failure_reads_as_unsupported :
  (exists x : float,
      fst (Amex.getAmexRate "2024-01-09" "USD" "JPY" 1%float Sample.up Sample.start)
      = Ok (Num x))
  /\ fst (Amex.getAmexRate "2024-01-09" "JPY" "GBP" 1%float Sample.up Sample.start) = Ok Null
  /\ fst (Amex.getAmexRate "2024-01-09" "USD" "JPY" 1%float Sample.amex_down Sample.start) = Ok Null
  /\ fst (Amex.getAmexRate "2024-01-09" "USD" "JPY" 1%float Sample.amex_malformed Sample.start)
     = Ok Null
  /\ match fst (Server.api_rates (Sample.query "2024-01-09" "JPY" "GBP") Sample.up Sample.start),
           fst (Server.api_rates (Sample.query "2024-01-09" "USD" "JPY") Sample.amex_down Sample.start)
     with
     | Ok (Server.Json200 unsupported), Ok (Server.Json200 outage) =>
         Server.amexUnavailable unsupported = true
         /\ Server.amexUnavailable outage = true
         /\ Server.amex unsupported = Server.amex outage
         /\ Server.amexDeltaPct unsupported = Server.amexDeltaPct outage
     | _, _ => False
     end.
Proof.
  split; [eexists; vm_compute; reflexivity|].
  split; [vm_compute; reflexivity|].
  split; [vm_compute; reflexivity|].
  split; [vm_compute; reflexivity|].
  vm_compute. repeat split; reflexivity.
Qed.

(** NaN is one value. *)
Lemma is_nan_eq (x : float) : PrimFloat.is_nan x = true -> x = PrimFloat.nan.
Proof.
  intros Hn. rewrite <- (FloatAxioms.SF2Prim_Prim2SF x).
  unfold PrimFloat.is_nan in Hn. rewrite FloatAxioms.eqb_spec in Hn.
  destruct (Prim2SF x) as [s | s | | s m e]; try reflexivity; exfalso.
  - destruct s; discriminate Hn.
  - destruct s; discriminate Hn.
  - unfold SFeqb, SFcompare in Hn.
    destruct s; rewrite Z.compare_refl, Pos.compare_cont_refl in Hn; discriminate Hn.
Qed.

Lemma mul_nan (x : float) : (x * PrimFloat.nan)%float = PrimFloat.nan.
Proof.
  rewrite <- (FloatAxioms.SF2Prim_Prim2SF (x * PrimFloat.nan)), FloatAxioms.mul_spec.
  change (Prim2SF PrimFloat.nan) with S754_nan.
  unfold SF64mul, SFmul. destruct (Prim2SF x); reflexivity.
Qed.

Lemma div_nan (x : float) : (x / PrimFloat.nan)%float = PrimFloat.nan.
Proof.
  rewrite <- (FloatAxioms.SF2Prim_Prim2SF (x / PrimFloat.nan)), FloatAxioms.div_spec.
  change (Prim2SF PrimFloat.nan) with S754_nan.
  unfold SF64div, SFdiv. destruct (Prim2SF x); reflexivity.
Qed.

(** The variance step of the normalizer, case by case on the located
    entry's value: a value that fails the truthiness test (missing, empty,
    zero) ends in the error that [getAmexRateViaPlaywright] turns into null;
    a value that passes it without being numeric gives NaN as the rate. *)
Lemma apply_variance_cases (ecbRate : rate) (rateData : amex_entry) (code : string)
    (needsInversion : bool) (consumers : list amex_consumer) (quoteData : amex_consumer)
    (e : env) (w : world) :
  consumer rateData = Some consumers ->
  List.find (fun c => strict_eq_str (submissionCurrencyCode c) code) consumers = Some quoteData ->
  (truthy (percentageVariance quoteData) = false ->
   Amex.apply_variance ecbRate rateData code needsInversion e w
   = (Throw (Error "Could not parse Amex API response"), w))
  /\ (truthy (percentageVariance quoteData) = true ->
      Number.isNaN (parseFloat (percentageVariance quoteData)) = true ->
      Amex.apply_variance ecbRate rateData code needsInversion e w
      = (Ok (Num PrimFloat.nan), w)).
Proof.
  intros Hc Hq. unfold Amex.apply_variance. rewrite Hc, Hq. split.
  - intros ->. reflexivity.
  - intros -> Hnan. apply is_nan_eq in Hnan. rewrite Hnan.
    change (1 + PrimFloat.nan / 100)%float with PrimFloat.nan.
    rewrite mul_nan, div_nan. destruct needsInversion; reflexivity.
Qed.

(** C4: the specification wants the Unsupported outcome when the located
    variance is missing or not numeric.  The code does so for a missing
    one only: with the variance "N/A" for USD to JPY, the lookup resolves to
    NaN, and stores it in the cache for the hour to come. *)
Theorem amex_variance_not_numeric_gives_NaN :
  exists (x : float) (w' : world),
    Amex.getAmexRate "2024-01-09" "USD" "JPY" 1%float Sample.amex_not_numeric Sample.start
    = (Ok (Num x), w')
    /\ Number.isNaN x = true
    /\ fresh_value (amex_cache w') (Amex.getCacheKey "2024-01-09" "USD" "JPY") (now w')
       = Some (Num x).
Proof.
  eexists _, _. split; [vm_compute; reflexivity|].
  split; vm_compute; reflexivity.
Qed.

(** C8 does not hold when "present" means that the member is there: a
    converted total of 0 is there and reads as a number, yet the code
    takes it as absent and falls back to the per-unit rate instead of
    returning 0 / amount. *)
Lemma zero_total_counts_as_absent :
  fst (Mastercard.getMastercardRate "2024-01-09" "LBP" "KWD" 1%float
         Sample.mc_rounds_to_zero Sample.start)
  = Ok (Num 0.0000034%float)
  /\ stated_rate {| crdhldBillAmt := JNum 0%float; conversionRate := JNum 0.0000034%float |} 1%float
     = Some 0%float
  /\ ~ follows_stated_order Sample.mc_rounds_to_zero Sample.start "2024-01-09" "LBP" "KWD" 1%float.
Proof.
  split; [vm_compute; reflexivity|].
  split; [vm_compute; reflexivity|].
  intros Hstated.
  specialize (Hstated ltac:(vm_compute; reflexivity)
                {| crdhldBillAmt := JNum 0%float; conversionRate := JNum 0.0000034%float |}
                ltac:(vm_compute; reflexivity)).
  apply (f_equal (fun r => match r with
                           | Ok (Num x) => PrimFloat.is_zero x
                           | _ => false
                           end)) in Hstated.
  vm_compute in Hstated. discriminate Hstated.
Qed.

(** * Further properties *)

(** ** The reference resolver: requests and failures *)

Lemma axios_get_run {B} (rq : request) (answer : env -> Z -> outcome B) (e : env) (w : world) :
  axios_get rq answer e w = (axios_result (answer e (now w)), sent e rq w).
Proof.
  unfold axios_get, axios_result. destruct (answer e (now w)) as [status data | msg]; [|reflexivity].
  destruct ((200 <=? status) && (status <? 300)); reflexivity.
Qed.

Lemma not_found_status {B} (o : outcome B) (err : error) :
  axios_result o = Throw err ->
  bool_decide (response_status err = Some 404) = not_found o.
Proof.
  unfold axios_result, not_found. destruct o as [status data | msg].
  - destruct ((200 <=? status) && (status <? 300)) eqn:H2xx; [discriminate|].
    intros [= <-]. cbn. apply status_404.
  - intros [= <-]. reflexivity.
Qed.

Lemma not_found_ok {B} (o : outcome B) (data : B) :
  axios_result o = Ok data -> not_found o = false.
Proof.
  unfold axios_result, not_found. destruct o as [status d | msg]; [|discriminate].
  destruct ((200 <=? status) && (status <? 300)) eqn:H2xx; [|discriminate].
  intros _. destruct (status =? 404) eqn:H404; [|reflexivity].
  apply Z.eqb_eq in H404. subst. discriminate H2xx.
Qed.

(** Where the resolver leaves the state, for distinct currencies: after
    its first request, and after the request for the latest rates when
    the first one came back with 404. *)
Lemma resolver_state (e : env) (w : world) (date base quote : string) :
  base <> quote ->
  snd (getMidMarketRate date base quote e w)
  = if not_found (fx_api e (FRANKFURTER_API +:+ "/" +:+ date) (first_to base quote) (now w))
    then sent e (latest_request base quote) (sent e (first_request date base quote) w)
    else sent e (first_request date base quote) w.
Proof.
  intros Hne. apply String.eqb_neq in Hne.
  unfold getMidMarketRate, try_catch, first_request, first_to, latest_request, latest_to.
  rewrite Hne.
  destruct (String.eqb base "EUR") eqn:HbE; [|destruct (String.eqb quote "EUR") eqn:HqE];
    cbv zeta; unfold bind at 1; rewrite axios_get_run;
    match goal with |- context [axios_result ?o] =>
      pose proof (not_found_status o) as H404;
      pose proof (not_found_ok o) as Hok;
      destruct (axios_result o) as [rates | err]
    end;
    [rewrite (Hok rates eq_refl) | rewrite <- (H404 err eq_refl)
    |rewrite (Hok rates eq_refl) | rewrite <- (H404 err eq_refl)
    |rewrite (Hok rates eq_refl) | rewrite <- (H404 err eq_refl)];
    clear H404 Hok.
  all: try (destruct (bool_decide (response_status err = Some 404));
            [|reflexivity];
            unfold bind at 1; rewrite axios_get_run;
            match goal with |- context [axios_result ?o] => destruct (axios_result o) as [rates | err'] end;
            [destruct rates as [m|]; unfold rates_get, bind, throw, ret;
             repeat break_match; reflexivity
            | reflexivity]).
  all: destruct rates as [m|]; unfold rates_get, bind, throw, ret;
    repeat break_match; simplify_eq; cbn;
    rewrite ?bool_decide_eq_false_2 by discriminate; reflexivity.
Qed.

(** X1: the requests of the resolver.  It sends nothing for equal
    currencies; otherwise one request for the date and, only when that one
    comes back with 404, a second one for the latest rates: never more
    than two, whatever fails. *)
Theorem resolver_requests (e : env) (w : world) (date base quote : string) :
  net_log (snd (getMidMarketRate date base quote e w))
  = (net_log w
     ++ requests_of date base quote
          (not_found (fx_api e (FRANKFURTER_API +:+ "/" +:+ date) (first_to base quote) (now w))))%list
  /\ (length (net_log (snd (getMidMarketRate date base quote e w))) <= length (net_log w) + 2)%nat.
Proof.
  assert (H : net_log (snd (getMidMarketRate date base quote e w))
              = (net_log w
                 ++ requests_of date base quote
                      (not_found (fx_api e (FRANKFURTER_API +:+ "/" +:+ date)
                                    (first_to base quote) (now w))))%list).
  { unfold requests_of. destruct (String.eqb base quote) eqn:Heq.
    - apply String.eqb_eq in Heq. subst quote.
      rewrite getMidMarketRate_equal, app_nil_r. reflexivity.
    - apply String.eqb_neq in Heq. rewrite (resolver_state e w date base quote Heq).
      destruct (not_found _); cbn; [rewrite <- app_assoc|]; reflexivity. }
  split; [exact H|]. rewrite H, length_app. unfold requests_of.
  destruct (String.eqb base quote); [cbn; lia|].
  destruct (not_found _); cbn; lia.
Qed.

Lemma rates_get_run (rates : fx_rates) (key : string) (e : env) (w : world) :
  rates_get rates key e w = (read_member rates key, w).
Proof.
  unfold rates_get, read_member, rate_at. destruct rates as [m|]; [|reflexivity].
  destruct (m !! key); reflexivity.
Qed.

(** The resolver, for distinct currencies, as the sources run it: the
    request for the date, the read of its payload, and the fall-back. *)
Lemma resolver_run (e : env) (w : world) (date base quote : string) :
  base <> quote ->
  getMidMarketRate date base quote e w
  = let w1 := sent e (first_request date base quote) w in
    match axios_result (fx_api e (FRANKFURTER_API +:+ "/" +:+ date) (first_to base quote) (now w)) with
    | Ok rates =>
        match read_rate base quote rates with
        | Ok v => (Ok v, w1)
        | Throw err => (Throw (Error ("Failed to fetch mid-market rate: " +:+ message err)), w1)
        end
    | Throw err =>
        if bool_decide (response_status err = Some 404) then
          (match axios_result (fx_api e (FRANKFURTER_API +:+ "/latest") (latest_to base quote) (now w1)) with
           | Ok rates => read_rate base quote rates
           | Throw err' => Throw err'
           end, sent e (latest_request base quote) w1)
        else (Throw (Error ("Failed to fetch mid-market rate: " +:+ message err)), w1)
    end.
Proof.
  intros Hne. apply String.eqb_neq in Hne.
  unfold getMidMarketRate, try_catch, first_request, first_to, latest_request, latest_to, read_rate.
  rewrite Hne.
  destruct (String.eqb base "EUR") eqn:HbE; [|destruct (String.eqb quote "EUR") eqn:HqE];
    cbv zeta; unfold bind; rewrite axios_get_run;
    (destruct (axios_result (fx_api e _ _ (now w))) as [rates | err];
     [rewrite ?rates_get_run;
      destruct (read_member rates _) as [r | terr] eqn:Hr; cbn [fst snd];
      try (rewrite ?rates_get_run;
           destruct (read_member rates quote) as [r' | terr'] eqn:Hr'; cbn [fst snd]);
      unfold ret, throw;
      try reflexivity;
      try (destruct rates as [m|]; [discriminate|];
           cbn in *; simplify_eq; cbn;
           rewrite ?bool_decide_eq_false_2 by discriminate; reflexivity)
     |destruct (bool_decide (response_status err = Some 404)); [|reflexivity];
      rewrite axios_get_run;
      destruct (axios_result (fx_api e _ _ _)) as [rates | err']; [|reflexivity];
      rewrite ?rates_get_run;
      destruct (read_member rates _) as [r | terr]; cbn [fst snd]; try reflexivity;
      rewrite ?rates_get_run;
      destruct (read_member rates quote) as [r' | terr']; reflexivity]).
Qed.



(** X3: the inversion law.  For a currency A other than EUR, given that
    the provider says the same about A at [latest] in answer to the two
    fall-back requests (for "A,EUR" and for "A"), resolve(d, A, EUR) is
    1 / resolve(d, EUR, A): the same value, or a failure on both sides. *)
Theorem inversion_law (e : env) (w : world) (d A : string) :
  A <> "EUR" ->
  (forall t : Z,
      view (fx_api e (FRANKFURTER_API +:+ "/latest") (latest_to A "EUR") t) A
      = view (fx_api e (FRANKFURTER_API +:+ "/latest") (latest_to "EUR" A) t) A) ->
  resolved (fst (getMidMarketRate d A "EUR" e w))
  = option_map inverse (resolved (fst (getMidMarketRate d "EUR" A e w))).
Proof.
  intros HA Hlatest.
  assert (HA' : "EUR" <> A) by congruence.
  assert (HeqA : String.eqb A "EUR" = false) by (apply String.eqb_neq; exact HA).
  assert (Hf1 : first_to A "EUR" = A) by (unfold first_to; rewrite HeqA; reflexivity).
  assert (Hf2 : first_to "EUR" A = A) by reflexivity.
  rewrite (resolver_run e w d A "EUR" HA), (resolver_run e w d "EUR" A HA').
  unfold first_request, latest_request, read_rate.
  rewrite Hf1, Hf2, HeqA. change (String.eqb "EUR" "EUR") with true. cbv iota zeta.
  destruct (axios_result (fx_api e _ A (now w))) as [rates | err].
  - unfold read_member, inverse. destruct rates as [m|]; reflexivity.
  - destruct (bool_decide (response_status err = Some 404)); [|reflexivity].
    cbn [fst].
    specialize (Hlatest (now (sent e (FxGet (FRANKFURTER_API +:+ "/" +:+ d) "EUR" A) w))).
    unfold view in Hlatest. unfold axios_result.
    destruct (fx_api e _ (latest_to A "EUR") _) as [s1 [m1|] | msg1];
      destruct (fx_api e _ (latest_to "EUR" A) _) as [s2 [m2|] | msg2];
      repeat match goal with
             | H : context [(200 <=? ?s) && (?s <? 300)] |- _ =>
                 destruct ((200 <=? s) && (s <? 300))
             | H : context [?s =? 404] |- _ => destruct (s =? 404)
             | |- context [(200 <=? ?s) && (?s <? 300)] =>
                 destruct ((200 <=? s) && (s <? 300))
             end;
      try discriminate Hlatest; try reflexivity.
    injection Hlatest as Hl.
    unfold read_member, inverse, rate_at. cbn. rewrite Hl. reflexivity.
Qed.

Lemma inversion_law_witness :
  "JPY" <> "EUR"
  /\ (forall t : Z,
        view (fx_api Sample.up (FRANKFURTER_API +:+ "/latest") (latest_to "JPY" "EUR") t) "JPY"
        = view (fx_api Sample.up (FRANKFURTER_API +:+ "/latest") (latest_to "EUR" "JPY") t) "JPY")
  /\ resolved (fst (getMidMarketRate "2024-01-06" "JPY" "EUR" Sample.up Sample.start))
     = option_map inverse (resolved (fst (getMidMarketRate "2024-01-06" "EUR" "JPY" Sample.up Sample.start))).
Proof.
  assert (HA : "JPY" <> "EUR") by (apply String.eqb_neq; reflexivity).
  assert (Hl : forall t : Z,
             view (fx_api Sample.up (FRANKFURTER_API +:+ "/latest") (latest_to "JPY" "EUR") t) "JPY"
             = view (fx_api Sample.up (FRANKFURTER_API +:+ "/latest") (latest_to "EUR" "JPY") t) "JPY")
    by (intros t; vm_compute; reflexivity).
  split; [exact HA|]. split; [exact Hl|].
  exact (inversion_law Sample.up Sample.start "2024-01-06" "JPY" HA Hl).
Defined.

(** ** The caches: what a lookup stores, keeps and drops *)

(** The three fetches never throw, and resolve to a number or to null. *)
Lemma card_via_settles (p : card) (date base quote : string) (amount : float)
    (e : env) (w : world) :
  exists (r : rate) (w' : world),
    card_via p date base quote amount e w = (Ok r, w')
    /\ (r = Null \/ exists x : float, r = Num x).
Proof.
  destruct p; unfold card_via.
  - unfold Mastercard.getMastercardRateViaAPI, try_catch, bind. rewrite axios_get_run.
    destruct (axios_result _) as [[data|] | err]; cbn [fst snd];
      try (eexists _, _; split; [reflexivity | left; reflexivity]).
    unfold ret, throw.
    repeat break_match; simplify_eq;
      eexists _, _; (split; [reflexivity | (left; reflexivity) || (right; eexists; reflexivity)]).
  - unfold Visa.getVisaRateViaPlaywright, try_catch, bind at 1.
    destruct (Visa.ensureBrowser e w) as [[[] | err] w1];
      [|eexists _, _; split; [reflexivity | left; reflexivity]].
    unfold bind at 1.
    destruct (page_fetch _ _ e w1) as [[[v|] | err] w2];
      try (eexists _, _; split; [reflexivity | left; reflexivity]).
    unfold ret, throw.
    repeat break_match; simplify_eq;
      eexists _, _; (split; [reflexivity | (left; reflexivity) || (right; eexists; reflexivity)]).
  - unfold Amex.getAmexRateViaPlaywright, try_catch, bind at 1.
    destruct (Amex.ensureBrowser e w) as [[[] | err] w1];
      [|eexists _, _; split; [reflexivity | left; reflexivity]].
    unfold bind at 1.
    destruct (getMidMarketRate date base quote e w1) as [[ecb | err] w2];
      [|eexists _, _; split; [reflexivity | left; reflexivity]].
    unfold bind at 1.
    destruct (page_fetch _ _ e w2) as [[data | err] w3];
      [|eexists _, _; split; [reflexivity | left; reflexivity]].
    unfold Amex.apply_variance, ret, throw.
    repeat break_match; simplify_eq;
      eexists _, _; (split; [reflexivity | (left; reflexivity) || (right; eexists; reflexivity)]).
Qed.

(** The resolver does not touch the caches. *)
Lemma resolver_caches (p : card) (e : env) (w : world) (date base quote : string) :
  card_cache p (snd (getMidMarketRate date base quote e w)) = card_cache p w.
Proof.
  destruct (decide (base = quote)) as [-> | Hne].
  - rewrite getMidMarketRate_equal. reflexivity.
  - rewrite (resolver_state e w date base quote Hne).
    destruct (not_found _); destruct p; reflexivity.
Qed.

Lemma axios_get_caches {B} (p : card) rq (answer : env -> Z -> outcome B) e w :
  card_cache p (snd (axios_get rq answer e w)) = card_cache p w.
Proof. rewrite axios_get_log. destruct p; reflexivity. Qed.

Lemma page_fetch_caches {B} (p : card) rq (answer : env -> Z -> outcome B) e w :
  card_cache p (snd (page_fetch rq answer e w)) = card_cache p w.
Proof. rewrite page_fetch_log. destruct p; reflexivity. Qed.

(** Neither do the fetches: the caches are written by the rate functions
    only. *)
Lemma card_via_caches (p p' : card) (date base quote : string) (amount : float)
    (e : env) (w : world) :
  card_cache p' (snd (card_via p date base quote amount e w)) = card_cache p' w.
Proof.
  destruct p; unfold card_via.
  - unfold Mastercard.getMastercardRateViaAPI, try_catch, bind.
    pose proof (axios_get_caches p' (McGet (Mastercard.api_url date base quote amount))
                  (fun e0 => mc_api e0 (Mastercard.api_url date base quote amount)) e w) as H.
    destruct (axios_get _ _ e w) as [[[data|] | err] w1]; cbn [fst snd] in *;
      try exact H.
    unfold ret, throw. repeat break_match; simplify_eq; exact H.
  - unfold Visa.getVisaRateViaPlaywright, try_catch, bind at 1.
    assert (H1 : card_cache p' (snd (Visa.ensureBrowser e w)) = card_cache p' w).
    { unfold Visa.ensureBrowser. destruct (visa_page w); [reflexivity|].
      destruct (visa_launch e (now w)); destruct p'; reflexivity. }
    destruct (Visa.ensureBrowser e w) as [[[] | err] w1]; cbn [snd] in H1; [|exact H1].
    unfold bind at 1.
    match goal with |- context [page_fetch ?rq ?a e w1] =>
      pose proof (page_fetch_caches p' rq a e w1) as H2;
      destruct (page_fetch rq a e w1) as [[[v|] | err] w2] end;
      cbn [fst snd] in *; rewrite <- H1, <- H2; try reflexivity.
    unfold ret, throw. repeat break_match; reflexivity.
  - unfold Amex.getAmexRateViaPlaywright, try_catch, bind at 1.
    assert (H1 : card_cache p' (snd (Amex.ensureBrowser e w)) = card_cache p' w).
    { unfold Amex.ensureBrowser. destruct (amex_page w); [reflexivity|].
      destruct (amex_launch e (now w)); destruct p'; reflexivity. }
    destruct (Amex.ensureBrowser e w) as [[[] | err] w1]; cbn [snd] in H1; [|exact H1].
    unfold bind at 1.
    pose proof (resolver_caches p' e w1 date base quote) as H2.
    destruct (getMidMarketRate date base quote e w1) as [[ecb | err] w2];
      cbn [snd] in H2; [|rewrite <- H1, <- H2; reflexivity].
    unfold bind at 1.
    match goal with |- context [page_fetch ?rq ?a e w2] =>
      pose proof (page_fetch_caches p' rq a e w2) as H3;
      destruct (page_fetch rq a e w2) as [[data | err] w3] end;
      cbn [fst snd] in *; rewrite <- H1, <- H2, <- H3; [|reflexivity].
    unfold Amex.apply_variance, ret, throw. repeat break_match; reflexivity.
Qed.

(** A rate function, as the sources run it: the fresh value if there is
    one; otherwise the stale entry is deleted, the provider is asked, and a
    value other than null is stored with the time of its arrival. *)
Lemma card_rate_run (p : card) (date base quote : string) (amount : float)
    (e : env) (w : world) :
  let key := card_key p date base quote amount in
  card_rate p date base quote amount e w
  = match fresh_value (card_cache p w) key (now w) with
    | Some v => (Ok v, w)
    | None =>
        let w0 := match card_cache p w !! key with
                  | Some _ => set_card_cache p (delete key (card_cache p w)) w
                  | None => w
                  end in
        match card_via p date base quote amount e w0 with
        | (Ok r, w1) =>
            if is_null r then (on_null p, w1)
            else (Ok r, set_card_cache p
                          (<[key := {| value := r; timestamp := now w1 |}]> (card_cache p w1)) w1)
        | (Throw err, w1) => (Throw err, w1)
        end
    end.
Proof.
  intros key. subst key. unfold fresh_value.
  destruct p; cbn [card_rate card_key card_cache card_via set_card_cache on_null].
  - unfold Mastercard.getMastercardRate, bind at 1, get_world.
    destruct (mc_cache w !! _) as [c|].
    + change (1000 * 60 * 60) with Mastercard.CACHE_TTL.
      destruct (now w - timestamp c <? Mastercard.CACHE_TTL); [reflexivity|].
      unfold bind at 1, modify. unfold bind at 1.
      destruct (Mastercard.getMastercardRateViaAPI _ _ _ _ e _) as [[r | err] w1]; [|reflexivity].
      destruct r; reflexivity.
    + unfold bind at 1.
      destruct (Mastercard.getMastercardRateViaAPI _ _ _ _ e _) as [[r | err] w1]; [|reflexivity].
      destruct r; reflexivity.
  - unfold Visa.getVisaRate, bind at 1, get_world.
    destruct (visa_cache w !! _) as [c|].
    + change (1000 * 60 * 60) with Visa.CACHE_TTL.
      destruct (now w - timestamp c <? Visa.CACHE_TTL); [reflexivity|].
      unfold bind at 1, modify. unfold bind at 1.
      destruct (Visa.getVisaRateViaPlaywright _ _ _ _ e _) as [[r | err] w1]; [|reflexivity].
      destruct r; reflexivity.
    + unfold bind at 1.
      destruct (Visa.getVisaRateViaPlaywright _ _ _ _ e _) as [[r | err] w1]; [|reflexivity].
      destruct r; reflexivity.
  - unfold Amex.getAmexRate, bind at 1, get_world.
    destruct (amex_cache w !! _) as [c|].
    + change (1000 * 60 * 60) with Amex.CACHE_TTL.
      destruct (now w - timestamp c <? Amex.CACHE_TTL); [reflexivity|].
      unfold bind at 1, modify. unfold bind at 1.
      destruct (Amex.getAmexRateViaPlaywright _ _ _ _ e _) as [[r | err] w1]; [|reflexivity].
      destruct r; reflexivity.
    + unfold bind at 1.
      destruct (Amex.getAmexRateViaPlaywright _ _ _ _ e _) as [[r | err] w1]; [|reflexivity].
      destruct r; reflexivity.
Qed.

Lemma set_card_cache_cache (p : card) (c : gmap string entry) (w : world) :
  card_cache p (set_card_cache p c w) = c.
Proof. destruct p; reflexivity. Qed.

Lemma set_card_cache_other (p p' : card) (c : gmap string entry) (w : world) :
  p' <> p -> card_cache p' (set_card_cache p c w) = card_cache p' w.
Proof. destruct p, p'; intros H; try reflexivity; contradiction. Qed.

Lemma set_card_cache_now (p : card) (c : gmap string entry) (w : world) :
  now (set_card_cache p c w) = now w.
Proof. destruct p; reflexivity. Qed.

Lemma fresh_value_none_entry (m : gmap string entry) (key : string) (t : Z) :
  m !! key = None -> fresh_value m key t = None.
Proof. intros H. unfold fresh_value. rewrite H. reflexivity. Qed.

(** X4: a rate that a card network's function has just returned is
    returned again by the same call made right after it, with no request
    and no change of state, as long as the rate is not null. *)
Theorem card_rate_repeat (p : card) (date base quote : string) (amount : float)
    (e : env) (w w' : world) (r : rate) :
  card_rate p date base quote amount e w = (Ok r, w') ->
  r <> Null ->
  card_rate p date base quote amount e w' = (Ok r, w').
Proof.
  intros Hrun Hr.
  rewrite card_rate_run in Hrun. rewrite card_rate_run. cbn zeta in *.
  destruct (fresh_value (card_cache p w) _ (now w)) as [v|] eqn:Hfresh.
  - simplify_eq. rewrite Hfresh. reflexivity.
  - destruct (card_via p date base quote amount e _) as [[r1 | err] w1]; [|discriminate Hrun].
    destruct (is_null r1) eqn:Hnull.
    + destruct p; cbn [on_null] in Hrun; try discriminate Hrun.
      simplify_eq; try contradiction.
    + simplify_eq. unfold fresh_value.
      rewrite set_card_cache_cache, lookup_insert_eq, set_card_cache_now.
      cbn [timestamp value]. rewrite Z.sub_diag. reflexivity.
Qed.

Lemma card_rate_repeat_witness :
  card_rate CardMastercard "2024-01-08" "EUR" "USD" 1%float Sample.up Sample.start
    = (Ok (Num 107.5%float),
       snd (card_rate CardMastercard "2024-01-08" "EUR" "USD" 1%float Sample.up Sample.start))
  /\ card_rate CardMastercard "2024-01-08" "EUR" "USD" 1%float Sample.up
       (snd (card_rate CardMastercard "2024-01-08" "EUR" "USD" 1%float Sample.up Sample.start))
     = (Ok (Num 107.5%float),
        snd (card_rate CardMastercard "2024-01-08" "EUR" "USD" 1%float Sample.up Sample.start)).
Proof.
  assert (H : card_rate CardMastercard "2024-01-08" "EUR" "USD" 1%float Sample.up Sample.start
    = (Ok (Num 107.5%float),
       snd (card_rate CardMastercard "2024-01-08" "EUR" "USD" 1%float Sample.up Sample.start))).
  { vm_compute. reflexivity. }
  split; [exact H|].
  apply (card_rate_repeat CardMastercard "2024-01-08" "EUR" "USD" 1%float
           Sample.up Sample.start _ (Num 107.5%float) H).
  intros Hn. apply (f_equal is_null) in Hn. cbn in Hn. discriminate Hn.
Defined.

(** X5: a lookup touches one entry only: every other key of the
    network's own cache, and every key of the two other caches, is as it
    was before the call. *)
Theorem card_rate_frame (p p' : card) (date base quote : string) (amount : float)
    (e : env) (w : world) (k : string) :
  p' <> p \/ k <> card_key p date base quote amount ->
  card_cache p' (snd (card_rate p date base quote amount e w)) !! k
  = card_cache p' w !! k.
Proof.
  intros Hother.
  rewrite card_rate_run. cbn zeta.
  destruct (fresh_value (card_cache p w) _ (now w)) as [v|]; [reflexivity|].
  set (key := card_key p date base quote amount) in *.
  set (w0 := match card_cache p w !! key with
             | Some _ => set_card_cache p (delete key (card_cache p w)) w
             | None => w
             end).
  assert (H0 : card_cache p' w0 !! k = card_cache p' w !! k).
  { subst w0. destruct (card_cache p w !! key); [|reflexivity].
    destruct (decide (p' = p)) as [-> | Hp].
    - rewrite set_card_cache_cache. apply lookup_delete_ne.
      destruct Hother as [H | H]; [contradiction | congruence].
    - rewrite set_card_cache_other by exact Hp. reflexivity. }
  pose proof (card_via_caches p p' date base quote amount e w0) as H1.
  destruct (card_via p date base quote amount e w0) as [[r | err] w1]; cbn [snd] in *;
    [|rewrite H1; exact H0].
  destruct (is_null r); cbn [snd]; [rewrite H1; exact H0|].
  destruct (decide (p' = p)) as [-> | Hp].
  - rewrite set_card_cache_cache, lookup_insert_ne, H1; [exact H0|].
    destruct Hother as [H | H]; [contradiction | congruence].
  - rewrite set_card_cache_other, H1 by exact Hp. exact H0.
Qed.

Lemma card_rate_frame_witness :
  card_cache CardMastercard
    (snd (card_rate CardVisa "2024-01-08" "USD" "JPY" 1%float Sample.up Sample.cached))
    !! card_key CardMastercard "2024-01-08" "USD" "JPY" 1%float
  = card_cache CardMastercard Sample.cached
    !! card_key CardMastercard "2024-01-08" "USD" "JPY" 1%float.
Proof.
  apply (card_rate_frame CardVisa CardMastercard "2024-01-08" "USD" "JPY" 1%float
           Sample.up Sample.cached).
  left. intros H. apply (f_equal (fun c => match c with CardMastercard => true | _ => false end)) in H.
  discriminate H.
Defined.

(** X6: the caches only ever hold numbers, and with such caches a lookup
    ends in one of three ways: a number, the network's own way of
    reporting a fetch without a rate (an error for the two direct
    providers, null for the variance provider), nothing else.  In
    particular no lookup resolves to undefined, and the variance provider's
    never throws. *)
Theorem card_rate_numbers (p : card) (date base quote : string) (amount : float)
    (e : env) (w : world) :
  caches_hold_numbers w ->
  caches_hold_numbers (snd (card_rate p date base quote amount e w))
  /\ ((exists x : float, fst (card_rate p date base quote amount e w) = Ok (Num x))
      \/ fst (card_rate p date base quote amount e w) = on_null p).
Proof.
  intros Hinv.
  rewrite card_rate_run. cbn zeta.
  set (key := card_key p date base quote amount) in *.
  unfold fresh_value.
  destruct (card_cache p w !! key) as [c|] eqn:Hc.
  - destruct (now w - timestamp c <? 1000 * 60 * 60).
    + split; [exact Hinv|]. left. destruct (Hinv p key c Hc) as [x Hx].
      exists x. cbn [fst]. rewrite Hx. reflexivity.
    + assert (H0 : caches_hold_numbers (set_card_cache p (delete key (card_cache p w)) w)).
      { intros p' k c' Hk. destruct (decide (p' = p)) as [-> | Hp].
        - rewrite set_card_cache_cache in Hk.
          apply lookup_delete_Some in Hk as [_ Hk]. exact (Hinv p k c' Hk).
        - rewrite set_card_cache_other in Hk by exact Hp. exact (Hinv p' k c' Hk). }
      revert H0. generalize (set_card_cache p (delete key (card_cache p w)) w). intros w0 H0.
      destruct (card_via_settles p date base quote amount e w0) as (r & w1 & Hrun & Hr).
      pose proof (fun p' => card_via_caches p p' date base quote amount e w0) as Hsame.
      rewrite Hrun in *. cbn [snd] in Hsame.
      assert (H1 : caches_hold_numbers w1).
      { intros p' k c' Hk. rewrite Hsame in Hk. exact (H0 p' k c' Hk). }
      destruct Hr as [-> | [x ->]]; cbn [is_null fst snd].
      * split; [exact H1 | right; reflexivity].
      * split; [|left; exists x; reflexivity].
        intros p' k c' Hk. destruct (decide (p' = p)) as [-> | Hp].
        -- rewrite set_card_cache_cache in Hk.
           destruct (decide (k = key)) as [-> | Hkey].
           ++ rewrite lookup_insert_eq in Hk. simplify_eq. exists x. reflexivity.
           ++ rewrite lookup_insert_ne in Hk by congruence. exact (H1 p k c' Hk).
        -- rewrite set_card_cache_other in Hk by exact Hp. exact (H1 p' k c' Hk).
  - destruct (card_via_settles p date base quote amount e w) as (r & w1 & Hrun & Hr).
    pose proof (fun p' => card_via_caches p p' date base quote amount e w) as Hsame.
    rewrite Hrun in *. cbn [snd] in Hsame.
    assert (H1 : caches_hold_numbers w1).
    { intros p' k c' Hk. rewrite Hsame in Hk. exact (Hinv p' k c' Hk). }
    destruct Hr as [-> | [x ->]]; cbn [is_null fst snd].
    * split; [exact H1 | right; reflexivity].
    * split; [|left; exists x; reflexivity].
      intros p' k c' Hk. destruct (decide (p' = p)) as [-> | Hp].
      -- rewrite set_card_cache_cache in Hk.
         destruct (decide (k = key)) as [-> | Hkey].
         ++ rewrite lookup_insert_eq in Hk. simplify_eq. exists x. reflexivity.
         ++ rewrite lookup_insert_ne in Hk by congruence. exact (H1 p k c' Hk).
      -- rewrite set_card_cache_other in Hk by exact Hp. exact (H1 p' k c' Hk).
Qed.

Lemma start_holds_numbers : caches_hold_numbers Sample.start.
Proof.
  intros p k c H. destruct p; cbn in H; rewrite lookup_empty in H; discriminate H.
Defined.

Lemma card_rate_numbers_witness :
  caches_hold_numbers
    (snd (card_rate CardAmex "2024-01-08" "USD" "JPY" 1%float Sample.amex_down Sample.start))
  /\ ((exists x : float,
         fst (card_rate CardAmex "2024-01-08" "USD" "JPY" 1%float Sample.amex_down Sample.start)
         = Ok (Num x))
      \/ fst (card_rate CardAmex "2024-01-08" "USD" "JPY" 1%float Sample.amex_down Sample.start)
         = on_null CardAmex).
Proof.
  exact (card_rate_numbers CardAmex "2024-01-08" "USD" "JPY" 1%float
           Sample.amex_down Sample.start start_holds_numbers).
Defined.

(** X7: when a lookup had no fresh value and did not obtain a rate, the
    cache has no entry for the key afterwards: a stale value is deleted
    before the fetch and is never kept as a fallback. *)
Theorem card_rate_drops_stale (p : card) (date base quote : string) (amount : float)
    (e : env) (w : world) :
  fresh_value (card_cache p w) (card_key p date base quote amount) (now w) = None ->
  fst (card_rate p date base quote amount e w) = on_null p ->
  card_cache p (snd (card_rate p date base quote amount e w))
    !! card_key p date base quote amount = None.
Proof.
  intros Hfresh.
  rewrite card_rate_run. cbn zeta. rewrite Hfresh.
  set (key := card_key p date base quote amount) in *.
  set (w0 := match card_cache p w !! key with
             | Some _ => set_card_cache p (delete key (card_cache p w)) w
             | None => w
             end).
  assert (H0 : card_cache p w0 !! key = None).
  { subst w0. destruct (card_cache p w !! key) eqn:Hk; [|exact Hk].
    rewrite set_card_cache_cache. apply lookup_delete_eq. }
  pose proof (card_via_caches p p date base quote amount e w0) as H1.
  destruct (card_via p date base quote amount e w0) as [[r | err] w1]; cbn [fst snd] in *;
    [|intros _; rewrite H1; exact H0].
  destruct (is_null r) eqn:Hnull; cbn [fst snd]; [intros _; rewrite H1; exact H0|].
  intros Hr. exfalso.
  destruct p; cbn [on_null] in Hr; try discriminate Hr.
  simplify_eq; cbn in Hnull; discriminate Hnull.
Qed.

Lemma card_rate_drops_stale_witness :
  card_cache CardMastercard (set_now (1704787200000 + minutes 61) Sample.cached)
    !! card_key CardMastercard "2024-01-08" "USD" "JPY" 1%float
  = Some {| value := Num 150.25%float; timestamp := 1704787200000 |}
  /\ card_cache CardMastercard
       (snd (card_rate CardMastercard "2024-01-08" "USD" "JPY" 1%float Sample.mc_down
               (set_now (1704787200000 + minutes 61) Sample.cached)))
       !! card_key CardMastercard "2024-01-08" "USD" "JPY" 1%float = None.
Proof.
  split; [vm_compute; reflexivity|].
  apply (card_rate_drops_stale CardMastercard "2024-01-08" "USD" "JPY" 1%float
           Sample.mc_down (set_now (1704787200000 + minutes 61) Sample.cached)).
  - vm_compute. reflexivity.
  - vm_compute. reflexivity.
Defined.

(** ** The series: shape, and the ranges that enumerate no date *)

Lemma carry_forward_good (rs : list (result rate)) :
  forall lastGood : rate,
    is_good_number lastGood = true ->
    Forall (fun r => is_good_number r = true) (carry_forward lastGood rs).
Proof.
  induction rs as [|r rest IH]; intros lastGood Hlast; simpl; [constructor|].
  destruct (good r) as [v|] eqn:Hr.
  - assert (Hv : is_good_number v = true).
    { destruct r as [v0 | err]; simpl in Hr; [|discriminate Hr].
      destruct (is_good_number v0) eqn:Hv0; [|discriminate Hr].
      injection Hr as <-. exact Hv0. }
    constructor; [exact Hv | apply IH; exact Hv].
  - constructor; [exact Hlast | apply IH; exact Hlast].
Qed.

(** Once a carry-forward that started from null holds a value, it holds
    one at every later position. *)
Lemma carry_forward_no_gap (rs : list (result rate)) :
  forall (i j : nat) (r : rate),
    (i <= j)%nat -> (j < length rs)%nat ->
    carry_forward Null rs !! i = Some r -> r <> Null ->
    exists r' : rate, carry_forward Null rs !! j = Some r' /\ is_good_number r' = true.
Proof.
  induction rs as [|r0 rest IH]; intros i j r Hij Hj Hi Hr; simpl in *; [lia|].
  destruct (good r0) as [v|] eqn:Hr0.
  - assert (Hall : Forall (fun r => is_good_number r = true) (carry_forward v (r0 :: rest))).
    { simpl. rewrite Hr0.
      assert (Hv : is_good_number v = true).
      { destruct r0 as [v0 | err]; simpl in Hr0; [|discriminate Hr0].
        destruct (is_good_number v0) eqn:Hv0; [|discriminate Hr0].
        injection Hr0 as <-. exact Hv0. }
      constructor; [exact Hv | apply carry_forward_good; exact Hv]. }
    simpl in Hall. rewrite Hr0 in Hall.
    destruct (lookup_lt_is_Some_2 (v :: carry_forward v rest) j) as [r' Hr'].
    { simpl. rewrite carry_forward_length. lia. }
    exists r'. split; [exact Hr'|].
    rewrite Forall_lookup in Hall. exact (Hall j r' Hr').
  - destruct i as [|i]; simpl in Hi.
    + injection Hi as <-. contradiction.
    + destruct j as [|j]; [lia|]. simpl.
      apply (IH i j r); [lia | lia | exact Hi | exact Hr].
Qed.

(** X8: whatever the providers do and whatever the arguments are, a card
    network's series function returns an array (it never throws) whose
    entries are null or numbers other than NaN, and the nulls all come
    first: after a position that holds a number, every position holds
    one. *)
Theorem card_series_shape (p : card) (startDate endDate base quote : string)
    (e : env) (w : world) :
  exists series : list rate,
    fst (card_series p startDate endDate base quote e w) = Ok series
    /\ Forall (fun r => r = Null \/ is_good_number r = true) series
    /\ forall (i j : nat) (r : rate),
         (i <= j)%nat -> (j < length series)%nat ->
         series !! i = Some r -> r <> Null ->
         exists r' : rate, series !! j = Some r' /\ is_good_number r' = true.
Proof.
  rewrite card_series_loop.
  set (getRate := fun d => card_rate p d base quote 1%float).
  set (dates := Date.range (Date.toDate startDate) (Date.toDate endDate)).
  destruct (series_loop_carry getRate dates Null [] e w) as [w' Hrun].
  rewrite Hrun. rewrite app_nil_l. cbn [fst].
  eexists. split; [reflexivity|]. split.
  - apply carry_forward_entries. left. reflexivity.
  - intros i j r Hij Hj. rewrite carry_forward_length in Hj.
    apply carry_forward_no_gap; assumption.
Qed.



(** ** The reference series of the history handler *)

Lemma fill_mid_length (labels : list string) (midMap : gmap string float) :
  forall (last : rate) (acc : list rate),
    length (Server.fill_mid labels midMap last acc) = (length acc + length labels)%nat.
Proof.
  induction labels as [|d rest IH]; intros last acc; simpl; [lia|].
  rewrite IH. rewrite length_app. simpl. lia.
Qed.

Lemma fill_mid_numbers (labels : list string) (midMap : gmap string float) :
  forall (last : rate),
    (exists x : float, last = Num x) ->
    Forall (fun r => exists x : float, r = Num x) (Server.fill_mid labels midMap last []).
Proof.
  induction labels as [|d rest IH]; intros last Hlast; simpl; [constructor|].
  rewrite fill_mid_acc. simpl. constructor.
  - destruct (midMap !! d) as [x|]; [eexists; reflexivity | exact Hlast].
  - apply IH. destruct (midMap !! d) as [x|]; [eexists; reflexivity | exact Hlast].
Qed.

Lemma fill_mid_unknown (labels : list string) (midMap : gmap string float) :
  forall (last : rate),
    (forall d : string, In d labels -> midMap !! d = None) ->
    Server.fill_mid labels midMap last [] = List.map (fun _ => last) labels.
Proof.
  induction labels as [|d rest IH]; intros last Hnone; simpl; [reflexivity|].
  rewrite fill_mid_acc. rewrite (Hnone d) by (left; reflexivity). simpl.
  f_equal. apply IH. intros d' Hd'. apply Hnone. right. exact Hd'.
Qed.

(** X10: the reference series of the history response has one entry per
    label, and it is all or nothing: when some label has a reference rate
    every entry is a number (the days before the first rate repeat it);
    when no label has one, every entry is null. *)
Theorem mid_series_all_or_nothing (labels : list string) (midMap : gmap string float) :
  length (Server.midSeries_of labels midMap) = length labels
  /\ ((exists d : string, In d labels /\ is_Some (midMap !! d)) ->
      Forall (fun r => exists x : float, r = Num x) (Server.midSeries_of labels midMap))
  /\ ((forall d : string, In d labels -> midMap !! d = None) ->
      Server.midSeries_of labels midMap = List.map (fun _ => Null) labels).
Proof.
  unfold Server.midSeries_of. split; [apply fill_mid_length|]. split.
  - intros (d & Hin & [x Hx]). apply fill_mid_numbers.
    unfold Server.firstKnown.
    destruct (List.find _ labels) as [d0|] eqn:Hfind.
    + apply find_some in Hfind as [_ Hd0]. apply bool_decide_eq_true in Hd0 as [y Hy].
      rewrite Hy. eexists. reflexivity.
    + exfalso. apply (find_none _ _ Hfind) in Hin.
      apply bool_decide_eq_false in Hin. apply Hin. eexists. exact Hx.
  - intros Hnone. rewrite fill_mid_unknown by exact Hnone.
    unfold Server.firstKnown.
    destruct (List.find _ labels) as [d0|] eqn:Hfind; [|reflexivity].
    apply find_some in Hfind as [Hin Hd0]. apply bool_decide_eq_true in Hd0 as [y Hy].
    rewrite (Hnone d0 Hin) in Hy. discriminate Hy.
Qed.

Lemma mid_series_all_or_nothing_witness :
  Forall (fun r => exists x : float, r = Num x)
    (Server.midSeries_of Sample.five_days Sample.third_day_only).
Proof.
  apply (mid_series_all_or_nothing Sample.five_days Sample.third_day_only).
  exists "2024-01-08". split.
  - right. right. left. reflexivity.
  - exists 0.9%float. vm_compute. reflexivity.
Defined.

(** ** The reference series and the resolver *)

Lemma range_rate_read (base quote : string) (entries : gmap string float) :
  Ok (range_rate base quote entries) = read_rate base quote (Some entries).
Proof.
  unfold range_rate, read_rate, read_member, rate_at.
  destruct (String.eqb base "EUR"); [destruct (entries !! quote); reflexivity|].
  destruct (String.eqb quote "EUR"); [destruct (entries !! base); reflexivity|].
  destruct (entries !! base), (entries !! quote); reflexivity.
Qed.

(** X11: the reference series agrees with the resolver.  For distinct
    currencies, when the provider's answer for a range holds, for a day,
    the entries it gives for that day alone, the series has for that day
    the rate the resolver resolves to, and has no entry for the day when
    the resolver's result is not a number or is NaN. *)
Theorem series_agrees_with_resolver (e : env) (w w' : world)
    (startDate endDate date base quote : string)
    (byDate : gmap string (gmap string float)) (entries : gmap string float) :
  base <> quote ->
  fx_api e (FRANKFURTER_API +:+ "/" +:+ date) (first_to base quote) (now w)
    = Reply 200 (Some entries) ->
  fx_range_api e (range_url startDate endDate) (first_to base quote) (now w')
    = Reply 200 (Some byDate) ->
  byDate !! date = Some entries ->
  exists m : gmap string float,
    fst (getMidMarketSeries startDate endDate base quote e w') = Ok m
    /\ m !! date = series_value (fst (getMidMarketRate date base quote e w)).
Proof.
  intros Hne Hday Hrange Hentries.
  rewrite (resolver_run e w date base quote Hne). cbv zeta. rewrite Hday.
  cbn [axios_result Z.leb Z.ltb Z.compare Pos.compare Pos.compare_cont andb].
  rewrite <- range_rate_read. cbn [fst series_value].
  unfold getMidMarketSeries. apply String.eqb_neq in Hne. rewrite Hne.
  change (FRANKFURTER_API +:+ "/" +:+ startDate +:+ ".." +:+ endDate)
    with (range_url startDate endDate).
  assert (Hto : (if String.eqb base "EUR" || String.eqb quote "EUR"
                 then (if String.eqb base "EUR" then quote else base)
                 else base +:+ "," +:+ quote) = first_to base quote).
  { unfold first_to. destruct (String.eqb base "EUR"); [reflexivity|].
    destruct (String.eqb quote "EUR"); reflexivity. }
  rewrite Hto. unfold bind. rewrite axios_get_run. rewrite Hrange.
  cbn [axios_result Z.leb Z.ltb Z.compare Pos.compare Pos.compare_cont andb default
       from_option id].
  unfold ret. cbn [fst]. eexists. split; [reflexivity|].
  rewrite lookup_omap, Hentries. cbn [mbind option_bind].
  destruct (range_rate base quote entries); reflexivity.
Qed.

Lemma series_agrees_with_resolver_witness :
  exists m : gmap string float,
    fst (getMidMarketSeries "2024-01-08" "2024-01-09" "USD" "JPY" Sample.up Sample.start) = Ok m
    /\ m !! "2024-01-08"
       = series_value (fst (getMidMarketRate "2024-01-08" "USD" "JPY" Sample.up Sample.start)).
Proof.
  apply (series_agrees_with_resolver Sample.up Sample.start Sample.start
           "2024-01-08" "2024-01-09" "2024-01-08" "USD" "JPY"
           {[ "2024-01-08" := Sample.only "USD,JPY" Sample.monday;
              "2024-01-09" := Sample.only "USD,JPY" Sample.tuesday ]}
           (Sample.only "USD,JPY" Sample.monday)).
  - apply String.eqb_neq. reflexivity.
  - vm_compute. reflexivity.
  - vm_compute. reflexivity.
  - vm_compute. reflexivity.
Defined.

(** ** The handlers: what a client can get back *)

Lemma only_200_bind {A B} (m : M A) (k : A -> M (Server.http B)) :
  (forall a : A, only_200 (k a)) -> only_200 (bind m k).
Proof.
  intros Hk e w. unfold bind. destruct (m e w) as [[a | err] w1]; [|exact I].
  exact (Hk a e w1).
Qed.

Lemma only_200_ret {B} (body : B) : only_200 (ret (Server.Json200 body)).
Proof. intros e w. exact I. Qed.

Lemma only_200_throw {B} (err : error) : only_200 (throw (A := Server.http B) err).
Proof. intros e w. exact I. Qed.

Lemma only_200_answers {B} (m : M (Server.http B)) (e : env) (w : world) :
  only_200 m -> answers_from w (m e w).
Proof.
  intros Hm. specialize (Hm e w). unfold answers_from.
  destruct (m e w) as [[[body | status err details] | err] w1]; [exact I | contradiction | exact I].
Qed.

(** A handler is its body inside [try { } catch { }] with a 500 response in
    the catch block. *)
Lemma handler_outline {B} (m : M (Server.http B)) (text : string) (e : env) (w : world) :
  answers_from w (m e w) ->
  let r := try_catch m (fun error => ret (Server.JsonError 500 text (Some (message error)))) e w in
  exists (status : Z) (details : option string),
    outline (fst r) = Some (status, details)
    /\ (status = 200 \/ status = 400 \/ status = 500)
    /\ (status = 400 -> snd r = w).
Proof.
  intros Hm. unfold try_catch, answers_from in *.
  destruct (m e w) as [[[body | status err details] | err] w1]; cbn [fst snd outline ret].
  - exists 200, None. split; [reflexivity|]. split; [left; reflexivity | intros H; discriminate H].
  - destruct Hm as [-> ->]. exists 400, details.
    split; [reflexivity|]. split; [right; left; reflexivity | reflexivity].
  - exists 500, (Some (message err)).
    split; [reflexivity|]. split; [right; right; reflexivity | intros H; discriminate H].
Qed.

Lemma yesterday_of_pure (date : string) (e : env) (w : world) :
  snd (Server.yesterday_of date e w) = w.
Proof. unfold Server.yesterday_of. destruct (Date.toDate date); reflexivity. Qed.

Lemma api_rates_body (q : Server.query) (e : env) (w : world) :
  exists (m : M (Server.http Server.rates_body)),
    Server.api_rates q
    = try_catch m (fun error => ret (Server.JsonError 500 "Failed to fetch rates" (Some (message error))))
    /\ answers_from w (m e w).
Proof.
  unfold Server.api_rates. eexists. split; [reflexivity|]. cbv zeta.
  destruct (Server.missing (Server.q_date q) || Server.missing (Server.q_base q)
            || Server.missing (Server.q_quote q)); [split; reflexivity|].
  destruct (negb (Server.date_format _)); [split; reflexivity|].
  destruct (negb (Server.currency_format _) || negb (Server.currency_format _));
    [split; reflexivity|].
  apply only_200_answers.
  apply only_200_bind. intros yesterdayStr.
  apply only_200_bind. intros values.
  do 8 (destruct values as [|? values]; [apply only_200_throw|]).
  destruct values; [apply only_200_ret | apply only_200_throw].
Qed.

Lemma api_history_body (q : Server.query) (e : env) (w : world) :
  exists (m : M (Server.http Server.history_body)),
    Server.api_history q
    = try_catch m (fun error => ret (Server.JsonError 500 "Failed to fetch history" (Some (message error))))
    /\ answers_from w (m e w).
Proof.
  unfold Server.api_history. eexists. split; [reflexivity|]. cbv zeta.
  destruct (Server.missing (Server.q_date q) || Server.missing (Server.q_base q)
            || Server.missing (Server.q_quote q)); [split; reflexivity|].
  destruct (negb (Server.date_format _)); [split; reflexivity|].
  destruct (negb (Server.currency_format _) || negb (Server.currency_format _));
    [split; reflexivity|].
  apply only_200_answers.
  apply only_200_bind. intros mids.
  apply only_200_bind. intros mcs.
  apply only_200_bind. intros visas.
  apply only_200_bind. intros amexs.
  destruct mids, mcs, visas, amexs; try apply only_200_throw. apply only_200_ret.
Qed.

Lemma api_rate_body (provider : string) (q : Server.query) (e : env) (w : world) :
  exists (m : M (Server.http Server.rate_body)),
    Server.api_rate provider q
    = try_catch m (fun error => ret (Server.JsonError 500 "Failed to fetch rate" (Some (message error))))
    /\ answers_from w (m e w).
Proof.
  unfold Server.api_rate. eexists. split; [reflexivity|]. cbv zeta.
  destruct (Server.missing (Server.q_date q) || Server.missing (Server.q_base q)
            || Server.missing (Server.q_quote q)); [split; reflexivity|].
  destruct (negb (Server.date_format _)); [split; reflexivity|].
  destruct (negb (Server.currency_format _) || negb (Server.currency_format _));
    [split; reflexivity|].
  unfold bind at 1.
  pose proof (yesterday_of_pure (default EmptyString (Server.q_date q)) e w) as Hpure.
  destruct (Server.yesterday_of _ e w) as [[yesterdayStr | err] w1]; cbn [snd] in Hpure;
    subst w1; [|exact I].
  destruct (String.eqb provider "mid").
  { apply only_200_answers. apply only_200_bind. intros r.
    apply only_200_bind. intros y. apply only_200_ret. }
  destruct (String.eqb provider "mc").
  { apply only_200_answers. apply only_200_bind. intros r.
    apply only_200_bind. intros y. apply only_200_ret. }
  destruct (String.eqb provider "visa").
  { apply only_200_answers. apply only_200_bind. intros r.
    apply only_200_bind. intros y. apply only_200_ret. }
  destruct (String.eqb provider "amex").
  { apply only_200_answers. apply only_200_bind. intros r.
    destruct (is_null r); [apply only_200_ret|].
    apply only_200_bind. intros y. apply only_200_ret. }
  split; reflexivity.
Qed.

(** X12: every route always responds, with status 200, 400 or 500 (no
    handler lets an error escape), and a 400 is decided before anything is
    done: the request was rejected without a request to a provider, a
    browser launch or a change of a cache. *)
Theorem handlers_answer (h : endpoint) (q : Server.query) (e : env) (w : world) :
  exists (status : Z) (details : option string),
    fst (serve h q e w) = Some (status, details)
    /\ (status = 200 \/ status = 400 \/ status = 500)
    /\ (status = 400 -> snd (serve h q e w) = w).
Proof.
  destruct h as [provider | |]; unfold serve.
  - destruct (api_rate_body provider q e w) as (m & -> & Hm).
    pose proof (handler_outline m "Failed to fetch rate" e w Hm) as H. cbv zeta in H.
    destruct (try_catch m _ e w) as [r w1]. exact H.
  - destruct (api_rates_body q e w) as (m & -> & Hm).
    pose proof (handler_outline m "Failed to fetch rates" e w Hm) as H. cbv zeta in H.
    destruct (try_catch m _ e w) as [r w1]. exact H.
  - destruct (api_history_body q e w) as (m & -> & Hm).
    pose proof (handler_outline m "Failed to fetch history" e w Hm) as H. cbv zeta in H.
    destruct (try_catch m _ e w) as [r w1]. exact H.
Qed.

(** X13: a date of the right shape that is no date.  The format check
    looks at the shape only, so a date such as 2024-13-01 passes it; the
    single-rate and all-rates routes then fail on the computation of the
    day before, ahead of any lookup and (for the single-rate route) ahead
    of the check of the provider's name: the response is a 500 with the
    engine's own message, and nothing has been asked. *)
Theorem impossible_date (h : endpoint) (q : Server.query) (date base quote : string)
    (e : env) (w : world) :
  h <> ApiHistory ->
  passes_checks q date base quote ->
  Date.toDate date = None ->
  serve h q e w = (Some (500, Some "Invalid time value"), w).
Proof.
  intros Hh (Hd & Hb & Hq & Hdate & Hbase & Hquote) Hnone.
  destruct h as [provider | |]; [| |contradiction]; unfold serve.
  - unfold Server.api_rate, try_catch. rewrite Hd, Hb, Hq.
    rewrite (date_format_not_missing date Hdate),
            (currency_format_not_missing base Hbase),
            (currency_format_not_missing quote Hquote).
    cbn [orb default from_option id negb].
    rewrite Hdate, Hbase, Hquote. cbn [orb negb].
    unfold bind at 1, Server.yesterday_of. rewrite Hnone. reflexivity.
  - unfold Server.api_rates, try_catch. rewrite Hd, Hb, Hq.
    rewrite (date_format_not_missing date Hdate),
            (currency_format_not_missing base Hbase),
            (currency_format_not_missing quote Hquote).
    cbn [orb default from_option id negb].
    rewrite Hdate, Hbase, Hquote. cbn [orb negb].
    unfold bind at 1, Server.yesterday_of. rewrite Hnone. reflexivity.
Qed.

Lemma impossible_date_witness :
  serve (ApiRate "paypal") (Sample.query "2024-13-01" "USD" "JPY") Sample.up Sample.start
  = (Some (500, Some "Invalid time value"), Sample.start).
Proof.
  apply (impossible_date (ApiRate "paypal") (Sample.query "2024-13-01" "USD" "JPY")
           "2024-13-01" "USD" "JPY" Sample.up Sample.start).
  - intros H. apply (f_equal (fun h => match h with ApiHistory => true | _ => false end)) in H.
    discriminate H.
  - repeat split; reflexivity.
  - vm_compute. reflexivity.
Defined.

(** ** The history handler: labels and series *)

Lemma civil_parts (z : Z) :
  let z' := z + 719468 in
  let era := z' / 146097 in
  let doe := z' - era * 146097 in
  let yoe := (doe - doe / 1460 + doe / 36524 - doe / 146096) / 365 in
  let doy := doe - (365 * yoe + yoe / 4 - yoe / 100) in
  let mp := (5 * doy + 2) / 153 in
  0 <= doe < 146097 /\ 0 <= yoe < 400 /\ 0 <= doy < 366 /\ 0 <= mp < 12.
Proof. cbv zeta. Z.div_mod_to_equations. lia. Qed.

(** The calendar date of a day number names that day: the month is one
    of the twelve, the day is at most 31, and reading the date back gives
    the day number. *)
Lemma civil_round_trip (z : Z) :
  let '(y, m, d) := Date.civil_from_days z in
  Date.days_from_civil y m 1 + (d - 1) = z /\ 1 <= m <= 12 /\ 1 <= d <= 31
  /\ (-354285 <= z <= 2932896 -> 1000 <= y <= 9999).
Proof.
  pose proof (civil_parts z) as H. cbv zeta in H.
  unfold Date.civil_from_days. cbv zeta.
  set (z' := z + 719468) in *.
  set (era := z' / 146097) in *.
  set (doe := z' - era * 146097) in *.
  set (yoe := (doe - doe / 1460 + doe / 36524 - doe / 146096) / 365) in *.
  set (doy := doe - (365 * yoe + yoe / 4 - yoe / 100)) in *.
  set (mp := (5 * doy + 2) / 153) in *.
  destruct H as (Hdoe & Hyoe & Hdoy & Hmp).
  unfold Date.days_from_civil. cbv zeta.
  destruct (mp <? 10) eqn:Hlt.
  - apply Z.ltb_lt in Hlt.
    replace (mp + 3 <=? 2) with false by (symmetry; apply Z.leb_gt; lia).
    replace (2 <? mp + 3) with true by (symmetry; apply Z.ltb_lt; lia).
    replace (mp + 3 - 3) with mp by lia.
    replace ((yoe + era * 400) / 400) with era by (Z.div_mod_to_equations; lia).
    replace (yoe + era * 400 - era * 400) with yoe by lia.
    split; [|split; [|split]].
    + subst doy mp doe z'; Z.div_mod_to_equations; lia.
    + lia.
    + subst mp; Z.div_mod_to_equations; lia.
    + intros Hz. (subst mp doy yoe doe era z'; Z.div_mod_to_equations; lia).
  - apply Z.ltb_ge in Hlt.
    replace (mp - 9 <=? 2) with true by (symmetry; apply Z.leb_le; lia).
    replace (2 <? mp - 9) with false by (symmetry; apply Z.ltb_ge; lia).
    replace (mp - 9 + 9) with mp by lia.
    replace (yoe + era * 400 + 1 - 1) with (yoe + era * 400) by lia.
    replace ((yoe + era * 400) / 400) with era by (Z.div_mod_to_equations; lia).
    replace (yoe + era * 400 - era * 400) with yoe by lia.
    split; [|split; [|split]].
    + subst doy mp doe z'; Z.div_mod_to_equations; lia.
    + lia.
    + subst mp; Z.div_mod_to_equations; lia.
    + intros Hz. (subst mp doy yoe doe era z'; Z.div_mod_to_equations; lia).
Qed.

Lemma fixed_digits_app (k : nat) (rest : string) :
  forall (s : string) (acc v : Z) (r : string),
    Date.fixed_digits k s acc = Some (v, r) ->
    Date.fixed_digits k (s +:+ rest) acc = Some (v, r +:+ rest).
Proof.
  induction k as [|k IH]; intros s acc v r H; simpl in *.
  - injection H as <- <-. reflexivity.
  - destruct s as [|c s']; [discriminate H|]. simpl.
    destruct (ParseFloat.is_digit c); [|discriminate H].
    apply IH. exact H.
Qed.

Lemma reads_back_eq (k : nat) (text : string) (n : Z) :
  reads_back k text n = true ->
  Date.fixed_digits k text 0 = Some (n, EmptyString).
Proof.
  unfold reads_back. intros H.
  destruct (Date.fixed_digits k text 0) as [[v r]|]; [|discriminate H].
  destruct r; [|discriminate H]. apply Z.eqb_eq in H. subst v. reflexivity.
Qed.

Lemma reads_back_app (k : nat) (text rest : string) (n : Z) :
  reads_back k text n = true ->
  Date.fixed_digits k (text +:+ rest) 0 = Some (n, rest).
Proof.
  intros H. apply reads_back_eq in H.
  apply (fixed_digits_app k rest) in H. exact H.
Qed.

Lemma two_digits_read_back :
  forallb (fun i => reads_back 2 (Date.padStart 2 (Z.of_nat i)) (Z.of_nat i)) (seq 0 (Z.to_nat 32)) = true.
Proof. vm_compute. reflexivity. Qed.

(** The character of a digit is a digit, and reads as it. *)
Lemma digit_char (d : Z) :
  0 <= d <= 9 ->
  ParseFloat.is_digit (ascii_of_nat (Z.to_nat (48 + d))) = true
  /\ ParseFloat.digit (ascii_of_nat (Z.to_nat (48 + d))) = d.
Proof.
  intros Hd. unfold ParseFloat.is_digit, ParseFloat.digit.
  rewrite nat_ascii_embedding by lia. split; [|lia].
  apply andb_true_intro. split; apply Nat.leb_le; lia.
Qed.

(** A year of four digits is printed as the four digits that read as it. *)
Lemma year_reads_back (y : Z) :
  1000 <= y <= 9999 -> reads_back 4 (Number.of_int y) y = true.
Proof.
  intros Hy. unfold Number.of_int.
  replace (y <? 0) with false by (symmetry; apply Z.ltb_ge; lia).
  assert (Hlog : 9 <= Z.log2 y).
  { change 9 with (Z.log2 512). apply Z.log2_le_mono. lia. }
  destruct (Z.to_nat (Z.log2 y)) as [|[|[|fuel]]] eqn:Hfuel; try lia.
  cbn [Number.digits_of].
  replace (y <? 10) with false by (symmetry; apply Z.ltb_ge; lia).
  replace (y / 10 <? 10) with false
    by (symmetry; apply Z.ltb_ge; Z.div_mod_to_equations; lia).
  replace (y / 10 / 10 <? 10) with false
    by (symmetry; apply Z.ltb_ge; Z.div_mod_to_equations; lia).
  replace (y / 10 / 10 / 10 <? 10) with true
    by (symmetry; apply Z.ltb_lt; Z.div_mod_to_equations; lia).
  unfold reads_back. cbn [Date.fixed_digits].
  destruct (digit_char (y mod 10)) as [-> ->]; [Z.div_mod_to_equations; lia|].
  destruct (digit_char ((y / 10) mod 10)) as [-> ->]; [Z.div_mod_to_equations; lia|].
  destruct (digit_char ((y / 10 / 10) mod 10)) as [-> ->]; [Z.div_mod_to_equations; lia|].
  destruct (digit_char ((y / 10 / 10 / 10) mod 10)) as [-> ->]; [Z.div_mod_to_equations; lia|].
  apply Z.eqb_eq. Z.div_mod_to_equations. lia.
Qed.

Lemma two_digits_read (n : Z) :
  0 <= n <= 31 -> reads_back 2 (Date.padStart 2 n) n = true.
Proof.
  intros Hn. pose proof two_digits_read_back as H. rewrite forallb_forall in H.
  specialize (H (Z.to_nat n)).
  replace (Z.of_nat (Z.to_nat n)) with n in H by lia.
  apply H. apply in_seq. lia.
Qed.

(** What [fmt] prints, the series functions read back as the same day,
    for the days from 1000-01-01 to 9999-12-31. *)
Lemma toDate_fmt (z : Z) :
  Date.days_from_civil 1000 1 1 <= z <= Date.days_from_civil 9999 12 31 ->
  Date.toDate (Date.fmt (Some z)) = Some z.
Proof.
  intros Hz.
  change (Date.days_from_civil 1000 1 1) with (-354285) in Hz.
  change (Date.days_from_civil 9999 12 31) with 2932896 in Hz.
  pose proof (civil_round_trip z) as H. unfold Date.fmt.
  destruct (Date.civil_from_days z) as [[y m] d].
  destruct H as (Hback & Hm & Hd & Hy). specialize (Hy Hz).
  unfold Date.toDate.
  rewrite (reads_back_app 4 (Number.of_int y) _ y (year_reads_back y Hy)).
  change ("-" +:+ Date.padStart 2 m +:+ "-" +:+ Date.padStart 2 d)
    with (String "-" (Date.padStart 2 m +:+ String "-" (Date.padStart 2 d))).
  cbv iota.
  rewrite (reads_back_app 2 (Date.padStart 2 m) _ m (two_digits_read m ltac:(lia))).
  cbv iota.
  rewrite (reads_back_eq 2 (Date.padStart 2 d) d (two_digits_read d ltac:(lia))).
  cbv iota.
  replace ((1 <=? m) && (m <=? 12) && (1 <=? d) && (d <=? 31)) with true
    by (symmetry; rewrite !andb_true_iff, !Z.leb_le; lia).
  cbv iota.
  rewrite Hback. reflexivity.
Qed.

Lemma card_series_runs (p : card) (startDate endDate base quote : string)
    (e : env) (w : world) :
  exists (l : list rate) (w' : world),
    card_series p startDate endDate base quote e w = (Ok l, w')
    /\ length l = length (Date.range (Date.toDate startDate) (Date.toDate endDate)).
Proof.
  rewrite card_series_loop.
  destruct (series_loop_carry (fun d => card_rate p d base quote 1%float)
              (Date.range (Date.toDate startDate) (Date.toDate endDate)) Null [] e w)
    as [w' Hrun].
  rewrite Hrun. eexists _, w'. split; [reflexivity|].
  rewrite app_nil_l, carry_forward_length, outcomes_length. reflexivity.
Qed.

Lemma numDays_of_range (days : option string) : 2 <= Server.numDays_of days <= 60.
Proof. unfold Server.numDays_of. cbv zeta. lia. Qed.

(** X14: the arrays of a history response line up.  For a query that
    passes the checks, with a date between 1000-03-01 and 9999-12-31, the
    window has between 2 and 60 days whatever [days] says; the handler
    fails only when the reference series cannot be fetched, with that
    failure's message; otherwise it answers 200 with one label per day of
    the window and four series of exactly that many entries: each card
    series re-reads the printed bounds of the window as the same two
    days. *)
Theorem history_alignment (q : Server.query) (date base quote : string) (day : Z)
    (e : env) (w : world) :
  passes_checks q date base quote ->
  Date.toDate date = Some day ->
  Date.days_from_civil 1000 3 1 <= day <= Date.days_from_civil 9999 12 31 ->
  let numDays := Server.numDays_of (Server.q_days q) in
  2 <= numDays <= 60
  /\ match fst (getMidMarketSeries (Date.fmt (Some (history_start q day))) (Date.fmt (Some day))
                  base quote e w) with
     | Ok _ =>
         exists body : Server.history_body,
           fst (Server.api_history q e w) = Ok (Server.Json200 body)
           /\ aligned (Z.to_nat numDays) body
     | Throw err =>
         fst (Server.api_history q e w)
         = Ok (Server.JsonError 500 "Failed to fetch history" (Some (message err)))
     end.
Proof.
  intros (Hd & Hb & Hq & Hdate & Hbase & Hquote) Hday Hrange numDays.
  pose proof (numDays_of_range (Server.q_days q)) as Hn. fold numDays in Hn.
  split; [exact Hn|].
  change (Date.days_from_civil 1000 3 1) with (-354285 + 59) in Hrange.
  change (Date.days_from_civil 9999 12 31) with 2932896 in Hrange.
  unfold history_start. fold numDays.
  set (start := day - (numDays - 1)).
  assert (Hstart : Date.toDate (Date.fmt (Some start)) = Some start).
  { apply toDate_fmt.
    change (Date.days_from_civil 1000 1 1) with (-354285).
    change (Date.days_from_civil 9999 12 31) with 2932896. subst start. lia. }
  assert (Hend : Date.toDate (Date.fmt (Some day)) = Some day).
  { apply toDate_fmt.
    change (Date.days_from_civil 1000 1 1) with (-354285).
    change (Date.days_from_civil 9999 12 31) with 2932896. lia. }
  assert (Hlabels : length (Date.range (Some start) (Some day)) = Z.to_nat numDays).
  { rewrite range_length. subst start. f_equal. lia. }
  remember (fst (Server.api_history q e w)) as response eqn:Hrun.
  unfold Server.api_history, try_catch in Hrun. rewrite Hd, Hb, Hq in Hrun.
  rewrite (date_format_not_missing date Hdate),
          (currency_format_not_missing base Hbase),
          (currency_format_not_missing quote Hquote) in Hrun.
  cbn [orb default from_option id negb] in Hrun.
  rewrite Hdate, Hbase, Hquote in Hrun. cbn [orb negb] in Hrun.
  cbv zeta in Hrun. rewrite Hday in Hrun. fold numDays in Hrun. fold start in Hrun.
  unfold bind at 1, Server.settle at 1 in Hrun.
  destruct (getMidMarketSeries _ _ base quote e w) as [mids w1]. cbn [fst].
  unfold bind at 1, Server.settle at 1 in Hrun.
  destruct (card_series_runs CardMastercard (Date.fmt (Some start)) (Date.fmt (Some day))
              base quote e w1) as (mcs & w2 & Hmc & Hlmc).
  cbn [card_series] in Hmc. rewrite Hmc in Hrun.
  unfold bind at 1, Server.settle at 1 in Hrun.
  destruct (card_series_runs CardVisa (Date.fmt (Some start)) (Date.fmt (Some day))
              base quote e w2) as (visas & w3 & Hvisa & Hlvisa).
  cbn [card_series] in Hvisa. rewrite Hvisa in Hrun.
  unfold bind at 1, Server.settle at 1 in Hrun.
  destruct (card_series_runs CardAmex (Date.fmt (Some start)) (Date.fmt (Some day))
              base quote e w3) as (amexs & w4 & Hamex & Hlamex).
  cbn [card_series] in Hamex. rewrite Hamex in Hrun.
  rewrite Hstart, Hend, Hlabels in Hlmc, Hlvisa, Hlamex.
  destruct mids as [midMap | err]; cbn [fst ret throw] in Hrun; subst response.
  - eexists. split; [reflexivity|].
    unfold aligned. cbn [Server.labels Server.series Server.s_mid Server.s_mc Server.s_visa
                         Server.s_amex].
    repeat split; try assumption.
    unfold Server.midSeries_of. rewrite fill_mid_length. simpl. exact Hlabels.
  - reflexivity.
Qed.

Lemma history_alignment_witness :
  2 <= Server.numDays_of None <= 60
  /\ exists body : Server.history_body,
       fst (Server.api_history (Sample.query "2024-01-09" "USD" "JPY") Sample.up Sample.start)
       = Ok (Server.Json200 body)
       /\ aligned (Z.to_nat (Server.numDays_of None)) body.
Proof.
  exact (history_alignment (Sample.query "2024-01-09" "USD" "JPY") "2024-01-09" "USD" "JPY" 19731
           Sample.up Sample.start
           ltac:(repeat split; reflexivity) ltac:(vm_compute; reflexivity)
           ltac:(vm_compute; split; discriminate)).
Defined.

(** ** The requests of a lookup *)

Lemma traffic_refl (p : card) (w : world) : traffic p 0 w w.
Proof.
  exists []. rewrite app_nil_r. split; [reflexivity|]. split; [reflexivity|].
  intros H. split; [exact H | constructor].
Qed.

Lemma traffic_trans (p : card) (n m : nat) (w x y : world) :
  traffic p n w x -> traffic p m x y -> traffic p (n + m) w y.
Proof.
  intros (l1 & H1 & Hn & Hp1) (l2 & H2 & Hm & Hp2).
  exists (l1 ++ l2)%list. split; [rewrite H2, H1, app_assoc; reflexivity|].
  split; [rewrite length_app; lia|].
  intros Hw. destruct (Hp1 Hw) as [Hx Hl1]. destruct (Hp2 Hx) as [Hy Hl2].
  split; [exact Hy | apply Forall_app; split; assumption].
Qed.

Lemma traffic_more (p : card) (n m : nat) (w x : world) :
  (n <= m)%nat -> traffic p n w x -> traffic p m w x.
Proof.
  intros Hle (l & H & Hn & Hp). exists l. split; [exact H|]. split; [lia | exact Hp].
Qed.

Lemma traffic_sent (p : card) (e : env) (rq : request) (w : world) :
  is_launch rq = false -> traffic p 1 w (sent e rq w).
Proof.
  intros Hrq. exists [rq]. split; [reflexivity|]. split; [reflexivity|].
  intros Hw. split; [destruct p; exact Hw | constructor; [exact Hrq | constructor]].
Qed.

Lemma traffic_cache (p p' : card) (c : gmap string entry) (w : world) :
  traffic p 0 w (set_card_cache p' c w).
Proof.
  exists []. split; [destruct p'; cbn; rewrite app_nil_r; reflexivity|].
  split; [reflexivity|].
  intros Hw. split; [destruct p, p'; exact Hw | constructor].
Qed.

Lemma resolver_traffic (p : card) (e : env) (w : world) (date base quote : string) :
  traffic p 2 w (snd (getMidMarketRate date base quote e w)).
Proof.
  destruct (decide (base = quote)) as [-> | Hne].
  - rewrite getMidMarketRate_equal. apply (traffic_more p 0); [lia | apply traffic_refl].
  - rewrite (resolver_state e w date base quote Hne). destruct (not_found _).
    + apply (traffic_trans p 1 1 w (sent e (first_request date base quote) w));
        apply traffic_sent; reflexivity.
    + apply (traffic_more p 1); [lia | apply traffic_sent; reflexivity].
Qed.

Lemma visa_ensure_traffic (e : env) (w : world) :
  traffic CardVisa (if visa_page w then 0 else 1) w (snd (Visa.ensureBrowser e w)).
Proof.
  unfold Visa.ensureBrowser. destruct (visa_page w) eqn:Hpage; [apply traffic_refl|].
  assert (H : forall b, traffic CardVisa 1 w (set_visa_page b (sent e VisaLaunch w))).
  { intros b. exists [VisaLaunch]. split; [reflexivity|]. split; [reflexivity|].
    cbn [page_open]. rewrite Hpage. intros H. discriminate H. }
  destruct (visa_launch e (now w)); apply H.
Qed.

Lemma amex_ensure_traffic (e : env) (w : world) :
  traffic CardAmex (if amex_page w then 0 else 1) w (snd (Amex.ensureBrowser e w)).
Proof.
  unfold Amex.ensureBrowser. destruct (amex_page w) eqn:Hpage; [apply traffic_refl|].
  assert (H : forall b, traffic CardAmex 1 w (set_amex_page b (sent e AmexLaunch w))).
  { intros b. exists [AmexLaunch]. split; [reflexivity|]. split; [reflexivity|].
    cbn [page_open]. rewrite Hpage. intros H. discriminate H. }
  destruct (amex_launch e (now w)); apply H.
Qed.

Lemma card_via_traffic (p : card) (date base quote : string) (amount : float)
    (e : env) (w : world) :
  traffic p (most_requests p) w (snd (card_via p date base quote amount e w)).
Proof.
  destruct p; unfold card_via; cbn [most_requests].
  - unfold Mastercard.getMastercardRateViaAPI, try_catch, bind.
    pose proof (axios_get_log (McGet (Mastercard.api_url date base quote amount))
                  (fun e0 => mc_api e0 (Mastercard.api_url date base quote amount)) e w) as H.
    assert (Ht : traffic CardMastercard 1 w
                   (sent e (McGet (Mastercard.api_url date base quote amount)) w))
      by (apply traffic_sent; reflexivity).
    destruct (axios_get _ _ e w) as [[[data|] | err] w1]; cbn [fst snd] in *; subst w1;
      try exact Ht.
    unfold ret, throw. repeat break_match; simplify_eq; exact Ht.
  - unfold Visa.getVisaRateViaPlaywright, try_catch, bind at 1.
    pose proof (visa_ensure_traffic e w) as H1.
    apply (traffic_more _ _ 1) in H1; [|destruct (visa_page w); lia].
    destruct (Visa.ensureBrowser e w) as [[[] | err] w1]; cbn [snd] in H1;
      [|apply (traffic_more _ 1); [lia | exact H1]].
    unfold bind at 1.
    match goal with |- context [page_fetch ?rq ?a e w1] =>
      pose proof (page_fetch_log rq a e w1) as H2;
      assert (Ht : traffic CardVisa 1 w1 (sent e rq w1)) by (apply traffic_sent; reflexivity);
      destruct (page_fetch rq a e w1) as [[[v|] | err] w2] end;
      cbn [fst snd] in *; subst w2;
      pose proof (traffic_trans _ _ _ _ _ _ H1 Ht) as H; try exact H.
    unfold ret, throw. repeat break_match; exact H.
  - unfold Amex.getAmexRateViaPlaywright, try_catch, bind at 1.
    pose proof (amex_ensure_traffic e w) as H1.
    apply (traffic_more _ _ 1) in H1; [|destruct (amex_page w); lia].
    destruct (Amex.ensureBrowser e w) as [[[] | err] w1]; cbn [snd] in H1;
      [|apply (traffic_more _ 1); [lia | exact H1]].
    unfold bind at 1.
    pose proof (resolver_traffic CardAmex e w1 date base quote) as H2.
    pose proof (traffic_trans _ _ _ _ _ _ H1 H2) as H12.
    destruct (getMidMarketRate date base quote e w1) as [[ecb | err] w2];
      cbn [snd] in *; [|apply (traffic_more _ 3); [lia | exact H12]].
    unfold bind at 1.
    match goal with |- context [page_fetch ?rq ?a e w2] =>
      pose proof (page_fetch_log rq a e w2) as H3;
      assert (Ht : traffic CardAmex 1 w2 (sent e rq w2)) by (apply traffic_sent; reflexivity);
      destruct (page_fetch rq a e w2) as [[data | err] w3] end;
      cbn [fst snd] in *; subst w3;
      pose proof (traffic_trans _ _ _ _ _ _ H12 Ht) as H; [|exact H].
    unfold Amex.apply_variance, ret, throw. repeat break_match; exact H.
Qed.

(** X15: the requests of one lookup.  A lookup sends at most one request
    for Mastercard, two for Visa and four for Amex (a launch, the
    resolver's two, the fetch), all of them added at the end of the log;
    and with the network's page open no browser is launched and the page
    stays open: a browser is launched only by a lookup that finds no
    page. *)
Theorem lookup_requests (p : card) (date base quote : string) (amount : float)
    (e : env) (w : world) :
  exists l : list request,
    net_log (snd (card_rate p date base quote amount e w)) = (net_log w ++ l)%list
    /\ (length l <= most_requests p)%nat
    /\ (page_open p w = true ->
        page_open p (snd (card_rate p date base quote amount e w)) = true
        /\ Forall (fun rq => is_launch rq = false) l).
Proof.
  change (traffic p (most_requests p) w (snd (card_rate p date base quote amount e w))).
  rewrite card_rate_run. cbv zeta.
  destruct (fresh_value _ _ _); [apply (traffic_more p 0); [lia | apply traffic_refl]|].
  set (key := card_key p date base quote amount).
  set (w0 := match card_cache p w !! key with
             | Some _ => set_card_cache p (delete key (card_cache p w)) w
             | None => w
             end).
  assert (H0 : traffic p 0 w w0).
  { subst w0. destruct (card_cache p w !! key); [apply traffic_cache | apply traffic_refl]. }
  pose proof (card_via_traffic p date base quote amount e w0) as H1.
  pose proof (traffic_trans _ _ _ _ _ _ H0 H1) as H. cbn [Nat.add] in H.
  destruct (card_via p date base quote amount e w0) as [[r | err] w1]; cbn [snd] in *;
    [|exact H].
  destruct (is_null r); cbn [snd]; [exact H|].
  pose proof (traffic_trans _ _ _ _ _ _ H
                (traffic_cache p p (<[key := {| value := r; timestamp := now w1 |}]>
                                      (card_cache p w1)) w1)) as H'.
  rewrite Nat.add_0_r in H'. exact H'.
Qed.

(** ** The amount of a request *)


(** ** Cache keys *)

Lemma date_format_shape (s : string) :
  Server.date_format s = true ->
  exists c1 c2 c3 c4 c5 c6 c7 c8 c9 c10 : ascii,
    s = String c1 (String c2 (String c3 (String c4 (String c5
          (String c6 (String c7 (String c8 (String c9 (String c10 EmptyString))))))))).
Proof.
  intros H. unfold Server.date_format in H.
  repeat (cbv beta iota in H;
          match type of H with
          | match ?x with _ => _ end = true => destruct x; try discriminate H
          end).
  repeat eexists.
Qed.

Lemma currency_format_shape (s : string) :
  Server.currency_format s = true ->
  exists c1 c2 c3 : ascii, s = String c1 (String c2 (String c3 EmptyString)).
Proof.
  intros H.
  do 3 (destruct s as [|? s]; [discriminate H|]).
  destruct s; [|discriminate H].
  repeat eexists.
Qed.

(** X17: for dates and currency codes that pass the handlers' checks, a
    cache key names one lookup: two lookups of a network share a key only
    if they have the same date, the same base, the same quote and, for the
    two networks that key by the amount, the same printed amount. *)
Theorem card_key_injective (p : card) (date base quote date' base' quote' : string)
    (amount amount' : float) :
  Server.date_format date = true -> Server.date_format date' = true ->
  Server.currency_format base = true -> Server.currency_format base' = true ->
  Server.currency_format quote = true -> Server.currency_format quote' = true ->
  card_key p date base quote amount = card_key p date' base' quote' amount' ->
  date = date' /\ base = base' /\ quote = quote'
  /\ key_amount p amount = key_amount p amount'.
Proof.
  intros Hd Hd' Hb Hb' Hq Hq' Hkey.
  destruct (date_format_shape date Hd) as (a1 & a2 & a3 & a4 & a5 & a6 & a7 & a8 & a9 & a10 & ->).
  destruct (date_format_shape date' Hd')
    as (b1 & b2 & b3 & b4 & b5 & b6 & b7 & b8 & b9 & b10 & ->).
  destruct (currency_format_shape base Hb) as (x1 & x2 & x3 & ->).
  destruct (currency_format_shape base' Hb') as (y1 & y2 & y3 & ->).
  destruct (currency_format_shape quote Hq) as (u1 & u2 & u3 & ->).
  destruct (currency_format_shape quote' Hq') as (v1 & v2 & v3 & ->).
  destruct p; cbn [card_key key_amount] in *;
    unfold Mastercard.getCacheKey, Visa.getCacheKey, Amex.getCacheKey in Hkey;
    cbn [String.app] in Hkey;
    injection Hkey as -> -> -> -> -> -> -> -> -> -> -> -> -> -> -> ->;
    repeat split; try reflexivity; assumption.
Qed.

Lemma card_key_injective_witness :
  "2024-01-08" = "2024-01-08" /\ "USD" = "USD" /\ "JPY" = "JPY"
  /\ key_amount CardAmex 1%float = key_amount CardAmex 250%float.
Proof.
  apply (card_key_injective CardAmex "2024-01-08" "USD" "JPY" "2024-01-08" "USD" "JPY"
           1%float 250%float); reflexivity.
Defined.

(** ** What the resolver resolves to *)




(** ** The single-rate route *)

Lemma rate_tail (provider date base quote source : string) (amount : float) (r : rate)
    (m : M rate) (e : env) (w : world) :
  exists body : Server.rate_body,
    fst (bind (Server.catch_null m)
           (fun yesterdayRate =>
              ret (Server.rate_answer provider date base quote amount r yesterdayRate source))
           e w)
    = Ok (Server.Json200 body)
    /\ rate_in body = Some r.
Proof.
  unfold bind. destruct (catch_null_settles m e w) as (y & w' & ->).
  eexists. split; reflexivity.
Qed.

(** X19: the single-rate route, for a known provider, a query that
    passes the checks and a date that is one.  The response follows the
    lookup of the requested date alone: when that lookup throws, the
    response is the 500 error with its message; when it returns, the
    response is a 200 that carries the returned rate, or the notice that
    the pair is unavailable for the Amex null.  The lookup of the day
    before decides nothing. *)
Theorem single_rate_route (provider : string) (q : Server.query) (date base quote : string)
    (day : Z) (lookup : string -> string -> string -> float -> M rate)
    (e : env) (w : world) :
  lookup_of provider = Some lookup ->
  passes_checks q date base quote ->
  Date.toDate date = Some day ->
  match fst (lookup date base quote (Server.amount_of (Server.q_amount q)) e w) with
  | Ok r =>
      exists body : Server.rate_body,
        fst (Server.api_rate provider q e w) = Ok (Server.Json200 body)
        /\ rate_in body = shown provider r
  | Throw err =>
      fst (Server.api_rate provider q e w)
      = Ok (Server.JsonError 500 "Failed to fetch rate" (Some (message err)))
  end.
Proof.
  intros Hlookup (Hd & Hb & Hq & Hdate & Hbase & Hquote) Hday.
  remember (fst (Server.api_rate provider q e w)) as response eqn:Hrun.
  unfold Server.api_rate, try_catch in Hrun. rewrite Hd, Hb, Hq in Hrun.
  rewrite (date_format_not_missing date Hdate),
          (currency_format_not_missing base Hbase),
          (currency_format_not_missing quote Hquote) in Hrun.
  cbn [orb default from_option id negb] in Hrun.
  rewrite Hdate, Hbase, Hquote in Hrun. cbn [orb negb] in Hrun.
  unfold bind at 1, Server.yesterday_of in Hrun. rewrite Hday in Hrun.
  unfold ret at 1 in Hrun. cbv beta iota in Hrun.
  unfold lookup_of, shown in *.
  set (amount := Server.amount_of (Server.q_amount q)) in *.
  set (yesterdayStr := Date.isoDate (day - 1)) in *.
  destruct (String.eqb provider "mid") eqn:Hmid.
  { injection Hlookup as <-. apply String.eqb_eq in Hmid. subst provider. cbn [String.eqb andb].
    unfold bind at 1 in Hrun.
    destruct (getMidMarketRate date base quote e w) as [[r | err] w1]; cbn [fst];
      [|subst response; reflexivity].
    destruct (rate_tail "mid" date base quote "ECB via Frankfurter" amount r
                (getMidMarketRate yesterdayStr base quote) e w1) as (body & Hbody & Hr).
    exists body. split; [|exact Hr]. subst response.
    destruct (bind _ _ e w1) as [[a | err] w2]; cbn [fst] in *; [exact Hbody | discriminate Hbody]. }
  destruct (String.eqb provider "mc") eqn:Hmc.
  { injection Hlookup as <-. apply String.eqb_eq in Hmc. subst provider. cbn [String.eqb andb].
    unfold bind at 1 in Hrun.
    destruct (Mastercard.getMastercardRate date base quote amount e w) as [[r | err] w1];
      cbn [fst]; [|subst response; reflexivity].
    destruct (rate_tail "mc" date base quote "Mastercard" amount r
                (Mastercard.getMastercardRate yesterdayStr base quote amount) e w1)
      as (body & Hbody & Hr).
    exists body. split; [|exact Hr]. subst response.
    destruct (bind _ _ e w1) as [[a | err] w2]; cbn [fst] in *; [exact Hbody | discriminate Hbody]. }
  destruct (String.eqb provider "visa") eqn:Hvisa.
  { injection Hlookup as <-. apply String.eqb_eq in Hvisa. subst provider. cbn [String.eqb andb].
    unfold bind at 1 in Hrun.
    destruct (Visa.getVisaRate date base quote amount e w) as [[r | err] w1];
      cbn [fst]; [|subst response; reflexivity].
    destruct (rate_tail "visa" date base quote "Visa" amount r
                (Visa.getVisaRate yesterdayStr base quote amount) e w1)
      as (body & Hbody & Hr).
    exists body. split; [|exact Hr]. subst response.
    destruct (bind _ _ e w1) as [[a | err] w2]; cbn [fst] in *; [exact Hbody | discriminate Hbody]. }
  destruct (String.eqb provider "amex") eqn:Hamex; [|discriminate Hlookup].
  injection Hlookup as <-. apply String.eqb_eq in Hamex. subst provider. cbn [andb].
  unfold bind at 1 in Hrun.
  destruct (Amex.getAmexRate date base quote amount e w) as [[r | err] w1];
    cbn [fst]; [|subst response; reflexivity].
  destruct (is_null r) eqn:Hnull.
  - subst response. eexists. split; reflexivity.
  - destruct (rate_tail "amex" date base quote "American Express" amount r
                (Amex.getAmexRate yesterdayStr base quote amount) e w1)
      as (body & Hbody & Hr).
    exists body. split; [|exact Hr]. subst response.
    destruct (bind _ _ e w1) as [[a | err] w2]; cbn [fst] in *; [exact Hbody | discriminate Hbody].
Qed.

Lemma single_rate_route_witness :
  fst (Server.api_rate "mc" (Sample.query "2024-01-09" "USD" "JPY") Sample.mc_down Sample.start)
  = Ok (Server.JsonError 500 "Failed to fetch rate"
          (Some "Failed to fetch Mastercard rate from API")).
Proof.
  exact (single_rate_route "mc" (Sample.query "2024-01-09" "USD" "JPY") "2024-01-09" "USD" "JPY"
           19731 Mastercard.getMastercardRate Sample.mc_down Sample.start
           ltac:(reflexivity) ltac:(repeat split; reflexivity) ltac:(vm_compute; reflexivity)).
Defined.
